(** * Routine builder: selection store, conversation log and completion client

    A shallow embedding of [script.js].  JavaScript values read from JSON are
    modelled by the untyped datatype [JS.value]; the script's global mutable
    state (catalog cache, selection [Map], conversation array, chat window,
    [localStorage] entry, the two buttons) is a record threaded through a
    state-and-exception monad, so that [try]/[catch]/[finally] and early
    [throw]s read as in the source.

    Conventions of the model:
    - a string is a sequence of code units below 256 ([String.string]);
    - a number is an integer ([Z], taken within the range that JavaScript
      prints digit by digit); fractions and [NaN] are outside the model;
    - a listener is first given as a whole, the outcome of the request it
      awaits being an argument; the [async] listeners are then cut at that
      [await], and the page becomes a transition system in which other
      listeners run while a request is in flight;
    - [JSON.parse] and [JSON.stringify] belong to the platform and are
      parameters of the development (section [Script]). *)

From Stdlib Require Import ZArith List String Ascii Bool Lia Permutation DecimalString.
From Stdlib Require Import DecimalPos.
Import ListNotations.
Open Scope string_scope.
Open Scope list_scope.

(** ** JavaScript values *)

Module JS.

#[local] Set Warnings "-register-all".

Inductive value : Type :=
| Undefined
| Null
| Bool (b : bool)
| Num (n : Z)
| Str (s : string)
| Arr (items : list value)
| Obj (fields : list (string * value)).

(** Exceptions: [Error] is what the script throws itself, the others are
    raised by the platform (their messages are engine-defined). *)
Inductive exn : Type :=
| Error (message : string)
| TypeError (message : string)
| SyntaxError (message : string)
| DOMException (name message : string).

Definition message (e : exn) : string :=
  match e with
  | Error m | TypeError m | SyntaxError m | DOMException _ m => m
  end.

Inductive result (A : Type) : Type :=
| Ok (a : A)
| Throw (e : exn).
Arguments Ok {A} a.
Arguments Throw {A} e.

(** [ToBoolean]. *)
Definition truthy (v : value) : bool :=
  match v with
  | Undefined | Null => false
  | Bool b => b
  | Num n => negb (n =? 0)%Z
  | Str s => negb (s =? "")%string
  | Arr _ | Obj _ => true
  end.

(** [a || b]; the operands of the script have no effects. *)
Definition or (a b : value) : value := if truthy a then a else b.

Definition nullish (v : value) : bool :=
  match v with Undefined | Null => true | _ => false end.

(** [a === b] for two values that were allocated separately: primitives
    compare by value, two arrays or objects are distinct references. *)
Definition strict_eq (a b : value) : bool :=
  match a, b with
  | Undefined, Undefined => true
  | Null, Null => true
  | Bool x, Bool y => Bool.eqb x y
  | Num x, Num y => (x =? y)%Z
  | Str x, Str y => (x =? y)%string
  | _, _ => false
  end.

Fixpoint lookup (name : string) (fields : list (string * value)) : value :=
  match fields with
  | [] => Undefined
  | (k, v) :: rest => if (k =? name)%string then v else lookup name rest
  end.

(** [v.name] on a non-nullish [v], for a name that no prototype defines
    (all names read by the script are of this kind). *)
Definition prop (v : value) (name : string) : value :=
  match v with
  | Obj fields => lookup name fields
  | _ => Undefined
  end.

(** [v.name]: throws on [null] and [undefined]. *)
Definition member (v : value) (name : string) : result value :=
  if nullish v
  then Throw (TypeError ("Cannot read properties of null or undefined (reading '" ++ name ++ "')")%string)
  else Ok (prop v name).

(** [v?.name]. *)
Definition opt_member (v : value) (name : string) : value :=
  if nullish v then Undefined else prop v name.

(** [v?.[0]]. *)
Definition opt_index0 (v : value) : value :=
  match v with
  | Undefined | Null => Undefined
  | Arr items => nth 0 items Undefined
  | Str (String c _) => Str (String c EmptyString)
  | Obj fields => lookup "0" fields
  | _ => Undefined
  end.

Definition string_of_Z (n : Z) : string := NilZero.string_of_int (Z.to_int n).

(** [String(v)]. *)
Fixpoint to_String (v : value) : string :=
  match v with
  | Undefined => "undefined"
  | Null => "null"
  | Bool true => "true"
  | Bool false => "false"
  | Num n => string_of_Z n
  | Str s => s
  | Arr items =>
      (fix join (l : list value) : string :=
         match l with
         | [] => ""
         | x :: rest =>
             let sx := if nullish x then "" else to_String x in
             match rest with
             | [] => sx
             | _ => (sx ++ "," ++ join rest)%string
             end
         end) items
  | Obj _ => "[object Object]"
  end.

(** [fields] has a member called [name] (of whatever value). *)
Definition has_key (name : string) (fields : list (string * value)) : bool :=
  existsb (fun kv => (fst kv =? name)%string) fields.

(** [String(v)] with its failure: the conversion of an object asks the
    object for [toString], and a member of this name in the object itself,
    which in a value read from JSON is never a function, hides the inherited
    one; [valueOf] then hands back the object, and the conversion throws.
    An array joins the conversions of its elements. *)
Fixpoint ToString (v : value) : result string :=
  match v with
  | Undefined => Ok "undefined"
  | Null => Ok "null"
  | Bool true => Ok "true"
  | Bool false => Ok "false"
  | Num n => Ok (string_of_Z n)
  | Str s => Ok s
  | Arr items =>
      (fix join (l : list value) : result string :=
         match l with
         | [] => Ok ""
         | x :: rest =>
             match (if nullish x then Ok "" else ToString x) with
             | Throw e => Throw e
             | Ok sx =>
                 match rest with
                 | [] => Ok sx
                 | _ =>
                     match join rest with
                     | Throw e => Throw e
                     | Ok sr => Ok (sx ++ "," ++ sr)%string
                     end
                 end
             end
         end) items
  | Obj fields =>
      if has_key "toString" fields
      then Throw (TypeError "Cannot convert object to primitive value")
      else Ok "[object Object]"
  end.

(** White space stripped by [String.prototype.trim], among code units below 256. *)
Definition is_space (c : ascii) : bool :=
  let n := nat_of_ascii c in
  ((9 <=? n) && (n <=? 13) || (n =? 32) || (n =? 160))%nat.

Fixpoint trimStart (s : string) : string :=
  match s with
  | EmptyString => EmptyString
  | String c rest => if is_space c then trimStart rest else s
  end.

Fixpoint trimEnd (s : string) : string :=
  match s with
  | EmptyString => EmptyString
  | String c rest =>
      match trimEnd rest with
      | EmptyString => if is_space c then EmptyString else String c EmptyString
      | rest' => String c rest'
      end
  end.

Definition trim (s : string) : string := trimEnd (trimStart s).

(** [s.replace(/c/g, by)] for a single character pattern. *)
Fixpoint replaceAll (c : ascii) (by_ : string) (s : string) : string :=
  match s with
  | EmptyString => EmptyString
  | String d rest =>
      if Ascii.eqb d c then (by_ ++ replaceAll c by_ rest)%string
      else String d (replaceAll c by_ rest)
  end.

Definition isArray (v : value) : bool :=
  match v with Arr _ => true | _ => false end.

Fixpoint decimal (acc : Z) (s : string) : option Z :=
  match s with
  | EmptyString => Some acc
  | String c rest =>
      let n := nat_of_ascii c in
      if ((48 <=? n) && (n <=? 57))%nat
      then decimal (acc * 10 + Z.of_nat (n - 48))%Z rest
      else None
  end.

(** [Number(s)] for a text: [Some n] for a decimal integer with an optional
    sign (and for the blank text, which is 0), [None] for [NaN]; the other
    numeric literals are outside the model. *)
Definition Number_of_text (s : string) : option Z :=
  match trim s with
  | EmptyString => Some 0%Z
  | String "-" (String c rest) => option_map Z.opp (decimal 0 (String c rest))
  | String "+" (String c rest) => decimal 0 (String c rest)
  | t => decimal 0 t
  end.

End JS.

(** ** The script's state *)

(** The three roles a message carries ([role] strings of the source). *)
Inductive Role : Type := system | user | assistant.

Definition Role_eqb (a b : Role) : bool :=
  match a, b with
  | system, system | user, user | assistant, assistant => true
  | _, _ => false
  end.

(** An entry of the [messages] array: [{ role, content }]. *)
Record Message : Type := mkMessage { role : Role; content : string }.

(** A child of [chatWindow] made by [appendMessageToChat]: a [div] of class
    [chat-message <role>]; [innerHTML] is the markup the script assigns to
    it (what the browser builds from that markup, and would write out again,
    is not modelled). *)
Record ChatEntry : Type := mkChatEntry { entry_role : Role; innerHTML : string }.

(** A product card of the grid: its [data-id] attribute and whether it
    carries the class [selected]. *)
Record Card : Type := mkCard { data_id : string; card_selected : bool }.

(** The [localStorage] entry under [STORAGE_KEY].  [ls_disabled]: every
    access throws (storage turned off); [ls_full]: [setItem] throws (quota). *)
Record Storage : Type := mkStorage {
  ls_item : option string;
  ls_disabled : bool;
  ls_full : bool
}.

(** What the script asks of the outside world, in order. *)
Inductive Event : Type :=
| EvFetch (url : string)
| EvPost (url : string) (sent : list Message) (promptId : string)
| EvSetItem (key value : string)
| EvWarn (text : string)
| EvError (text : string).

(** A [Response]: [ok] is derived from the status as the Fetch standard does;
    [text()] yields [body], [json()] parses it. *)
Record Response : Type := mkResponse { status : Z; body : string }.

Definition ok (r : Response) : bool := ((200 <=? status r) && (status r <=? 299))%Z.

(** How a [fetch] settles: the promise rejects or resolves to a response. *)
Inductive FetchOutcome : Type :=
| Rejected (e : JS.exn)
| Resolved (r : Response).

Record State : Type := mkState {
  allProductsCache : JS.value;                     (* window.allProductsCache *)
  selectedProducts : list (JS.value * JS.value);   (* Map, in insertion order *)
  messages : list Message;
  chatWindow : list ChatEntry;
  productCards : list Card;
  localStorage : Storage;
  userInput : string;                              (* #userInput.value *)
  sendBtn_disabled : bool;
  generateRoutineBtn_disabled : bool;
  trace : list Event
}.

Definition with_cache (v : JS.value) (st : State) : State :=
  mkState v (selectedProducts st) (messages st) (chatWindow st) (productCards st)
          (localStorage st) (userInput st) (sendBtn_disabled st)
          (generateRoutineBtn_disabled st) (trace st).

Definition with_selected (m : list (JS.value * JS.value)) (st : State) : State :=
  mkState (allProductsCache st) m (messages st) (chatWindow st) (productCards st)
          (localStorage st) (userInput st) (sendBtn_disabled st)
          (generateRoutineBtn_disabled st) (trace st).

Definition with_messages (l : list Message) (st : State) : State :=
  mkState (allProductsCache st) (selectedProducts st) l (chatWindow st) (productCards st)
          (localStorage st) (userInput st) (sendBtn_disabled st)
          (generateRoutineBtn_disabled st) (trace st).

Definition with_chatWindow (l : list ChatEntry) (st : State) : State :=
  mkState (allProductsCache st) (selectedProducts st) (messages st) l (productCards st)
          (localStorage st) (userInput st) (sendBtn_disabled st)
          (generateRoutineBtn_disabled st) (trace st).

Definition with_productCards (l : list Card) (st : State) : State :=
  mkState (allProductsCache st) (selectedProducts st) (messages st) (chatWindow st) l
          (localStorage st) (userInput st) (sendBtn_disabled st)
          (generateRoutineBtn_disabled st) (trace st).

Definition with_localStorage (s : Storage) (st : State) : State :=
  mkState (allProductsCache st) (selectedProducts st) (messages st) (chatWindow st)
          (productCards st) s (userInput st) (sendBtn_disabled st)
          (generateRoutineBtn_disabled st) (trace st).

Definition with_userInput (s : string) (st : State) : State :=
  mkState (allProductsCache st) (selectedProducts st) (messages st) (chatWindow st)
          (productCards st) (localStorage st) s (sendBtn_disabled st)
          (generateRoutineBtn_disabled st) (trace st).

Definition with_sendBtn (b : bool) (st : State) : State :=
  mkState (allProductsCache st) (selectedProducts st) (messages st) (chatWindow st)
          (productCards st) (localStorage st) (userInput st) b
          (generateRoutineBtn_disabled st) (trace st).

Definition with_generateRoutineBtn (b : bool) (st : State) : State :=
  mkState (allProductsCache st) (selectedProducts st) (messages st) (chatWindow st)
          (productCards st) (localStorage st) (userInput st) (sendBtn_disabled st)
          b (trace st).

Definition with_trace (l : list Event) (st : State) : State :=
  mkState (allProductsCache st) (selectedProducts st) (messages st) (chatWindow st)
          (productCards st) (localStorage st) (userInput st) (sendBtn_disabled st)
          (generateRoutineBtn_disabled st) l.

(** ** Computations: state passing with exceptions

    A computation returns a value or throws, and in both cases leaves a
    state: what was written before a [throw] stays written. *)

Definition M (A : Type) : Type := State -> JS.result A * State.

Definition ret {A} (a : A) : M A := fun st => (JS.Ok a, st).

Definition throw {A} (e : JS.exn) : M A := fun st => (JS.Throw e, st).

Definition bind {A B} (m : M A) (k : A -> M B) : M B :=
  fun st =>
    match m st with
    | (JS.Ok a, st') => k a st'
    | (JS.Throw e, st') => (JS.Throw e, st')
    end.

Definition gets {A} (f : State -> A) : M A := fun st => (JS.Ok (f st), st).

Definition modify (f : State -> State) : M unit := fun st => (JS.Ok tt, f st).

Definition lift {A} (r : JS.result A) : M A := fun st => (r, st).

Declare Scope js_scope.
Delimit Scope js_scope with js.
Notation "x <- m ;; k" := (bind m (fun x => k))
  (at level 61, m at next level, right associativity) : js_scope.
Notation "m ;; k" := (bind m (fun _ => k))
  (at level 61, right associativity) : js_scope.
Open Scope js_scope.

(** [try { body } catch (e) { handler e }]. *)
Definition try_catch {A} (body : M A) (handler : JS.exn -> M A) : M A :=
  fun st =>
    match body st with
    | (JS.Ok a, st') => (JS.Ok a, st')
    | (JS.Throw e, st') => handler e st'
    end.

(** [try { body } finally { fin }]: [fin] runs on both exits; if it throws,
    its exception replaces the pending one. *)
Definition try_finally {A} (body : M A) (fin : M unit) : M A :=
  fun st =>
    match body st with
    | (r, st') =>
        match fin st' with
        | (JS.Ok _, st'') => (r, st'')
        | (JS.Throw e, st'') => (JS.Throw e, st'')
        end
    end.

(** [for (x of l) f(x)], as [Array.prototype.forEach] runs its callback. *)
Fixpoint forEach {A} (l : list A) (f : A -> M unit) : M unit :=
  match l with
  | [] => ret tt
  | x :: rest => f x ;; forEach rest f
  end.

Definition emit (e : Event) : M unit :=
  modify (fun st => with_trace (trace st ++ [e]) st).

(** An event listener: an exception that escapes it is reported by the
    browser and the state stays as the listener left it. *)
Definition listener (m : M unit) (st : State) : State := snd (m st).

(** ** The selection [Map]

    Keys are compared with SameValueZero, which on the keys that ever enter
    the map (primitives that matched a product's [id]) is [===]. *)

Module Map.

Definition t : Type := list (JS.value * JS.value).

Definition has (k : JS.value) (m : t) : bool :=
  existsb (fun kv => JS.strict_eq (fst kv) k) m.

(** [m.set(k, v)]: an existing key keeps its place and takes the new value,
    a new key goes to the end. *)
Fixpoint set (k v : JS.value) (m : t) : t :=
  match m with
  | [] => [(k, v)]
  | (k', v') :: rest =>
      if JS.strict_eq k' k then (k', v) :: rest else (k', v') :: set k v rest
  end.

Definition delete (k : JS.value) (m : t) : t :=
  filter (fun kv => negb (JS.strict_eq (fst kv) k)) m.

Definition keys (m : t) : list JS.value := map fst m.

Definition values (m : t) : list JS.value := map snd m.

Definition size (m : t) : nat := List.length m.

End Map.

(** ** Constants of the script *)

Definition nl : string := String (ascii_of_nat 10) EmptyString.
Definition dquote : ascii := ascii_of_nat 34.

Definition SYSTEM_PROMPT : string :=
  "You are a helpful beauty assistant specialized in L'Oréal products. Only answer questions about skincare, haircare, makeup, fragrance, product usage, routines, ingredients, and L'Oréal brand/product information. Use provided selected products and generated routines as context to give concise, practical guidance tailored to the user's skin/hair type when available. If the user asks about topics outside beauty/cosmetics/L'Oréal (for example politics, finance, legal advice, medical diagnosis beyond general cosmetic guidance, or unrelated technical questions), politely refuse with a short response such as: 'Sorry, I can only help with beauty and L'Oréal product questions. Please ask about skincare, haircare, makeup, fragrance, or product usage.' Do not provide medical, legal, or other professional advice—recommend a qualified professional when appropriate.".

Definition PROMPT_ID : string := "pmpt_6903f2d96e2081939c6273ab361fb3760f15a6ced37d327a".
Definition STORAGE_KEY : string := "selectedProductIds".
Definition WORKER_URL : string := "https://loreal-chatbot.aocampo2533.workers.dev/".
Definition PRODUCTS_URL : string := "products.json".

(** The state in which the top level of the script leaves the page: nothing
    cached or selected, the system message alone in [messages], and the
    routine button disabled by the initial [renderSelectedProducts()]. *)
Definition initial (ls : Storage) : State :=
  mkState JS.Undefined [] [mkMessage system SYSTEM_PROMPT] [] [] ls "" false true [].

(** ** Helpers *)

Definition escapeHtml (str : string) : string :=
  JS.replaceAll "'"%char "&#039;"
    (JS.replaceAll dquote "&quot;"
       (JS.replaceAll ">"%char "&gt;"
          (JS.replaceAll "<"%char "&lt;"
             (JS.replaceAll "&"%char "&amp;" str)))).

Definition message_markup (safeText : string) : string :=
  ("<div class=" ++ String dquote "message-content" ++ String dquote ">"
     ++ JS.replaceAll (ascii_of_nat 10) "<br>" (escapeHtml safeText) ++ "</div>")%string.

Definition appendMessageToChat (r : Role) (text : string) : M unit :=
  let safeText := JS.trim text in
  modify (fun st =>
    with_chatWindow (chatWindow st ++ [mkChatEntry r (message_markup safeText)]) st).

(** [localStorage.getItem(STORAGE_KEY)]. *)
Definition getItem : M (option string) :=
  fun st =>
    if ls_disabled (localStorage st)
    then (JS.Throw (JS.DOMException "SecurityError" "The operation is insecure."), st)
    else (JS.Ok (ls_item (localStorage st)), st).

(** [localStorage.setItem(STORAGE_KEY, v)]. *)
Definition setItem (v : string) : M unit :=
  fun st =>
    let ls := localStorage st in
    if ls_disabled ls
    then (JS.Throw (JS.DOMException "SecurityError" "The operation is insecure."), st)
    else
      let st1 := with_trace (trace st ++ [EvSetItem STORAGE_KEY v]) st in
      if ls_full ls
      then (JS.Throw (JS.DOMException "QuotaExceededError" "The quota has been exceeded."), st1)
      else (JS.Ok tt, with_localStorage (mkStorage (Some v) (ls_disabled ls) (ls_full ls)) st1).

(** [fetch(url, ...)] settling as [o]; [ev] records the request. *)
Definition fetch (ev : Event) (o : FetchOutcome) : M Response :=
  emit ev ;;
  match o with
  | Rejected e => throw e
  | Resolved r => ret r
  end.

(** [items.find((p) => p.id === id)]. *)
Fixpoint find_by_id (items : list JS.value) (id : JS.value) : JS.result JS.value :=
  match items with
  | [] => JS.Ok JS.Undefined
  | p :: rest =>
      match JS.member p "id" with
      | JS.Throw e => JS.Throw e
      | JS.Ok pid => if JS.strict_eq pid id then JS.Ok p else find_by_id rest id
      end
  end.

(** [(window.allProductsCache || []).find((p) => p.id === id)]. *)
Definition find_product (cache id : JS.value) : JS.result JS.value :=
  match JS.or cache (JS.Arr []) with
  | JS.Arr items => find_by_id items id
  | _ => JS.Throw (JS.TypeError "(window.allProductsCache || []).find is not a function")
  end.

Fixpoint highlight (id : string) (on : bool) (cards : list Card) : list Card :=
  match cards with
  | [] => []
  | c :: rest =>
      if (data_id c =? id)%string then mkCard (data_id c) on :: rest
      else c :: highlight id on rest
  end.

(** Adds or removes the class [selected] on the first card whose [data-id]
    is the text of [productId].  The text is taken to be one that can stand
    between the quotes of the attribute selector as it is (no quote,
    backslash or line break), as the text of a number is. *)
Definition updateCardHighlight (productId : JS.value) : M unit :=
  modify (fun st =>
    with_productCards
      (highlight (JS.to_String productId)
                 (Map.has productId (selectedProducts st)) (productCards st)) st).

(** The chips are a projection of the map; what the rest of the script
    observes is the state of the routine button.  (The members of a product
    that a chip shows are taken to be texts or numbers, whose interpolation
    does not fail.) *)
Definition renderSelectedProducts : M unit :=
  modify (fun st =>
    with_generateRoutineBtn (Nat.eqb (Map.size (selectedProducts st)) 0) st).

(** Removes the last child of [chatWindow] matching [.chat-message.assistant]. *)
Fixpoint remove_last_assistant (l : list ChatEntry) : list ChatEntry :=
  match l with
  | [] => []
  | x :: rest =>
      if existsb (fun y => Role_eqb (entry_role y) assistant) rest
      then x :: remove_last_assistant rest
      else if Role_eqb (entry_role x) assistant then rest else x :: rest
  end.

(** The error names of the design, as the script throws them. *)
Definition CompletionEndpointError (statusCode : Z) (bodyText : string) : JS.exn :=
  JS.Error ("Worker error: " ++ JS.string_of_Z statusCode ++ " " ++ bodyText)%string.

Definition MalformedCompletionResponse : JS.exn :=
  JS.Error "No assistant text returned from worker".

(** ** A reference JSON codec

    A concrete [JSON.stringify] and [JSON.parse] for the values of the model
    (integers for numbers), on which the script can be run. *)

Module RefJSON.

Definition backslash : ascii := ascii_of_nat 92.

Definition hex_digit (n : nat) : ascii :=
  if (n <? 10)%nat then ascii_of_nat (48 + n) else ascii_of_nat (87 + n).

Fixpoint quote_chars (s : string) : string :=
  match s with
  | EmptyString => EmptyString
  | String c rest =>
      let n := nat_of_ascii c in
      let tail := quote_chars rest in
      if (n =? 34)%nat then String backslash (String dquote tail)
      else if (n =? 92)%nat then String backslash (String backslash tail)
      else if (n =? 10)%nat then String backslash (String "n" tail)
      else if (n =? 13)%nat then String backslash (String "r" tail)
      else if (n =? 9)%nat then String backslash (String "t" tail)
      else if (n <? 32)%nat
      then String backslash
             (String "u" (String "0" (String "0"
                (String (hex_digit (n / 16)) (String (hex_digit (n mod 16)) tail)))))
      else String c tail
  end.

Definition quote (s : string) : string :=
  String dquote (quote_chars s ++ String dquote EmptyString)%string.

Fixpoint spaces (n : nat) : string :=
  match n with O => EmptyString | S k => String " " (spaces k) end.

Fixpoint join (sep : string) (l : list string) : string :=
  match l with
  | [] => EmptyString
  | [x] => x
  | x :: rest => (x ++ sep ++ join sep rest)%string
  end.

Definition bracket (open_ close_ : string) (space depth : nat) (parts : list string) : string :=
  match parts with
  | [] => (open_ ++ close_)%string
  | _ =>
      if (space =? 0)%nat then (open_ ++ join "," parts ++ close_)%string
      else
        let inner := (nl ++ spaces (space * S depth))%string in
        (open_ ++ inner ++ join ("," ++ inner) parts ++ nl ++ spaces (space * depth) ++ close_)%string
  end.

Fixpoint stringify_at (space depth : nat) (v : JS.value) : string :=
  match v with
  | JS.Undefined | JS.Null => "null"
  | JS.Bool true => "true"
  | JS.Bool false => "false"
  | JS.Num n => JS.string_of_Z n
  | JS.Str s => quote s
  | JS.Arr items =>
      bracket "[" "]" space depth
        ((fix elems (l : list JS.value) : list string :=
            match l with
            | [] => []
            | x :: rest => stringify_at space (S depth) x :: elems rest
            end) items)
  | JS.Obj fields =>
      bracket "{" "}" space depth
        ((fix members (l : list (string * JS.value)) : list string :=
            match l with
            | [] => []
            | (k, JS.Undefined) :: rest => members rest
            | (k, x) :: rest =>
                (quote k ++ (if (space =? 0)%nat then ":" else ": ")
                   ++ stringify_at space (S depth) x)%string :: members rest
            end) fields)
  end.

Definition stringify (v : JS.value) (space : nat) : string := stringify_at space 0 v.

Definition json_space (c : ascii) : bool :=
  let n := nat_of_ascii c in
  ((n =? 32) || (n =? 9) || (n =? 10) || (n =? 13))%nat.

Fixpoint skip_ws (s : string) : string :=
  match s with
  | EmptyString => EmptyString
  | String c rest => if json_space c then skip_ws rest else s
  end.

Definition digit_of (c : ascii) : option Z :=
  let n := nat_of_ascii c in
  if ((48 <=? n) && (n <=? 57))%nat then Some (Z.of_nat (n - 48)) else None.

Fixpoint digits (acc : Z) (s : string) : Z * string :=
  match s with
  | EmptyString => (acc, EmptyString)
  | String c rest =>
      match digit_of c with
      | Some d => digits (acc * 10 + d)%Z rest
      | None => (acc, s)
      end
  end.

(** An integer literal: no leading zero, no fraction, no exponent. *)
Definition number (s : string) : option (Z * string) :=
  match s with
  | String c rest =>
      match digit_of c with
      | Some 0%Z =>
          match rest with
          | String c' _ =>
              match digit_of c' with Some _ => None | None => Some (0%Z, rest) end
          | EmptyString => Some (0%Z, rest)
          end
      | Some d => Some (digits d rest)
      | None => None
      end
  | EmptyString => None
  end.

Definition hex_of (c : ascii) : option nat :=
  let n := nat_of_ascii c in
  if ((48 <=? n) && (n <=? 57))%nat then Some (n - 48)
  else if ((97 <=? n) && (n <=? 102))%nat then Some (n - 87)
  else if ((65 <=? n) && (n <=? 70))%nat then Some (n - 55)
  else None.

(** The characters of a string literal after its opening quote. *)
Fixpoint string_body (s : string) : option (string * string) :=
  match s with
  | EmptyString => None
  | String c rest =>
      let n := nat_of_ascii c in
      if (n =? 34)%nat then Some (EmptyString, rest)
      else if (n =? 92)%nat then
        match rest with
        | String e rest' =>
            let plain (d : ascii) :=
              match string_body rest' with
              | Some (str, r) => Some (String d str, r)
              | None => None
              end in
            match nat_of_ascii e with
            | 34 => plain dquote
            | 92 => plain backslash
            | 47 => plain "/"%char
            | 110 => plain (ascii_of_nat 10)
            | 114 => plain (ascii_of_nat 13)
            | 116 => plain (ascii_of_nat 9)
            | 98 => plain (ascii_of_nat 8)
            | 102 => plain (ascii_of_nat 12)
            | 117 =>
                match rest' with
                | String "0" (String "0" (String h (String l rest''))) =>
                    match hex_of h, hex_of l, string_body rest'' with
                    | Some a, Some b, Some (str, r) =>
                        Some (String (ascii_of_nat (16 * a + b)) str, r)
                    | _, _, _ => None
                    end
                | _ => None
                end
            | _ => None
            end
        | EmptyString => None
        end
      else if (n <? 32)%nat then None
      else
        match string_body rest with
        | Some (str, r) => Some (String c str, r)
        | None => None
        end
  end.

Fixpoint strip_prefix (p s : string) : option string :=
  match p, s with
  | EmptyString, _ => Some s
  | String a p', String b s' => if Ascii.eqb a b then strip_prefix p' s' else None
  | _, EmptyString => None
  end.

(** A later member of the same name replaces an earlier one. *)
Fixpoint put (k : string) (v : JS.value) (fields : list (string * JS.value))
  : list (string * JS.value) :=
  match fields with
  | [] => [(k, v)]
  | (k', v') :: rest =>
      if (k' =? k)%string then (k', v) :: rest else (k', v') :: put k v rest
  end.

Fixpoint parse_value (fuel : nat) (s : string) : option (JS.value * string) :=
  match fuel with
  | O => None
  | S f =>
      match skip_ws s with
      | EmptyString => None
      | String c rest =>
          match nat_of_ascii c with
          | 91 (* [ *) =>
              match skip_ws rest with
              | String "]" r => Some (JS.Arr [], r)
              | _ =>
                  match parse_elements f rest with
                  | Some (items, r) => Some (JS.Arr items, r)
                  | None => None
                  end
              end
          | 123 (* { *) =>
              match skip_ws rest with
              | String "}" r => Some (JS.Obj [], r)
              | _ =>
                  match parse_members f [] rest with
                  | Some (fields, r) => Some (JS.Obj fields, r)
                  | None => None
                  end
              end
          | 34 =>
              match string_body rest with
              | Some (str, r) => Some (JS.Str str, r)
              | None => None
              end
          | 45 (* - *) =>
              match number rest with
              | Some (n, r) => Some (JS.Num (- n), r)
              | None => None
              end
          | 116 =>
              match strip_prefix "true" (String c rest) with
              | Some r => Some (JS.Bool true, r)
              | None => None
              end
          | 102 =>
              match strip_prefix "false" (String c rest) with
              | Some r => Some (JS.Bool false, r)
              | None => None
              end
          | 110 =>
              match strip_prefix "null" (String c rest) with
              | Some r => Some (JS.Null, r)
              | None => None
              end
          | _ =>
              match number (String c rest) with
              | Some (n, r) => Some (JS.Num n, r)
              | None => None
              end
          end
      end
  end
with parse_elements (fuel : nat) (s : string) : option (list JS.value * string) :=
  match fuel with
  | O => None
  | S f =>
      match parse_value f s with
      | Some (v, r) =>
          match skip_ws r with
          | String "," r' =>
              match parse_elements f r' with
              | Some (vs, r'') => Some (v :: vs, r'')
              | None => None
              end
          | String "]" r' => Some ([v], r')
          | _ => None
          end
      | None => None
      end
  end
with parse_members (fuel : nat) (acc : list (string * JS.value)) (s : string)
  : option (list (string * JS.value) * string) :=
  match fuel with
  | O => None
  | S f =>
      match skip_ws s with
      | String c rest =>
          if (nat_of_ascii c =? 34)%nat then
            match string_body rest with
            | Some (k, r) =>
                match skip_ws r with
                | String ":" r' =>
                    match parse_value f r' with
                    | Some (v, r'') =>
                        match skip_ws r'' with
                        | String "," r3 => parse_members f (put k v acc) r3
                        | String "}" r3 => Some (put k v acc, r3)
                        | _ => None
                        end
                    | None => None
                    end
                | _ => None
                end
            | None => None
            end
          else None
      | EmptyString => None
      end
  end.

Definition parse (s : string) : JS.result JS.value :=
  match parse_value (2 * String.length s + 2) s with
  | Some (v, rest) =>
      match skip_ws rest with
      | EmptyString => JS.Ok v
      | _ => JS.Throw (JS.SyntaxError "Unexpected non-whitespace character after JSON")
      end
  | None => JS.Throw (JS.SyntaxError "Unexpected token in JSON")
  end.

End RefJSON.

(** ** Scenario data

    The two-product catalog and the responses of the design's scenarios. *)

Module Scenario.

Definition product (id : Z) (name category : string) : JS.value :=
  JS.Obj [("id", JS.Num id); ("name", JS.Str name); ("brand", JS.Str "L'Oreal");
          ("category", JS.Str category); ("description", JS.Str "A product.");
          ("image", JS.Str "img.png")].

Definition cleanser : JS.value := product 1 "Cleanser" "skincare".
Definition shampoo : JS.value := product 2 "Shampoo" "hair".
Definition catalog : list JS.value := [cleanser; shampoo].

Definition no_record : Storage := mkStorage None false false.

(** A page whose catalog is loaded and where nothing is selected yet. *)
Definition loaded : State := with_cache (JS.Arr catalog) (initial no_record).

(** The same page with both products selected, in the order 1, 2, and the
    record in step with the selection. *)
Definition both_selected : State :=
  with_localStorage
    (mkStorage (Some (RefJSON.stringify (JS.Arr [JS.Num 1; JS.Num 2]) 0)) false false)
    (with_generateRoutineBtn false
       (with_selected [(JS.Num 1, cleanser); (JS.Num 2, shampoo)] loaded)).

(** [{choices:[{message:{content:"Use AM then PM."}}]}]. *)
Definition completion_doc : JS.value :=
  JS.Obj [("choices",
           JS.Arr [JS.Obj [("message", JS.Obj [("content", JS.Str "Use AM then PM.")])]])].

Definition completion_ok : Response :=
  mkResponse 200 (RefJSON.stringify completion_doc 0).

Definition server_error : Response := mkResponse 500 "server error".


(** A 404 answer whose body is a JSON error report. *)
Definition not_found : Response :=
  mkResponse 404 (RefJSON.stringify (JS.Obj [("error", JS.Str "Not Found")]) 0).

(** The catalog document, served with status 200. *)
Definition catalog_doc : JS.value := JS.Obj [("products", JS.Arr catalog)].
Definition catalog_ok : Response := mkResponse 200 (RefJSON.stringify catalog_doc 2).

(** A record left by an earlier session: ids 1 and 99, the latter of a
    product that the catalog no longer has. *)
Definition stale_record : Storage :=
  mkStorage (Some (RefJSON.stringify (JS.Arr [JS.Num 1; JS.Num 99]) 0)) false false.

(** A starting page that finds this record. *)
Definition stale_page : State := initial stale_record.

(** The loaded page with a question typed in the chat box. *)
Definition asking : State := with_userInput "  How do I use these?  " loaded.

(** The loaded page showing both cards, the shampoo selected but its card
    not yet marked. *)
Definition grid : State :=
  with_productCards [mkCard "1" false; mkCard "2" false]
    (with_selected [(JS.Num 2, shampoo)] loaded).

(** Both products selected while the storage is full. *)
Definition full : State :=
  with_localStorage (mkStorage None false true) both_selected.


(** A reply made of white space only. *)
Definition blank_reply : Response :=
  mkResponse 200 (RefJSON.stringify (JS.Obj [("content", JS.Str "   ")]) 0).

Definition offline : FetchOutcome := Rejected (JS.TypeError "Failed to fetch").

End Scenario.

(** ** The script *)

Section Script.

(** The platform's [JSON.parse] (which throws a [SyntaxError] on bad input)
    and [JSON.stringify(v, null, space)] ([space = 0] when it is omitted). *)
Variable JSON_parse : string -> JS.result JS.value.
Variable JSON_stringify : JS.value -> nat -> string.

(** [response.json()]. *)
Definition json (r : Response) : M JS.value := lift (JSON_parse (body r)).

(** [response.text()]. *)
Definition text (r : Response) : M string := ret (body r).

(** *** Catalog loader *)

Definition loadProducts (o : FetchOutcome) : M JS.value :=
  cache <- gets allProductsCache ;;
  if JS.truthy cache then ret cache
  else
    response <- fetch (EvFetch PRODUCTS_URL) o ;;
    data <- json response ;;
    products <- lift (JS.member data "products") ;;
    modify (with_cache products) ;;
    gets allProductsCache.

(** *** Persistence *)

Definition saveSelectionsToStorage : M unit :=
  try_catch
    (ids <- gets (fun st => Map.keys (selectedProducts st)) ;;
     setItem (JSON_stringify (JS.Arr ids) 0))
    (fun e => emit (EvWarn "Could not save selections:")).

Definition restore_one (id : JS.value) : M unit :=
  cache <- gets allProductsCache ;;
  prod <- lift (find_product cache id) ;;
  if JS.truthy prod
  then modify (fun st => with_selected (Map.set id prod (selectedProducts st)) st)
  else ret tt.

Definition restoreSelectionsFromStorage (o : FetchOutcome) : M unit :=
  try_catch
    (raw <- getItem ;;
     match raw with
     | None | Some EmptyString => ret tt
     | Some raw =>
         ids <- lift (JSON_parse raw) ;;
         match ids with
         | JS.Arr ids =>
             loadProducts o ;;
             forEach ids restore_one ;;
             renderSelectedProducts ;;
             forEach ids updateCardHighlight
         | _ => ret tt
         end
     end)
    (fun e => emit (EvWarn "Could not restore selections:")).

(** *** Completion client *)

(** The chain [data?.content || data?.text || ... || null]. *)
Definition aiText_of (data : JS.value) : JS.value :=
  JS.or (JS.opt_member data "content")
   (JS.or (JS.opt_member data "text")
     (JS.or (JS.opt_member data "answer")
       (JS.or (JS.opt_member data "message")
         (JS.or (JS.opt_member
                   (JS.opt_member (JS.opt_index0 (JS.opt_member data "choices")) "message")
                   "content")
           (JS.or (JS.opt_member (JS.opt_index0 (JS.opt_member data "choices")) "text")
              JS.Null))))).

Definition sendMessagesToAI (messagesArray : list Message) (o : FetchOutcome) : M string :=
  resp <- fetch (EvPost WORKER_URL messagesArray PROMPT_ID) o ;;
  if negb (ok resp)
  then
    body_text <- text resp ;;
    throw (JS.Error ("Worker error: " ++ JS.string_of_Z (status resp) ++ " " ++ body_text)%string)
  else
    data <- json resp ;;
    let aiText := aiText_of data in
    if negb (JS.truthy aiText)
    then throw (JS.Error "No assistant text returned from worker")
    else
      converted <- lift (JS.ToString aiText) ;;
      ret (JS.trim converted).

(** *** Selection *)

(** The listeners call it with [Number(card.dataset.id)]; for [NaN], as for
    an integer that no product carries, the search finds nothing. *)
Definition toggleSelection (productId : Z) : M unit :=
  let id := JS.Num productId in
  cache <- gets allProductsCache ;;
  product <- lift (find_product cache id) ;;
  if negb (JS.truthy product) then ret tt
  else
    modify (fun st =>
      with_selected
        (if Map.has id (selectedProducts st)
         then Map.delete id (selectedProducts st)
         else Map.set id product (selectedProducts st)) st) ;;
    updateCardHighlight id ;;
    renderSelectedProducts ;;
    saveSelectionsToStorage.

(** The click listener of a chip's remove button. *)
Definition removeSelection (productId : Z) : M unit :=
  let id := JS.Num productId in
  modify (fun st => with_selected (Map.delete id (selectedProducts st)) st) ;;
  updateCardHighlight id ;;
  renderSelectedProducts ;;
  saveSelectionsToStorage.

(** The click listener of the clear button. *)
Definition clearSelections : M unit :=
  modify (with_selected []) ;;
  modify (fun st =>
    with_productCards (map (fun c => mkCard (data_id c) false) (productCards st)) st) ;;
  renderSelectedProducts ;;
  saveSelectionsToStorage.

(** *** Chat turn: the submit listener of the chat form *)

Definition push_message (m : Message) : M unit :=
  modify (fun st => with_messages (messages st ++ [m]) st).

Definition remove_placeholder : M unit :=
  modify (fun st => with_chatWindow (remove_last_assistant (chatWindow st)) st).

Definition enable_controls : M unit :=
  modify (with_sendBtn false) ;; modify (with_generateRoutineBtn false).

Definition chatSubmit (o : FetchOutcome) : M unit :=
  input <- gets userInput ;;
  let text := JS.trim input in
  if (text =? "")%string then ret tt
  else
    push_message (mkMessage user text) ;;
    appendMessageToChat user text ;;
    modify (with_userInput "") ;;
    modify (with_sendBtn true) ;;
    modify (with_generateRoutineBtn true) ;;
    appendMessageToChat assistant "Thinking..." ;;
    try_finally
      (try_catch
         (history <- gets messages ;;
          aiText <- sendMessagesToAI history o ;;
          remove_placeholder ;;
          appendMessageToChat assistant aiText ;;
          push_message (mkMessage assistant aiText))
         (fun err =>
            emit (EvError (JS.message err)) ;;
            appendMessageToChat assistant ("Error: " ++ JS.message err)%string))
      enable_controls.

(** *** Routine generation: the click listener of the routine button *)

Definition product_summary (p : JS.value) : JS.value :=
  JS.Obj [("id", JS.prop p "id"); ("name", JS.prop p "name");
          ("brand", JS.prop p "brand"); ("category", JS.prop p "category");
          ("description", JS.prop p "description")].

Definition routine_request (selected : list JS.value) : string :=
  ("Here are the selected products in JSON format:" ++ nl
     ++ JSON_stringify (JS.Arr selected) 2 ++ nl ++ nl
     ++ "Please provide a human-readable routine describing the order of use, recommended frequency (AM/PM/daily/weekly), and any important cautions.")%string.

Definition generateRoutine (o : FetchOutcome) : M unit :=
  selected <- gets (fun st => map product_summary (Map.values (selectedProducts st))) ;;
  if Nat.eqb (List.length selected) 0
  then appendMessageToChat assistant "Select at least one product to generate a routine."
  else
    push_message (mkMessage user (routine_request selected)) ;;
    appendMessageToChat user "(Selected products) See the list you provided." ;;
    appendMessageToChat assistant "Generating routine..." ;;
    modify (with_generateRoutineBtn true) ;;
    modify (with_sendBtn true) ;;
    try_finally
      (try_catch
         (history <- gets messages ;;
          aiText <- sendMessagesToAI history o ;;
          remove_placeholder ;;
          appendMessageToChat assistant aiText ;;
          push_message (mkMessage assistant aiText))
         (fun err =>
            emit (EvError (JS.message err)) ;;
            appendMessageToChat assistant ("Error generating routine: " ++ JS.message err)%string))
      (modify (with_generateRoutineBtn false) ;; modify (with_sendBtn false)).

(** *** The product grid: the change listener of the category filter *)

(** [products.filter((product) => product.category === selectedCategory)]. *)
Fixpoint filter_category (products : list JS.value) (selectedCategory : string)
  : JS.result (list JS.value) :=
  match products with
  | [] => JS.Ok []
  | p :: rest =>
      match JS.member p "category" with
      | JS.Throw e => JS.Throw e
      | JS.Ok c =>
          match filter_category rest selectedCategory with
          | JS.Throw e => JS.Throw e
          | JS.Ok kept =>
              JS.Ok (if JS.strict_eq c (JS.Str selectedCategory) then p :: kept else kept)
          end
      end
  end.

(** The members of a product that the template of a card interpolates, in
    order. *)
Definition card_fields : list string :=
  ["id"; "image"; "name"; "name"; "brand"; "id"; "description"].

(** The texts interpolated for [product]: reading a member of [null] or
    [undefined] throws, and so does a conversion to text that fails. *)
Fixpoint interpolate (product : JS.value) (names : list string) : JS.result (list string) :=
  match names with
  | [] => JS.Ok []
  | name :: rest =>
      match JS.member product name with
      | JS.Throw e => JS.Throw e
      | JS.Ok v =>
          match JS.ToString v with
          | JS.Throw e => JS.Throw e
          | JS.Ok s =>
              match interpolate product rest with
              | JS.Throw e => JS.Throw e
              | JS.Ok texts => JS.Ok (s :: texts)
              end
          end
      end
  end.

(** The [data-id] of each card of [products.map(...)], the first of the
    texts interpolated for it. *)
Fixpoint card_labels (products : list JS.value) : JS.result (list string) :=
  match products with
  | [] => JS.Ok []
  | p :: rest =>
      match interpolate p card_fields with
      | JS.Throw e => JS.Throw e
      | JS.Ok texts =>
          match card_labels rest with
          | JS.Throw e => JS.Throw e
          | JS.Ok labels => JS.Ok (hd "" texts :: labels)
          end
      end
  end.

(** One card per product, marked when [Number(card.dataset.id)] is selected;
    no card at all (a placeholder) for an empty list.  The markup is built
    before anything is written.  The members interpolated are taken free of
    the characters that would end a tag or an attribute in the markup. *)
Definition displayProducts (products : list JS.value) : M unit :=
  labels <- lift (card_labels products) ;;
  modify (fun st =>
    with_productCards
      (map (fun data =>
              mkCard data
                (match JS.Number_of_text data with
                 | Some n => Map.has (JS.Num n) (selectedProducts st)
                 | None => false
                 end))
           labels) st).

Definition categoryChange (selectedCategory : string) (o : FetchOutcome) : M unit :=
  products <- loadProducts o ;;
  match products with
  | JS.Arr items =>
      filteredProducts <- lift (filter_category items selectedCategory) ;;
      displayProducts filteredProducts
  | _ => throw (JS.TypeError "products.filter is not a function")
  end.

(** *** The details button of a card *)







(** *** The page as a transition system *)

(** What can happen to the page when events come one after the other: each
    event runs its listener to the end, the request that the listener awaits
    settling before the next event.  (The page on which listeners overlap
    comes below.) *)
Inductive Action : Type :=
| PageLoaded (o : FetchOutcome)
| CategoryChanged (selectedCategory : string) (o : FetchOutcome)
| CardActivated (productId : Z)
| ChipRemoved (productId : Z)
| SelectionsCleared
| ChatSubmitted (typed : string) (o : FetchOutcome)
| RoutineRequested (o : FetchOutcome).

Definition perform (a : Action) (st : State) : State :=
  match a with
  | PageLoaded o => listener (restoreSelectionsFromStorage o) st
  | CategoryChanged c o => listener (categoryChange c o) st
  | CardActivated productId => listener (toggleSelection productId) st
  | ChipRemoved productId => listener (removeSelection productId) st
  | SelectionsCleared => listener clearSelections st
  | ChatSubmitted typed o => listener (chatSubmit o) (with_userInput typed st)
  | RoutineRequested o => listener (generateRoutine o) st
  end.

Definition perform_all (acts : list Action) (st : State) : State :=
  fold_left (fun st a => perform a st) acts st.

(** *** The asynchronous listeners in two halves

    An [async] listener runs up to the request it awaits and hands control
    back to the page; it resumes when the request settles, in the state the
    listeners that ran meanwhile have left.  Each such listener is cut here
    at that [await]: its first half ends when the request leaves, its second
    half takes the outcome of the request.  (An [await] on a value that is
    already there resumes before any other listener runs, and is no cut.) *)

(** The promise of a request, settling as [o]. *)
Definition settle (o : FetchOutcome) : M Response :=
  match o with
  | Rejected e => throw e
  | Resolved r => ret r
  end.

(** [loadProducts] up to its [fetch]: the cached value when there is one,
    [None] when the request left. *)
Definition loadProducts_start : M (option JS.value) :=
  cache <- gets allProductsCache ;;
  if JS.truthy cache then ret (Some cache)
  else emit (EvFetch PRODUCTS_URL) ;; ret None.

(** [loadProducts] from the settled [fetch] on. *)
Definition loadProducts_resume (o : FetchOutcome) : M JS.value :=
  response <- settle o ;;
  data <- json response ;;
  products <- lift (JS.member data "products") ;;
  modify (with_cache products) ;;
  gets allProductsCache.

(** What [restoreSelectionsFromStorage] does once the catalog is there. *)
Definition restore_finish (ids : list JS.value) : M unit :=
  forEach ids restore_one ;;
  renderSelectedProducts ;;
  forEach ids updateCardHighlight.

(** The first half returns the ids it read when it has to wait for the
    catalog. *)
Definition restoreSelectionsFromStorage_start : M (option (list JS.value)) :=
  try_catch
    (raw <- getItem ;;
     match raw with
     | None | Some EmptyString => ret None
     | Some raw =>
         ids <- lift (JSON_parse raw) ;;
         match ids with
         | JS.Arr ids =>
             cached <- loadProducts_start ;;
             match cached with
             | Some _ => restore_finish ids ;; ret None
             | None => ret (Some ids)
             end
         | _ => ret None
         end
     end)
    (fun e => emit (EvWarn "Could not restore selections:") ;; ret None).

Definition restoreSelectionsFromStorage_resume (ids : list JS.value) (o : FetchOutcome)
  : M unit :=
  try_catch
    (loadProducts_resume o ;; restore_finish ids)
    (fun e => emit (EvWarn "Could not restore selections:")).

(** The change listener of the category filter reads the chosen category
    after the catalog is there. *)
Definition category_finish (products : JS.value) (selectedCategory : string) : M unit :=
  match products with
  | JS.Arr items =>
      filteredProducts <- lift (filter_category items selectedCategory) ;;
      displayProducts filteredProducts
  | _ => throw (JS.TypeError "products.filter is not a function")
  end.

(** [true]: the listener waits for the catalog. *)
Definition categoryChange_start (selectedCategory : string) : M bool :=
  cached <- loadProducts_start ;;
  match cached with
  | Some products => category_finish products selectedCategory ;; ret false
  | None => ret true
  end.

Definition categoryChange_resume (selectedCategory : string) (o : FetchOutcome) : M unit :=
  products <- loadProducts_resume o ;;
  category_finish products selectedCategory.

(** [sendMessagesToAI] up to its [fetch], whose body is built from the
    messages as they are then, and from the settled [fetch] on. *)
Definition sendMessagesToAI_start (messagesArray : list Message) : M unit :=
  emit (EvPost WORKER_URL messagesArray PROMPT_ID).

Definition sendMessagesToAI_resume (o : FetchOutcome) : M string :=
  resp <- settle o ;;
  if negb (ok resp)
  then
    body_text <- text resp ;;
    throw (JS.Error ("Worker error: " ++ JS.string_of_Z (status resp) ++ " " ++ body_text)%string)
  else
    data <- json resp ;;
    let aiText := aiText_of data in
    if negb (JS.truthy aiText)
    then throw (JS.Error "No assistant text returned from worker")
    else
      converted <- lift (JS.ToString aiText) ;;
      ret (JS.trim converted).

(** [true]: the request left and the listener waits for the reply. *)
Definition chatSubmit_start : M bool :=
  input <- gets userInput ;;
  let text := JS.trim input in
  if (text =? "")%string then ret false
  else
    push_message (mkMessage user text) ;;
    appendMessageToChat user text ;;
    modify (with_userInput "") ;;
    modify (with_sendBtn true) ;;
    modify (with_generateRoutineBtn true) ;;
    appendMessageToChat assistant "Thinking..." ;;
    history <- gets messages ;;
    sendMessagesToAI_start history ;;
    ret true.

Definition chatSubmit_resume (o : FetchOutcome) : M unit :=
  try_finally
    (try_catch
       (aiText <- sendMessagesToAI_resume o ;;
        remove_placeholder ;;
        appendMessageToChat assistant aiText ;;
        push_message (mkMessage assistant aiText))
       (fun err =>
          emit (EvError (JS.message err)) ;;
          appendMessageToChat assistant ("Error: " ++ JS.message err)%string))
    enable_controls.

Definition generateRoutine_start : M bool :=
  selected <- gets (fun st => map product_summary (Map.values (selectedProducts st))) ;;
  if Nat.eqb (List.length selected) 0
  then
    appendMessageToChat assistant "Select at least one product to generate a routine." ;;
    ret false
  else
    push_message (mkMessage user (routine_request selected)) ;;
    appendMessageToChat user "(Selected products) See the list you provided." ;;
    appendMessageToChat assistant "Generating routine..." ;;
    modify (with_generateRoutineBtn true) ;;
    modify (with_sendBtn true) ;;
    history <- gets messages ;;
    sendMessagesToAI_start history ;;
    ret true.

Definition generateRoutine_resume (o : FetchOutcome) : M unit :=
  try_finally
    (try_catch
       (aiText <- sendMessagesToAI_resume o ;;
        remove_placeholder ;;
        appendMessageToChat assistant aiText ;;
        push_message (mkMessage assistant aiText))
       (fun err =>
          emit (EvError (JS.message err)) ;;
          appendMessageToChat assistant ("Error generating routine: " ++ JS.message err)%string))
    (modify (with_generateRoutineBtn false) ;; modify (with_sendBtn false)).

(** *** The page with requests in flight *)

(** A listener that waits for a request, with what it holds on to. *)
Inductive Pending : Type :=
| RestoreAwaits (ids : list JS.value)
| CategoryAwaits
| ChatAwaits
| RoutineAwaits.

(** The page: the script's state, the value of the category filter, and the
    listeners that wait, oldest first. *)
Record Page : Type := mkPage {
  current : State;
  categoryFilter_value : string;
  pending : list Pending
}.

(** What the user and the browser do to the page. *)
Inductive Trigger : Type :=
| PageOpens
| CategoryPicked (selectedCategory : string)
| CardClicked (productId : Z)
| RemoveClicked (productId : Z)
| ClearClicked
| ChatSent (typed : string)
| RoutineClicked.

(** What happens to the page: a listener starts, or the request that the
    [i]-th waiting listener awaits settles as [o]. *)
Inductive Occurrence : Type :=
| Starts (t : Trigger)
| CatalogSettles (i : nat) (o : FetchOutcome)
| ReplySettles (i : nat) (o : FetchOutcome).

(** The page after the first half of a listener: whatever it returns or
    throws, the state is as it left it, and it joins the waiting listeners
    when it sent a request. *)
Definition started {A} (run : JS.result A * State) (waits : A -> option Pending)
    (pg : Page) : Page :=
  mkPage (snd run) (categoryFilter_value pg)
    (pending pg ++
       match fst run with
       | JS.Ok a => match waits a with Some p => [p] | None => [] end
       | JS.Throw _ => []
       end).

Definition starts (t : Trigger) (pg : Page) : Page :=
  let st := current pg in
  match t with
  | PageOpens =>
      started (restoreSelectionsFromStorage_start st) (option_map RestoreAwaits) pg
  | CategoryPicked c =>
      started (categoryChange_start c st)
        (fun waits => if waits then Some CategoryAwaits else None)
        (mkPage st c (pending pg))
  | CardClicked productId =>
      mkPage (listener (toggleSelection productId) st) (categoryFilter_value pg) (pending pg)
  | RemoveClicked productId =>
      mkPage (listener (removeSelection productId) st) (categoryFilter_value pg) (pending pg)
  | ClearClicked =>
      mkPage (listener clearSelections st) (categoryFilter_value pg) (pending pg)
  | ChatSent typed =>
      started (chatSubmit_start (with_userInput typed st))
        (fun waits => if waits then Some ChatAwaits else None) pg
  | RoutineClicked =>
      started (generateRoutine_start st)
        (fun waits => if waits then Some RoutineAwaits else None) pg
  end.

(** The list without its [i]-th element. *)
Definition without {A} (i : nat) (l : list A) : list A := firstn i l ++ skipn (S i) l.

(** The page after the second half of the [i]-th waiting listener. *)
Definition resumed (i : nat) (m : M unit) (pg : Page) : Page :=
  mkPage (listener m (current pg)) (categoryFilter_value pg) (without i (pending pg)).

Definition occur (e : Occurrence) (pg : Page) : Page :=
  match e with
  | Starts t => starts t pg
  | CatalogSettles i o =>
      match nth_error (pending pg) i with
      | Some (RestoreAwaits ids) => resumed i (restoreSelectionsFromStorage_resume ids o) pg
      | Some CategoryAwaits =>
          resumed i (categoryChange_resume (categoryFilter_value pg) o) pg
      | _ => pg
      end
  | ReplySettles i o =>
      match nth_error (pending pg) i with
      | Some ChatAwaits => resumed i (chatSubmit_resume o) pg
      | Some RoutineAwaits => resumed i (generateRoutine_resume o) pg
      | _ => pg
      end
  end.

Definition occur_all (occs : list Occurrence) (pg : Page) : Page :=
  fold_left (fun pg e => occur e pg) occs pg.

(** The page when the script has run and nothing has happened yet. *)
Definition opened (ls : Storage) : Page := mkPage (initial ls) "" [].

(** *** Notions used by the statements *)

(** The response shapes of the design, in probing order, each as an
    extractor from the response document. *)
Definition response_shapes : list (JS.value -> JS.value) :=
  [ (fun d => JS.opt_member d "content");
    (fun d => JS.opt_member d "text");
    (fun d => JS.opt_member d "answer");
    (fun d => JS.opt_member d "message");
    (fun d => JS.opt_member
                (JS.opt_member (JS.opt_index0 (JS.opt_member d "choices")) "message")
                "content");
    (fun d => JS.opt_member (JS.opt_index0 (JS.opt_member d "choices")) "text") ].

(** The first shape, in order, that yields a non-empty (truthy) value. *)
Definition first_nonempty (data : JS.value) : option JS.value :=
  find JS.truthy (map (fun shape => shape data) response_shapes).

(** The catalog is a sequence of product records. *)
Definition isObject (v : JS.value) : bool :=
  match v with JS.Obj _ => true | _ => false end.

Definition catalog_of (st : State) (items : list JS.value) : Prop :=
  allProductsCache st = JS.Arr items /\ forallb isObject items = true.

(** Some product of [items] has the id [k]. *)
Definition in_catalog (items : list JS.value) (k : JS.value) : bool :=
  existsb (fun p => JS.strict_eq (JS.prop p "id") k) items.

(** [k] occurs among the persisted ids. *)
Definition in_ids (ids : list JS.value) (k : JS.value) : bool :=
  existsb (fun id => JS.strict_eq id k) ids.

(** The selection maps each of its keys to the catalog's product of that id,
    and holds a key once (as a [Map] does). *)
Fixpoint selection_ok (items : list JS.value) (m : Map.t) : Prop :=
  match m with
  | [] => True
  | (k, v) :: rest =>
      find_by_id items k = JS.Ok v /\ JS.truthy v = true /\
      Map.has k rest = false /\ selection_ok items rest
  end.

(** The storage accepts reads and writes. *)
Definition storage_usable (st : State) : Prop :=
  ls_disabled (localStorage st) = false /\ ls_full (localStorage st) = false.

(** The ids of the selection as [persist()] encodes them. *)
Definition encoded_keys (m : Map.t) : string := JSON_stringify (JS.Arr (Map.keys m)) 0.

Definition count_role (r : Role) (l : list ChatEntry) : nat :=
  List.length (filter (fun e => Role_eqb (entry_role e) r) l).

(** The number of remote completion calls recorded in a trace. *)
Definition posts (t : list Event) : nat :=
  List.length (filter (fun e => match e with EvPost _ _ _ => true | _ => false end) t).

(** The number of catalog fetches recorded in a trace. *)
Definition fetches (t : list Event) : nat :=
  List.length (filter (fun e => match e with EvFetch _ => true | _ => false end) t).

(** What [complete()] hands back for a settled request: the reply, or the
    exception it fails with. *)
Definition reply_of (o : FetchOutcome) : JS.result string :=
  match o with
  | Rejected e => JS.Throw e
  | Resolved r =>
      if ok r then
        match JSON_parse (body r) with
        | JS.Throw e => JS.Throw e
        | JS.Ok data =>
            match first_nonempty data with
            | Some v =>
                match JS.ToString v with
                | JS.Ok converted => JS.Ok (JS.trim converted)
                | JS.Throw e => JS.Throw e
                end
            | None => JS.Throw MalformedCompletionResponse
            end
        end
      else JS.Throw (CompletionEndpointError (status r) (body r))
  end.

(** The chat window and the log once the user's turn is recorded and the
    placeholder shown, i.e. when the request leaves. *)
Definition user_entry (text : string) : ChatEntry :=
  mkChatEntry user (message_markup (JS.trim text)).

Definition assistant_entry (text : string) : ChatEntry :=
  mkChatEntry assistant (message_markup (JS.trim text)).

(** The state of the page when the request of a chat turn leaves: the
    user's turn is in the log and in the window, the placeholder is shown,
    the input is cleared and both buttons are disabled. *)
Definition chat_sent (st : State) : State :=
  let text := JS.trim (userInput st) in
  with_chatWindow ((chatWindow st ++ [user_entry text]) ++ [assistant_entry "Thinking..."])
    (with_generateRoutineBtn true
       (with_sendBtn true
          (with_userInput ""
             (with_messages (messages st ++ [mkMessage user text]) st)))).

(** The same for the routine action. *)
Definition routine_sent (st : State) : State :=
  let selected := map product_summary (Map.values (selectedProducts st)) in
  with_sendBtn true
    (with_generateRoutineBtn true
       (with_chatWindow
          ((chatWindow st ++
              [user_entry "(Selected products) See the list you provided."])
             ++ [assistant_entry "Generating routine..."])
          (with_messages (messages st ++ [mkMessage user (routine_request selected)]) st))).

(** The state a handler leaves once the request sent from [st] has settled
    as [r]; [prefix] introduces the error notice. *)
Definition settled (prefix : string) (r : JS.result string) (st : State) : State :=
  let posted := trace st ++ [EvPost WORKER_URL (messages st) PROMPT_ID] in
  match r with
  | JS.Ok aiText =>
      with_generateRoutineBtn false
        (with_sendBtn false
           (with_messages (messages st ++ [mkMessage assistant aiText])
              (with_chatWindow
                 (remove_last_assistant (chatWindow st) ++ [assistant_entry aiText])
                 (with_trace posted st))))
  | JS.Throw err =>
      with_generateRoutineBtn false
        (with_sendBtn false
           (with_chatWindow
              (chatWindow st ++ [assistant_entry (prefix ++ JS.message err)%string])
              (with_trace (posted ++ [EvError (JS.message err)]) st)))
  end.

(** The state a request handler leaves when the request settles as [r]
    while the page is in [st], whatever went on since the request left;
    [prefix] introduces the error notice. *)
Definition replied (prefix : string) (r : JS.result string) (st : State) : State :=
  match r with
  | JS.Ok aiText =>
      with_generateRoutineBtn false
        (with_sendBtn false
           (with_messages (messages st ++ [mkMessage assistant aiText])
              (with_chatWindow
                 (remove_last_assistant (chatWindow st) ++ [assistant_entry aiText]) st)))
  | JS.Throw err =>
      with_generateRoutineBtn false
        (with_sendBtn false
           (with_chatWindow
              (chatWindow st ++ [assistant_entry (prefix ++ JS.message err)%string])
              (with_trace (trace st ++ [EvError (JS.message err)]) st)))
  end.

(** The first product of [items] whose id is [k]. *)
Definition product_of (items : list JS.value) (k : JS.value) : option JS.value :=
  find (fun p => JS.strict_eq (JS.prop p "id") k) items.

(** The state after [saveSelectionsToStorage()]: the record holds the
    encoded keys, unless the storage refuses, which is only logged. *)
Definition saved (st : State) : State :=
  let v := encoded_keys (selectedProducts st) in
  let ls := localStorage st in
  if ls_disabled ls
  then with_trace (trace st ++ [EvWarn "Could not save selections:"]) st
  else if ls_full ls
  then with_trace ((trace st ++ [EvSetItem STORAGE_KEY v])
                     ++ [EvWarn "Could not save selections:"]) st
  else with_localStorage (mkStorage (Some v) (ls_disabled ls) (ls_full ls))
         (with_trace (trace st ++ [EvSetItem STORAGE_KEY v]) st).

(** The state after the selection became [m] and the card of [k], the
    routine button and the record were brought in step with it. *)
Definition reselected (k : JS.value) (m : Map.t) (st : State) : State :=
  saved
    (with_generateRoutineBtn (Nat.eqb (Map.size m) 0)
       (with_productCards (highlight (JS.to_String k) (Map.has k m) (productCards st))
          (with_selected m st))).

(** What [restore()] makes of a selection [m], given the catalog [items]
    and the persisted [ids]. *)
Definition restore_step (items : list JS.value) (m : Map.t) (id : JS.value) : Map.t :=
  match product_of items id with Some p => Map.set id p m | None => m end.

Definition restore_all (items ids : list JS.value) (m : Map.t) : Map.t :=
  fold_left (restore_step items) ids m.

(** The fetch [o] delivers a catalog document whose products are [items]. *)
Definition delivers (o : FetchOutcome) (items : list JS.value) : Prop :=
  exists r data,
    o = Resolved r /\ JSON_parse (body r) = JS.Ok data /\
    JS.member data "products" = JS.Ok (JS.Arr items).

(** The catalog [items] is at hand for a handler started in [st] whose
    fetch would settle as [o]: it is cached already, or nothing is cached
    and the fetch delivers it. *)
Definition available (st : State) (o : FetchOutcome) (items : list JS.value) : Prop :=
  allProductsCache st = JS.Arr items \/
  (JS.truthy (allProductsCache st) = false /\ delivers o items).

(** The cards after [updateCardHighlight] ran for each of [ids]. *)
Definition highlight_all (ids : list JS.value) (st : State) : State :=
  fold_left
    (fun st id =>
       with_productCards
         (highlight (JS.to_String id) (Map.has id (selectedProducts st)) (productCards st))
         st)
    ids st.

(** Between two states, a catalog that was cached is still the cached one
    and no catalog fetch was issued. *)
Definition cache_kept (st st' : State) : Prop :=
  JS.truthy (allProductsCache st) = true ->
  allProductsCache st' = allProductsCache st /\
  fetches (trace st') = fetches (trace st).

(** A computation relates each state to the state it leaves, whether it
    returns or throws. *)
Definition stable (R : State -> State -> Prop) {A} (m : M A) : Prop :=
  forall st, R st (snd (m st)).

(** The products the script searches: [window.allProductsCache || []]. *)
Definition catalog_items (cache : JS.value) : list JS.value :=
  match JS.or cache (JS.Arr []) with
  | JS.Arr items => items
  | _ => []
  end.

(** The invariant of the selection: it binds ids to products of the cached
    catalog (and is empty as long as no catalog is cached). *)
Definition coherent (st : State) : Prop :=
  selection_ok (catalog_items (allProductsCache st)) (selectedProducts st).

Definition keeps_coherent (st st' : State) : Prop := coherent st -> coherent st'.

(** *** Notions for the further properties *)

(** The character [c] occurs in [s]. *)
Fixpoint occurs (c : ascii) (s : string) : bool :=
  match s with
  | EmptyString => false
  | String d rest => Ascii.eqb d c || occurs c rest
  end.

(** [s] holds none of the characters that open or close a tag or an
    attribute value. *)
Definition markup_free (s : string) : bool :=
  negb (occurs "<"%char s) && negb (occurs ">"%char s) &&
  negb (occurs dquote s) && negb (occurs "'"%char s).

(** [s] holds no white space. *)
Fixpoint no_space (s : string) : bool :=
  match s with
  | EmptyString => true
  | String c rest => negb (JS.is_space c) && no_space rest
  end.

(** The log of [st'] is the log of [st] followed by messages of the user
    and the assistant. *)
Definition log_grows (st st' : State) : Prop :=
  exists suffix,
    messages st' = messages st ++ suffix /\
    Forall (fun m => role m <> system) suffix.

(** The conversation (log, chat window, completion requests) is the same. *)
Definition conversation_kept (st st' : State) : Prop :=
  messages st' = messages st /\ chatWindow st' = chatWindow st /\
  posts (trace st') = posts (trace st).

(** The selection store (selection, catalog cache, record, cards) is the
    same and no catalog fetch was issued. *)
Definition store_kept (st st' : State) : Prop :=
  selectedProducts st' = selectedProducts st /\
  allProductsCache st' = allProductsCache st /\
  localStorage st' = localStorage st /\
  productCards st' = productCards st /\
  fetches (trace st') = fetches (trace st).

(** The card [displayProducts] draws for a product whose id is a number. *)
Definition card_for (sel : Map.t) (p : JS.value) : Card :=
  mkCard (JS.to_String (JS.prop p "id")) (Map.has (JS.prop p "id") sel).


(** The integers that a number holds exactly, and that [String] and
    [Number] take to their decimal text and back. *)
Definition safe_integer (n : Z) : bool := (Z.abs n <=? 9007199254740991)%Z.

(** The primitive values, whose text in a template literal is what
    [JS.to_String] computes. *)
Definition primitive (v : JS.value) : bool :=
  match v with
  | JS.Num n => safe_integer n
  | JS.Arr _ | JS.Obj _ => false
  | _ => true
  end.

(** A text that stands for itself between the double quotes of an
    attribute selector: it holds no double quote, no backslash, no line
    break (line feed, form feed, carriage return) and no null character. *)
Fixpoint selector_text (s : string) : bool :=
  match s with
  | EmptyString => true
  | String c rest =>
      let n := nat_of_ascii c in
      negb ((n =? 0) || (n =? 10) || (n =? 12) || (n =? 13) || (n =? 34) || (n =? 92))%nat
      && selector_text rest
  end.

(** A member that the template of a card can interpolate as text: a
    primitive value whose text opens no tag and closes no attribute. *)
Definition markup_text (v : JS.value) : bool :=
  match v with
  | JS.Str s => negb (occurs "<"%char s) && negb (occurs dquote s)
  | _ => primitive v
  end.

(** A product that the markup of the grid shows as one card: a record whose
    id is an integer and whose other members shown are such texts. *)
Definition card_safe (p : JS.value) : bool :=
  isObject p &&
  match JS.prop p "id" with JS.Num n => safe_integer n | _ => false end &&
  markup_text (JS.prop p "image") && markup_text (JS.prop p "name") &&
  markup_text (JS.prop p "brand") && markup_text (JS.prop p "description").


(** Every catalog request that is answered with a JSON document is answered
    with the same [products] (the catalog is a static file). *)
Definition static_catalog (products : JS.value) (e : Occurrence) : Prop :=
  match e with
  | CatalogSettles _ (Resolved r) =>
      forall data,
        JSON_parse (body r) = JS.Ok data -> JS.nullish data = false ->
        JS.prop data "products" = products
  | _ => True
  end.

(** Between two states the cached catalog is the same. *)
Definition cache_same (st st' : State) : Prop :=
  allProductsCache st' = allProductsCache st.

(** The waiting listener waits for a reply of the assistant, not for the
    catalog. *)
Definition awaits_reply (p : Pending) : bool :=
  match p with
  | ChatAwaits | RoutineAwaits => true
  | RestoreAwaits _ | CategoryAwaits => false
  end.

(** Nothing is cached, or [products] is. *)
Definition cached_only (products : JS.value) (st : State) : Prop :=
  allProductsCache st = JS.Undefined \/ allProductsCache st = products.

(** The invariant of the page whose catalog requests are all answered with
    [products]. *)
Definition sound (products : JS.value) (st : State) : Prop :=
  coherent st /\ cached_only products st.

Definition keeps_sound (products : JS.value) (st st' : State) : Prop :=
  sound products st -> sound products st'.

(** ** Properties *)

(** Unfolds the monadic plumbing of a computation applied to a state. *)
Ltac run :=
  unfold listener, emit, try_finally, try_catch, bind, ret, throw, gets, modify, lift;
  cbv beta iota zeta; cbn [fst snd].

(** *** Routine generation with nothing selected *)

(** C8: invoking routine generation while the selection is empty makes no
    remote completion call and appends exactly one assistant-role guidance
    message to the visible chat; the conversation log, like the rest of the
    state, is unchanged. *)
Theorem generateRoutine_empty_selection :
  forall (o : FetchOutcome) (st : State),
    selectedProducts st = [] ->
    let st' := listener (generateRoutine o) st in
    fst (generateRoutine o st) = JS.Ok tt /\
    posts (trace st') = posts (trace st) /\
    trace st' = trace st /\
    messages st' = messages st /\
    chatWindow st' =
      chatWindow st ++
        [mkChatEntry assistant
           (message_markup "Select at least one product to generate a routine.")] /\
    count_role assistant (chatWindow st') = S (count_role assistant (chatWindow st)) /\
    List.length (chatWindow st') = S (List.length (chatWindow st)) /\
    st' = with_chatWindow (chatWindow st') st.
Proof.
  intros o st Hsel st'. subst st'.
  unfold generateRoutine, appendMessageToChat. run.
  rewrite Hsel. cbn.
  repeat split.
  - unfold count_role. rewrite filter_app, length_app. cbn. lia.
  - rewrite length_app. cbn. lia.
Qed.

(** *** Completion client *)

Lemma first_nonempty_aiText :
  forall data,
    first_nonempty data =
    if JS.truthy (aiText_of data) then Some (aiText_of data) else None.
Proof.
  intro data. unfold first_nonempty, aiText_of, response_shapes, JS.or.
  cbn [map find].
  generalize (JS.opt_member data "content") (JS.opt_member data "text")
             (JS.opt_member data "answer") (JS.opt_member data "message")
             (JS.opt_member
                (JS.opt_member (JS.opt_index0 (JS.opt_member data "choices")) "message")
                "content")
             (JS.opt_member (JS.opt_index0 (JS.opt_member data "choices")) "text").
  intros a b c d e f.
  destruct (JS.truthy a) eqn:Ha; [rewrite Ha; reflexivity |].
  destruct (JS.truthy b) eqn:Hb; [rewrite Hb; reflexivity |].
  destruct (JS.truthy c) eqn:Hc; [rewrite Hc; reflexivity |].
  destruct (JS.truthy d) eqn:Hd; [rewrite Hd; reflexivity |].
  destruct (JS.truthy e) eqn:He; [rewrite He; reflexivity |].
  destruct (JS.truthy f) eqn:Hf; [rewrite Hf; reflexivity |].
  reflexivity.
Qed.

Lemma sendMessagesToAI_eq :
  forall msgs o st,
    sendMessagesToAI msgs o st =
    (reply_of o, with_trace (trace st ++ [EvPost WORKER_URL msgs PROMPT_ID]) st).
Proof.
  intros msgs o st. unfold sendMessagesToAI, fetch, json, text, reply_of. run.
  destruct o as [e | r]; [reflexivity |].
  destruct (ok r); cbn [negb]; [| reflexivity].
  destruct (JSON_parse (body r)) as [data | e]; [| reflexivity].
  rewrite first_nonempty_aiText.
  destruct (JS.truthy (aiText_of data)); cbn [negb]; [| reflexivity].
  destruct (JS.ToString (aiText_of data)); reflexivity.
Qed.

(** *** The two request handlers, step by step *)

Lemma remove_last_assistant_snoc :
  forall l x,
    entry_role x = assistant -> remove_last_assistant (l ++ [x]) = l.
Proof.
  induction l as [| y l IH]; intros x Hx; cbn.
  - rewrite Hx. reflexivity.
  - rewrite existsb_app. cbn. rewrite Hx. cbn.
    rewrite orb_true_r. rewrite IH by assumption. reflexivity.
Qed.

Lemma chatSubmit_eq :
  forall o st,
    chatSubmit o st =
    (JS.Ok tt,
     if (JS.trim (userInput st) =? "")%string then st
     else settled "Error: " (reply_of o) (chat_sent st)).
Proof.
  intros o st. unfold chatSubmit. run.
  destruct (JS.trim (userInput st) =? "")%string; [reflexivity |].
  unfold push_message, appendMessageToChat, remove_placeholder, enable_controls. run.
  rewrite sendMessagesToAI_eq.
  unfold settled. destruct (reply_of o) as [aiText | err]; reflexivity.
Qed.

Lemma generateRoutine_eq :
  forall o st,
    generateRoutine o st =
    (JS.Ok tt,
     match selectedProducts st with
     | [] =>
         with_chatWindow
           (chatWindow st ++
              [assistant_entry "Select at least one product to generate a routine."]) st
     | _ => settled "Error generating routine: " (reply_of o) (routine_sent st)
     end).
Proof.
  intros o st. unfold generateRoutine. run.
  destruct (selectedProducts st) as [| kv rest] eqn:Hsel.
  - reflexivity.
  - cbn [Map.values map List.length Nat.eqb].
    unfold push_message, appendMessageToChat, remove_placeholder. run.
    rewrite sendMessagesToAI_eq.
    unfold settled, routine_sent. rewrite Hsel.
    destruct (reply_of o) as [aiText | err]; reflexivity.
Qed.

(** The chat window after a chat turn: a reply takes the place of the
    placeholder, an error notice is added after it. *)
Lemma chat_turn_window :
  forall o st,
    JS.trim (userInput st) <> "" ->
    chatWindow (listener (chatSubmit o) st) =
    match reply_of o with
    | JS.Ok aiText =>
        chatWindow st ++ [user_entry (JS.trim (userInput st)); assistant_entry aiText]
    | JS.Throw err =>
        chatWindow st ++
          [user_entry (JS.trim (userInput st)); assistant_entry "Thinking...";
           assistant_entry ("Error: " ++ JS.message err)%string]
    end.
Proof.
  intros o st Hne. unfold listener. rewrite chatSubmit_eq. cbn [snd].
  destruct (JS.trim (userInput st) =? "")%string eqn:E.
  { apply String.eqb_eq in E. contradiction. }
  destruct (reply_of o) as [aiText | err]; cbn.
  - rewrite remove_last_assistant_snoc by reflexivity.
    now rewrite <- app_assoc.
  - now rewrite <- !app_assoc.
Qed.

Lemma routine_window :
  forall o st,
    selectedProducts st <> [] ->
    chatWindow (listener (generateRoutine o) st) =
    match reply_of o with
    | JS.Ok aiText =>
        chatWindow st ++
          [user_entry "(Selected products) See the list you provided.";
           assistant_entry aiText]
    | JS.Throw err =>
        chatWindow st ++
          [user_entry "(Selected products) See the list you provided.";
           assistant_entry "Generating routine...";
           assistant_entry ("Error generating routine: " ++ JS.message err)%string]
    end.
Proof.
  intros o st Hne. unfold listener. rewrite generateRoutine_eq. cbn [snd].
  destruct (selectedProducts st) as [| kv rest] eqn:Hsel; [contradiction |].
  destruct (reply_of o) as [aiText | err].
  - unfold settled, routine_sent. rewrite Hsel.
    cbn [chatWindow with_chatWindow with_sendBtn with_generateRoutineBtn with_messages
           with_trace].
    rewrite remove_last_assistant_snoc by reflexivity.
    now rewrite <- app_assoc.
  - unfold settled, routine_sent. rewrite Hsel.
    cbn [chatWindow with_chatWindow with_sendBtn with_generateRoutineBtn with_messages
           with_trace].
    now rewrite <- !app_assoc.
Qed.

(** Both handlers leave the two buttons enabled, however the request ends. *)
Lemma controls_enabled_after_request :
  forall o st,
    (JS.trim (userInput st) <> "" ->
     sendBtn_disabled (listener (chatSubmit o) st) = false /\
     generateRoutineBtn_disabled (listener (chatSubmit o) st) = false) /\
    (selectedProducts st <> [] ->
     sendBtn_disabled (listener (generateRoutine o) st) = false /\
     generateRoutineBtn_disabled (listener (generateRoutine o) st) = false).
Proof.
  intros o st. split.
  - intro Hne. unfold listener. rewrite chatSubmit_eq. cbn [snd].
    destruct (JS.trim (userInput st) =? "")%string eqn:E.
    { apply String.eqb_eq in E. contradiction. }
    destruct (reply_of o); split; reflexivity.
  - intro Hne. unfold listener. rewrite generateRoutine_eq. cbn [snd].
    destruct (selectedProducts st); [contradiction |].
    destruct (reply_of o); split; reflexivity.
Qed.

(** *** Claims on the completion client and the conversation log *)


(** C4: when the endpoint answers with a non-2xx status, [complete()] fails
    with CompletionEndpointError carrying the status code and the body text
    (for status 500 and body ["server error"], the error
    ["Worker error: 500 server error"]), and the failure leaves the
    conversation log as it was when the request left: the user's message is
    its last entry and no assistant message is appended, in the chat turn as
    in the routine action. *)
Theorem complete_endpoint_error :
  forall (msgs : list Message) (r : Response) (st : State),
    ok r = false ->
    sendMessagesToAI msgs (Resolved r) st =
      (JS.Throw (CompletionEndpointError (status r) (body r)),
       with_trace (trace st ++ [EvPost WORKER_URL msgs PROMPT_ID]) st) /\
    (status r = 500%Z -> body r = "server error" ->
     fst (sendMessagesToAI msgs (Resolved r) st) =
       JS.Throw (JS.Error "Worker error: 500 server error")) /\
    (JS.trim (userInput st) <> "" ->
     messages (listener (chatSubmit (Resolved r)) st) = messages (chat_sent st) /\
     messages (listener (chatSubmit (Resolved r)) st) =
       messages st ++ [mkMessage user (JS.trim (userInput st))]) /\
    (selectedProducts st <> [] ->
     messages (listener (generateRoutine (Resolved r)) st) = messages (routine_sent st) /\
     messages (listener (generateRoutine (Resolved r)) st) =
       messages st ++
         [mkMessage user
            (routine_request (map product_summary (Map.values (selectedProducts st))))]).
Proof.
  intros msgs r st Hok.
  assert (Hreply : reply_of (Resolved r) =
                   JS.Throw (CompletionEndpointError (status r) (body r))).
  { cbn [reply_of]. rewrite Hok. reflexivity. }
  repeat split.
  - rewrite sendMessagesToAI_eq, Hreply. reflexivity.
  - intros Hs Hb. rewrite sendMessagesToAI_eq, Hreply, Hs, Hb. reflexivity.
  - unfold listener. rewrite chatSubmit_eq, Hreply. cbn [snd].
    destruct (JS.trim (userInput st) =? "")%string eqn:E.
    + apply String.eqb_eq in E. contradiction.
    + reflexivity.
  - unfold listener. rewrite chatSubmit_eq, Hreply. cbn [snd].
    destruct (JS.trim (userInput st) =? "")%string eqn:E.
    + apply String.eqb_eq in E. contradiction.
    + reflexivity.
  - unfold listener. rewrite generateRoutine_eq, Hreply. cbn [snd].
    destruct (selectedProducts st); [contradiction | reflexivity].
  - unfold listener. rewrite generateRoutine_eq, Hreply. cbn [snd].
    destruct (selectedProducts st) eqn:E; [contradiction |].
    cbn. rewrite E. reflexivity.
Qed.

(** C10: the chat turn does nothing when the input is empty once trimmed
    (so for [""] and for three spaces the log keeps its length), and
    otherwise appends one user message whose content is the trimmed input,
    followed at most by the assistant's reply to it. *)
Theorem appendUser_trimmed :
  forall (o : FetchOutcome) (st : State),
    let st' := listener (chatSubmit o) st in
    (JS.trim (userInput st) = "" -> st' = st) /\
    (userInput st = "" \/ userInput st = "   " ->
     List.length (messages st') = List.length (messages st)) /\
    (JS.trim (userInput st) <> "" ->
     messages (chat_sent st) = messages st ++ [mkMessage user (JS.trim (userInput st))] /\
     exists replies,
       messages st' = messages st ++ mkMessage user (JS.trim (userInput st)) :: replies /\
       Forall (fun m => role m = assistant) replies /\
       (List.length replies <= 1)%nat).
Proof.
  intros o st st'. subst st'. unfold listener.
  rewrite chatSubmit_eq. cbn [snd].
  split; [| split].
  - intros ->. reflexivity.
  - intros [H | H]; rewrite H; reflexivity.
  - intros Hne.
    destruct (JS.trim (userInput st) =? "")%string eqn:E.
    { apply String.eqb_eq in E. contradiction. }
    split; [reflexivity |].
    destruct (reply_of o) as [aiText | err].
    + exists [mkMessage assistant aiText]. cbn.
      rewrite <- app_assoc. repeat split; auto.
    + exists []. cbn. repeat split; auto.
Qed.

(** *** Strict equality and the selection map *)

Lemma strict_eq_eq : forall a b, JS.strict_eq a b = true -> a = b.
Proof.
  intros [] []; cbn; intro H; try discriminate; try reflexivity.
  - apply Bool.eqb_prop in H. now subst.
  - apply Z.eqb_eq in H. now subst.
  - apply String.eqb_eq in H. now subst.
Qed.

Lemma strict_eq_sym : forall a b, JS.strict_eq a b = JS.strict_eq b a.
Proof.
  intros [] []; cbn; try reflexivity.
  - destruct b, b0; reflexivity.
  - apply Z.eqb_sym.
  - apply String.eqb_sym.
Qed.


Lemma strict_eq_refl_l : forall a b, JS.strict_eq a b = true -> JS.strict_eq b b = true.
Proof. intros a b H. pose proof (strict_eq_eq _ _ H) as E. subst. exact H. Qed.

Lemma has_app : forall k m1 m2, Map.has k (m1 ++ m2) = Map.has k m1 || Map.has k m2.
Proof. intros. unfold Map.has. apply existsb_app. Qed.

Lemma set_absent :
  forall k v m, Map.has k m = false -> Map.set k v m = m ++ [(k, v)].
Proof.
  induction m as [| [k' v'] m IH]; cbn; intro H; [reflexivity |].
  apply orb_false_iff in H as [H1 H2]. rewrite H1, IH by assumption. reflexivity.
Qed.




Lemma has_set :
  forall k id v m, Map.has k (Map.set id v m) = Map.has k m || JS.strict_eq id k.
Proof.
  induction m as [| [k' v'] m IH].
  - cbn. now rewrite orb_false_r.
  - cbn [Map.set]. destruct (JS.strict_eq k' id) eqn:E.
    + apply strict_eq_eq in E. subst k'. unfold Map.has. cbn.
      destruct (JS.strict_eq id k); cbn; [reflexivity | now rewrite orb_false_r].
    + change (Map.has k ((k', v') :: Map.set id v m))
        with (JS.strict_eq k' k || Map.has k (Map.set id v m)).
      rewrite IH.
      change (Map.has k ((k', v') :: m)) with (JS.strict_eq k' k || Map.has k m).
      now rewrite orb_assoc.
Qed.


(** *** Persistence and toggling, step by step *)

Lemma saveSelectionsToStorage_eq :
  forall st, saveSelectionsToStorage st = (JS.Ok tt, saved st).
Proof.
  intro st. unfold saveSelectionsToStorage, setItem, saved, encoded_keys. run.
  destruct (ls_disabled (localStorage st)); [reflexivity |].
  destruct (ls_full (localStorage st)); reflexivity.
Qed.

Lemma toggleSelection_eq :
  forall productId st,
    toggleSelection productId st =
    let id := JS.Num productId in
    match find_product (allProductsCache st) id with
    | JS.Throw e => (JS.Throw e, st)
    | JS.Ok product =>
        if JS.truthy product
        then (JS.Ok tt,
              reselected id
                (if Map.has id (selectedProducts st)
                 then Map.delete id (selectedProducts st)
                 else Map.set id product (selectedProducts st)) st)
        else (JS.Ok tt, st)
    end.
Proof.
  intros productId st. unfold toggleSelection. run.
  destruct (find_product (allProductsCache st) (JS.Num productId)) as [product | e];
    [| reflexivity].
  destruct (JS.truthy product); cbn [negb]; [| reflexivity].
  unfold updateCardHighlight, renderSelectedProducts. run.
  rewrite saveSelectionsToStorage_eq. reflexivity.
Qed.

Lemma selected_saved : forall st, selectedProducts (saved st) = selectedProducts st.
Proof.
  intro st. unfold saved.
  destruct (ls_disabled (localStorage st)); [reflexivity |].
  destruct (ls_full (localStorage st)); reflexivity.
Qed.

Lemma cache_saved : forall st, allProductsCache (saved st) = allProductsCache st.
Proof.
  intro st. unfold saved.
  destruct (ls_disabled (localStorage st)); [reflexivity |].
  destruct (ls_full (localStorage st)); reflexivity.
Qed.

Lemma saved_usable :
  forall st,
    storage_usable st ->
    localStorage (saved st) =
      mkStorage (Some (encoded_keys (selectedProducts st))) false false /\
    trace (saved st) =
      trace st ++ [EvSetItem STORAGE_KEY (encoded_keys (selectedProducts st))].
Proof.
  intros st [Hd Hf]. unfold saved. rewrite Hd, Hf. split; reflexivity.
Qed.

Lemma selected_reselected :
  forall k m st, selectedProducts (reselected k m st) = m.
Proof. intros. unfold reselected. now rewrite selected_saved. Qed.

Lemma cache_reselected :
  forall k m st, allProductsCache (reselected k m st) = allProductsCache st.
Proof. intros. unfold reselected. now rewrite cache_saved. Qed.




(** *** Looking a product up *)

Lemma find_by_id_objects :
  forall items k,
    forallb isObject items = true ->
    find_by_id items k =
      JS.Ok (match product_of items k with Some p => p | None => JS.Undefined end).
Proof.
  induction items as [| p items IH]; intros k H; cbn; [reflexivity |].
  cbn in H. apply andb_true_iff in H as [Hp H].
  destruct p; try discriminate. cbn.
  destruct (JS.strict_eq (JS.lookup "id" fields) k); [reflexivity | now apply IH].
Qed.

Lemma product_of_object :
  forall items k p,
    forallb isObject items = true -> product_of items k = Some p ->
    JS.truthy p = true /\ JS.strict_eq (JS.prop p "id") k = true.
Proof.
  intros items k p H Hf. apply find_some in Hf as [Hin Hid].
  split; [| assumption].
  rewrite forallb_forall in H. specialize (H _ Hin). destruct p; try discriminate.
  reflexivity.
Qed.

Lemma product_of_in_catalog :
  forall items k,
    in_catalog items k = match product_of items k with Some _ => true | None => false end.
Proof.
  induction items as [| p items IH]; intro k; cbn; [reflexivity |].
  destruct (JS.strict_eq (JS.prop p "id") k); cbn; [reflexivity | apply IH].
Qed.

Lemma find_by_id_found :
  forall items k v,
    find_by_id items k = JS.Ok v -> JS.truthy v = true -> JS.strict_eq k k = true.
Proof.
  induction items as [| p items IH]; intros k v H Ht; cbn in H.
  - injection H as <-. discriminate.
  - destruct (JS.member p "id") as [pid | e]; [| discriminate].
    destruct (JS.strict_eq pid k) eqn:E.
    + now apply strict_eq_refl_l in E.
    + now apply (IH _ _ H).
Qed.

Lemma find_product_catalog :
  forall st items k,
    catalog_of st items ->
    find_product (allProductsCache st) k =
      JS.Ok (match product_of items k with Some p => p | None => JS.Undefined end).
Proof.
  intros st items k [Hc Ho]. rewrite Hc. cbn. now apply find_by_id_objects.
Qed.

(** *** Toggling *)


Lemma delete_cons :
  forall k k' v' m,
    Map.delete k ((k', v') :: m) =
    if JS.strict_eq k' k then Map.delete k m else (k', v') :: Map.delete k m.
Proof.
  intros. unfold Map.delete. cbn. destruct (JS.strict_eq k' k); reflexivity.
Qed.

Lemma has_cons :
  forall k k' v' m, Map.has k ((k', v') :: m) = JS.strict_eq k' k || Map.has k m.
Proof. reflexivity. Qed.




Lemma toggle_present :
  forall productId st items product,
    catalog_of st items ->
    product_of items (JS.Num productId) = Some product ->
    listener (toggleSelection productId) st =
    reselected (JS.Num productId)
      (if Map.has (JS.Num productId) (selectedProducts st)
       then Map.delete (JS.Num productId) (selectedProducts st)
       else Map.set (JS.Num productId) product (selectedProducts st)) st.
Proof.
  intros productId st items product Hcat Hp.
  unfold listener. rewrite toggleSelection_eq. cbv zeta.
  rewrite (find_product_catalog st items _ Hcat), Hp.
  destruct Hcat as [_ Ho].
  destruct (product_of_object items _ product Ho Hp) as [Ht _].
  rewrite Ht. reflexivity.
Qed.


(** The invariant of the selection is kept by toggling. *)
Lemma has_delete_false :
  forall k k' m, Map.has k' m = false -> Map.has k' (Map.delete k m) = false.
Proof.
  induction m as [| [k0 v0] m IH]; intro H; [reflexivity |].
  rewrite has_cons in H. apply orb_false_iff in H as [H1 H2].
  rewrite delete_cons. destruct (JS.strict_eq k0 k).
  - now apply IH.
  - rewrite has_cons, H1. now apply IH.
Qed.

Lemma selection_ok_delete :
  forall items k m, selection_ok items m -> selection_ok items (Map.delete k m).
Proof.
  induction m as [| [k0 v0] m IH]; intro H; [exact I |].
  destruct H as (Hf & Ht & Hfresh & Hok).
  rewrite delete_cons. destruct (JS.strict_eq k0 k).
  - now apply IH.
  - cbn. repeat split; auto. now apply has_delete_false.
Qed.




(** *** Catalog loader *)

Lemma loadProducts_eq :
  forall o st,
    loadProducts o st =
    if JS.truthy (allProductsCache st) then (JS.Ok (allProductsCache st), st)
    else
      let st1 := with_trace (trace st ++ [EvFetch PRODUCTS_URL]) st in
      match o with
      | Rejected e => (JS.Throw e, st1)
      | Resolved r =>
          match JSON_parse (body r) with
          | JS.Throw e => (JS.Throw e, st1)
          | JS.Ok data =>
              match JS.member data "products" with
              | JS.Throw e => (JS.Throw e, st1)
              | JS.Ok products => (JS.Ok products, with_cache products st1)
              end
          end
      end.
Proof.
  intros o st. unfold loadProducts, fetch, json. run.
  destruct (JS.truthy (allProductsCache st)); [reflexivity |].
  destruct o as [e | r]; [reflexivity |].
  destruct (JSON_parse (body r)) as [data | e]; [| reflexivity].
  destruct (JS.member data "products"); reflexivity.
Qed.

Lemma fetches_snoc :
  forall t, fetches (t ++ [EvFetch PRODUCTS_URL]) = S (fetches t).
Proof.
  intro t. unfold fetches. rewrite filter_app, length_app. cbn. lia.
Qed.

(** *** Relating the states before and after a computation *)

Section Stability.

Variable R : State -> State -> Prop.
Hypothesis R_refl : forall st, R st st.
Hypothesis R_trans : forall a b c, R a b -> R b c -> R a c.

Lemma stable_ret : forall A (a : A), stable R (ret a).
Proof. intros A a st. apply R_refl. Qed.

Lemma stable_throw : forall A e, stable R (@throw A e).
Proof. intros A e st. apply R_refl. Qed.

Lemma stable_gets : forall A (f : State -> A), stable R (gets f).
Proof. intros A f st. apply R_refl. Qed.

Lemma stable_lift : forall A (r : JS.result A), stable R (lift r).
Proof. intros A r st. apply R_refl. Qed.

Lemma stable_bind :
  forall A B (m : M A) (k : A -> M B),
    stable R m -> (forall a, stable R (k a)) -> stable R (bind m k).
Proof.
  intros A B m k Hm Hk st. unfold bind. specialize (Hm st).
  destruct (m st) as [[a | e] st1]; cbn [snd] in *.
  - eapply R_trans; [exact Hm | apply Hk].
  - exact Hm.
Qed.

Lemma stable_try_catch :
  forall A (body : M A) (handler : JS.exn -> M A),
    stable R body -> (forall e, stable R (handler e)) ->
    stable R (try_catch body handler).
Proof.
  intros A body handler Hb Hh st. unfold try_catch. specialize (Hb st).
  destruct (body st) as [[a | e] st1]; cbn [snd] in *.
  - exact Hb.
  - eapply R_trans; [exact Hb | apply Hh].
Qed.

Lemma stable_try_finally :
  forall A (body : M A) (fin : M unit),
    stable R body -> stable R fin -> stable R (try_finally body fin).
Proof.
  intros A body fin Hb Hf st. unfold try_finally. specialize (Hb st).
  destruct (body st) as [r st1]. specialize (Hf st1).
  destruct (fin st1) as [[u | e] st2]; cbn [snd] in *;
    eapply R_trans; eassumption.
Qed.

Lemma stable_forEach :
  forall A (l : list A) (f : A -> M unit),
    (forall x, stable R (f x)) -> stable R (forEach l f).
Proof.
  intros A l f Hf. induction l as [| x l IH]; cbn [forEach].
  - apply stable_ret.
  - apply stable_bind; [apply Hf | intros _; exact IH].
Qed.

End Stability.

(** Decomposes a computation along its monadic structure; [leaf] closes the
    primitive steps. *)
Ltac stabilize refl trans leaf :=
  repeat first
    [ apply (stable_ret _ refl) | apply (stable_throw _ refl)
    | apply (stable_gets _ refl) | apply (stable_lift _ refl)
    | leaf
    | apply (stable_bind _ trans); [| intro]
    | apply (stable_try_catch _ trans); [| intro]
    | apply (stable_try_finally _ trans)
    | apply (stable_forEach _ refl trans); intro
    | match goal with
      | |- stable _ (if ?b then _ else _) => destruct b
      | |- stable _ (match ?x with _ => _ end) => destruct x
      end ].

(** *** Computations that keep the cached catalog *)

Lemma cache_kept_refl : forall st, cache_kept st st.
Proof. intros st _. split; reflexivity. Qed.

Lemma cache_kept_trans :
  forall a b c, cache_kept a b -> cache_kept b c -> cache_kept a c.
Proof.
  intros a b c Hab Hbc Ha. destruct (Hab Ha) as [H1 H2].
  destruct Hbc as [H3 H4]; [now rewrite H1 |].
  split; congruence.
Qed.

Lemma cache_kept_modify :
  forall f : State -> State,
    (forall st, allProductsCache (f st) = allProductsCache st /\ trace (f st) = trace st) ->
    stable cache_kept (modify f).
Proof.
  intros f Hf st _. cbn. destruct (Hf st) as [H1 H2]. split; congruence.
Qed.

Lemma fetches_app : forall t u, fetches (t ++ u) = (fetches t + fetches u)%nat.
Proof. intros. unfold fetches. now rewrite filter_app, length_app. Qed.

Lemma cache_kept_emit :
  forall e, fetches [e] = 0%nat -> stable cache_kept (emit e).
Proof.
  intros e He st _. split; [reflexivity |].
  change (fetches (trace st ++ [e]) = fetches (trace st)).
  rewrite fetches_app, He. lia.
Qed.

Lemma cache_kept_getItem : stable cache_kept getItem.
Proof.
  intros st. unfold getItem.
  destruct (ls_disabled (localStorage st)); apply cache_kept_refl.
Qed.

Lemma cache_kept_setItem : forall v, stable cache_kept (setItem v).
Proof.
  intros v st _. unfold setItem.
  destruct (ls_disabled (localStorage st)); [split; reflexivity |].
  destruct (ls_full (localStorage st)); (split; [reflexivity |]);
    unfold with_localStorage, with_trace; cbn [snd trace];
    rewrite fetches_app; cbn; lia.
Qed.

Lemma cache_kept_loadProducts : forall o, stable cache_kept (loadProducts o).
Proof.
  intros o st Hc. rewrite loadProducts_eq, Hc. split; reflexivity.
Qed.

Lemma cache_kept_sendMessagesToAI :
  forall msgs o, stable cache_kept (sendMessagesToAI msgs o).
Proof.
  intros msgs o st _. rewrite sendMessagesToAI_eq. split; [reflexivity |].
  unfold with_trace; cbn [snd trace].
  rewrite fetches_app. cbn. lia.
Qed.

Ltac cache_kept_leaf :=
  first
    [ apply cache_kept_getItem | apply cache_kept_setItem
    | apply cache_kept_loadProducts | apply cache_kept_sendMessagesToAI
    | apply cache_kept_emit; reflexivity
    | apply cache_kept_modify; intro; split; reflexivity ].

Ltac keep_cache := stabilize cache_kept_refl cache_kept_trans cache_kept_leaf.

Lemma cache_kept_toggleSelection : forall n, stable cache_kept (toggleSelection n).
Proof.
  intro n. unfold toggleSelection, renderSelectedProducts, updateCardHighlight.
  keep_cache.
Qed.

Lemma cache_kept_removeSelection : forall n, stable cache_kept (removeSelection n).
Proof.
  intro n. unfold removeSelection, renderSelectedProducts, updateCardHighlight.
  keep_cache.
Qed.

Lemma cache_kept_clearSelections : stable cache_kept clearSelections.
Proof. unfold clearSelections, renderSelectedProducts. keep_cache. Qed.

(** What [load()] does: with a truthy value cached (any array, even an
    empty one) it returns that value and leaves the state untouched; with
    nothing cached it issues one fetch and parses the body as JSON, fails
    when the fetch rejects, when the body is not JSON and when the document
    is [null], and otherwise, whatever the status of the response and the
    shape of the document, caches and returns the document's [products]
    member. *)
Lemma loadProducts_outcomes :
  forall (o : FetchOutcome) (st : State),
    (JS.truthy (allProductsCache st) = true ->
     loadProducts o st = (JS.Ok (allProductsCache st), st)) /\
    (JS.truthy (allProductsCache st) = false ->
     let res := fst (loadProducts o st) in
     let st' := snd (loadProducts o st) in
     trace st' = trace st ++ [EvFetch PRODUCTS_URL] /\
     fetches (trace st') = S (fetches (trace st)) /\
     (forall e, o = Rejected e ->
        res = JS.Throw e /\ allProductsCache st' = allProductsCache st) /\
     (forall r e, o = Resolved r -> JSON_parse (body r) = JS.Throw e ->
        res = JS.Throw e /\ allProductsCache st' = allProductsCache st) /\
     (forall r data, o = Resolved r -> JSON_parse (body r) = JS.Ok data ->
        JS.nullish data = true ->
        (exists e, res = JS.Throw e) /\ allProductsCache st' = allProductsCache st) /\
     (forall r data, o = Resolved r -> JSON_parse (body r) = JS.Ok data ->
        JS.nullish data = false ->
        res = JS.Ok (JS.prop data "products") /\
        allProductsCache st' = JS.prop data "products")).
Proof.
  intros o st. split.
  - intro Hc. rewrite loadProducts_eq, Hc. reflexivity.
  - intro Hc. cbv zeta. rewrite loadProducts_eq, Hc. cbv zeta.
    destruct o as [e0 | r0].
    + cbn [fst snd trace with_trace allProductsCache].
      split; [reflexivity |]. split; [apply fetches_snoc |].
      split; [intros e [= ->]; split; reflexivity |].
      split; [intros r e [=] |]. split; [intros r data [=] |].
      intros r data [=].
    + destruct (JSON_parse (body r0)) as [data0 | e0] eqn:Hp.
      * unfold JS.member. destruct (JS.nullish data0) eqn:Hn.
        -- cbn [fst snd trace with_trace allProductsCache].
           split; [reflexivity |]. split; [apply fetches_snoc |].
           split; [intros e [=] |].
           split; [intros r e [= <-] Hp'; congruence |].
           split; [intros r data [= <-] Hp' _; split; [eexists |]; reflexivity |].
           intros r data [= <-] Hp' Hn'; congruence.
        -- cbn [fst snd trace with_trace with_cache allProductsCache].
           split; [reflexivity |]. split; [apply fetches_snoc |].
           split; [intros e [=] |].
           split; [intros r e [= <-] Hp'; congruence |].
           split; [intros r data [= <-] Hp' Hn'; congruence |].
           intros r data [= <-] Hp' _.
           assert (data = data0) by congruence. subst. split; reflexivity.
      * cbn [fst snd trace with_trace allProductsCache].
        split; [reflexivity |]. split; [apply fetches_snoc |].
        split; [intros e [=] |].
        split; [intros r e [= <-] Hp'; split; [congruence | reflexivity] |].
        split; [intros r data [= <-] Hp'; congruence |].
        intros r data [= <-] Hp'; congruence.
Qed.

(** *** Restoring the selection *)

Lemma forEach_highlight :
  forall ids st, forEach ids updateCardHighlight st = (JS.Ok tt, highlight_all ids st).
Proof.
  induction ids as [| id ids IH]; intro st; [reflexivity |].
  cbn [forEach]. unfold updateCardHighlight at 1. run. rewrite IH. reflexivity.
Qed.

Lemma selected_highlight_all :
  forall ids st, selectedProducts (highlight_all ids st) = selectedProducts st.
Proof.
  induction ids as [| id ids IH]; intro st; [reflexivity |].
  unfold highlight_all. cbn [fold_left]. fold (highlight_all ids).
  rewrite IH. reflexivity.
Qed.

Lemma restore_all_cons :
  forall items id ids m,
    restore_all items (id :: ids) m = restore_all items ids (restore_step items m id).
Proof. reflexivity. Qed.

Lemma forEach_restore_one :
  forall items ids st,
    allProductsCache st = JS.Arr items -> forallb isObject items = true ->
    forEach ids restore_one st =
    (JS.Ok tt, with_selected (restore_all items ids (selectedProducts st)) st).
Proof.
  intros items. induction ids as [| id ids IH]; intros st Hc Ho.
  - destruct st. reflexivity.
  - cbn [forEach]. unfold restore_one at 1. run.
    unfold find_product. rewrite Hc. cbn [JS.or JS.truthy].
    rewrite find_by_id_objects by assumption.
    rewrite restore_all_cons. unfold restore_step.
    destruct (product_of items id) as [p |] eqn:Hp.
    + destruct (product_of_object items id p Ho Hp) as [Ht _]. rewrite Ht.
      rewrite IH by assumption. reflexivity.
    + cbn [JS.truthy]. now rewrite IH.
Qed.

Lemma load_available :
  forall st o items,
    available st o items ->
    exists st1,
      loadProducts o st = (JS.Ok (JS.Arr items), st1) /\
      allProductsCache st1 = JS.Arr items /\
      selectedProducts st1 = selectedProducts st.
Proof.
  intros st o items [Hc | [Hc (r & data & -> & Hp & Hm)]]; rewrite loadProducts_eq.
  - rewrite Hc. cbn. exists st. repeat split; auto.
  - rewrite Hc, Hp, Hm. cbv zeta. eexists. repeat split; reflexivity.
Qed.

Lemma restore_never_throws :
  forall o st, fst (restoreSelectionsFromStorage o st) = JS.Ok tt.
Proof.
  intros o st. unfold restoreSelectionsFromStorage, try_catch.
  match goal with |- context [bind ?m ?k st] => destruct (bind m k st) as [[[] | e] st1] end;
    reflexivity.
Qed.

Lemma restore_populates :
  forall o st raw ids items,
    ls_disabled (localStorage st) = false ->
    ls_item (localStorage st) = Some raw -> raw <> "" ->
    JSON_parse raw = JS.Ok (JS.Arr ids) ->
    available st o items -> forallb isObject items = true ->
    selectedProducts (listener (restoreSelectionsFromStorage o) st) =
    restore_all items ids (selectedProducts st).
Proof.
  intros o st raw ids items Hd Hi Hraw Hp Hav Ho.
  destruct (load_available st o items Hav) as (st1 & Hload & Hc1 & Hs1).
  unfold listener, restoreSelectionsFromStorage, getItem. run.
  rewrite Hd, Hi. destruct raw as [| c raw]; [contradiction |].
  rewrite Hp, Hload.
  rewrite (forEach_restore_one items ids st1 Hc1 Ho).
  unfold renderSelectedProducts. run.
  rewrite forEach_highlight. cbn [snd].
  rewrite selected_highlight_all. cbn. now rewrite Hs1.
Qed.

Lemma has_restore_all :
  forall items ids m k,
    Map.has k (restore_all items ids m) =
    Map.has k m || (in_ids ids k && in_catalog items k).
Proof.
  intros items. induction ids as [| id ids IH]; intros m k.
  - cbn. now rewrite orb_false_r.
  - rewrite restore_all_cons, IH. unfold in_ids. cbn [existsb]. fold (in_ids ids k).
    unfold restore_step.
    destruct (JS.strict_eq id k) eqn:E.
    + assert (id = k) by now apply strict_eq_eq. subst id.
      rewrite (product_of_in_catalog items k).
      destruct (product_of items k) as [p |].
      * rewrite has_set, E. destruct (Map.has k m), (in_ids ids k); reflexivity.
      * rewrite !andb_false_r. reflexivity.
    + destruct (product_of items id) as [p |]; [| reflexivity].
      rewrite has_set, E. now rewrite orb_false_r.
Qed.

Lemma in_set :
  forall k v id p m,
    In (k, v) (Map.set id p m) -> In (k, v) m \/ (k = id /\ v = p).
Proof.
  induction m as [| [k0 v0] m IH]; cbn [Map.set]; intro H.
  - destruct H as [[= <- <-] | []]. now right.
  - destruct (JS.strict_eq k0 id) eqn:E.
    + destruct H as [[= <- <-] | H].
      * right. split; [now apply strict_eq_eq | reflexivity].
      * left. now right.
    + destruct H as [H | H].
      * left. now left.
      * destruct (IH H) as [H' | H']; [left; now right | now right].
Qed.

Lemma in_restore_all :
  forall items ids m k v,
    In (k, v) (restore_all items ids m) ->
    In (k, v) m \/ product_of items k = Some v.
Proof.
  intros items. induction ids as [| id ids IH]; intros m k v H.
  - now left.
  - rewrite restore_all_cons in H. apply IH in H as [H | H]; [| now right].
    unfold restore_step in H.
    destruct (product_of items id) as [p |] eqn:Hp; [| now left].
    apply in_set in H as [H | [-> ->]]; [now left | now right].
Qed.

(** C7: [restore()] raises no error; it does nothing when the record is
    absent, and leaves the selection (and the catalog cache and the record)
    alone when the record is empty, is not JSON or is not a list; otherwise,
    with the catalog at hand, an id is selected afterwards exactly when it
    was selected before or is both a persisted id and the id of a product of
    the catalog, so that from the empty selection of a starting page the
    selection is exactly the intersection, each id bound to its product, and
    a persisted id without a product is left out. *)
Theorem restore_intersection :
  forall (o : FetchOutcome) (st : State),
    let st' := listener (restoreSelectionsFromStorage o) st in
    fst (restoreSelectionsFromStorage o st) = JS.Ok tt /\
    (ls_disabled (localStorage st) = false -> ls_item (localStorage st) = None ->
     st' = st) /\
    (forall raw,
       ls_disabled (localStorage st) = false -> ls_item (localStorage st) = Some raw ->
       raw = "" \/ (exists e, JSON_parse raw = JS.Throw e) \/
       (exists v, JSON_parse raw = JS.Ok v /\ JS.isArray v = false) ->
       selectedProducts st' = selectedProducts st /\
       allProductsCache st' = allProductsCache st /\
       localStorage st' = localStorage st /\
       fetches (trace st') = fetches (trace st)) /\
    (forall raw ids items,
       ls_disabled (localStorage st) = false -> ls_item (localStorage st) = Some raw ->
       raw <> "" -> JSON_parse raw = JS.Ok (JS.Arr ids) ->
       available st o items -> forallb isObject items = true ->
       (forall k, Map.has k (selectedProducts st') =
                  Map.has k (selectedProducts st) || (in_ids ids k && in_catalog items k)) /\
       (selectedProducts st = [] ->
        forall k, Map.has k (selectedProducts st') = in_ids ids k && in_catalog items k) /\
       (forall k v, In (k, v) (selectedProducts st') ->
                    In (k, v) (selectedProducts st) \/ product_of items k = Some v) /\
       (forall k, in_catalog items k = false ->
                  Map.has k (selectedProducts st') = Map.has k (selectedProducts st))).
Proof.
  intros o st st'. subst st'.
  split; [apply restore_never_throws |].
  split; [| split].
  - intros Hd Hi. unfold listener, restoreSelectionsFromStorage, getItem. run.
    rewrite Hd, Hi. reflexivity.
  - intros raw Hd Hi Hbad.
    unfold listener, restoreSelectionsFromStorage, getItem. run.
    rewrite Hd, Hi.
    destruct raw as [| c raw]; [repeat split |].
    destruct Hbad as [Hbad | [[e Hbad] | [v [Hbad Hv]]]].
    + discriminate.
    + rewrite Hbad. cbn. repeat split.
      unfold fetches. rewrite filter_app. cbn. now rewrite app_nil_r.
    + rewrite Hbad. destruct v; try discriminate; repeat split.
  - intros raw ids items Hd Hi Hraw Hp Hav Ho.
    rewrite (restore_populates o st raw ids items Hd Hi Hraw Hp Hav Ho).
    split; [| split; [| split]].
    + intro k. apply has_restore_all.
    + intros Hempty k. rewrite has_restore_all, Hempty. reflexivity.
    + intros k v. apply in_restore_all.
    + intros k Hk. rewrite has_restore_all, Hk. rewrite andb_false_r.
      now rewrite orb_false_r.
Qed.

(** *** Persist, then restore *)

Lemma selection_ok_in :
  forall items m k v,
    selection_ok items m -> In (k, v) m ->
    find_by_id items k = JS.Ok v /\ JS.truthy v = true.
Proof.
  induction m as [| [k0 v0] m IH]; intros k v Hok Hin; [contradiction |].
  destruct Hok as (Hf & Ht & _ & Hok).
  destruct Hin as [[= <- <-] | Hin]; [now split | now apply IH].
Qed.

Lemma in_has :
  forall m k v, In (k, v) m -> JS.strict_eq k k = true -> Map.has k m = true.
Proof.
  intros m k v Hin Hk. unfold Map.has. apply existsb_exists.
  exists (k, v). now split.
Qed.

Lemma set_same :
  forall items m k v, selection_ok items m -> In (k, v) m -> Map.set k v m = m.
Proof.
  induction m as [| [k0 v0] m IH]; intros k v Hok Hin; [contradiction |].
  pose proof (selection_ok_in items _ k v Hok Hin) as [Hf Ht].
  pose proof (find_by_id_found items k v Hf Ht) as Hk.
  destruct Hok as (_ & _ & Hfresh & Hok).
  cbn [Map.set]. destruct Hin as [[= -> ->] | Hin].
  - now rewrite Hk.
  - destruct (JS.strict_eq k0 k) eqn:E.
    + apply strict_eq_eq in E. subst k0.
      rewrite (in_has m k v Hin Hk) in Hfresh. discriminate.
    + now rewrite (IH k v Hok Hin).
Qed.

Lemma product_of_selected :
  forall items k v,
    forallb isObject items = true ->
    find_by_id items k = JS.Ok v -> JS.truthy v = true ->
    product_of items k = Some v.
Proof.
  intros items k v Ho Hf Ht. rewrite find_by_id_objects in Hf by assumption.
  destruct (product_of items k) as [p |].
  - now injection Hf as ->.
  - injection Hf as <-. discriminate.
Qed.

Lemma restore_all_same :
  forall items ids m,
    forallb isObject items = true -> selection_ok items m ->
    (forall id, In id ids -> exists v, In (id, v) m) ->
    restore_all items ids m = m.
Proof.
  intros items. induction ids as [| id ids IH]; intros m Ho Hok Hids; [reflexivity |].
  rewrite restore_all_cons.
  destruct (Hids id (or_introl eq_refl)) as [v Hin].
  destruct (selection_ok_in items m id v Hok Hin) as [Hf Ht].
  unfold restore_step. rewrite (product_of_selected items id v Ho Hf Ht).
  rewrite (set_same items m id v Hok Hin).
  apply IH; auto. intros id' Hin'. apply Hids. now right.
Qed.

Lemma selection_ok_app_fresh :
  forall items acc k v rest,
    selection_ok items (acc ++ (k, v) :: rest) -> Map.has k acc = false.
Proof.
  induction acc as [| [k0 v0] acc IH]; intros k v rest Hok; [reflexivity |].
  destruct Hok as (_ & _ & Hfresh & Hok).
  rewrite has_app, has_cons in Hfresh.
  apply orb_false_iff in Hfresh as [_ Hfresh].
  apply orb_false_iff in Hfresh as [Hkk0 _].
  rewrite has_cons, strict_eq_sym, Hkk0. cbn. now apply (IH k v rest).
Qed.

Lemma restore_all_fresh :
  forall items rest acc,
    forallb isObject items = true -> selection_ok items (acc ++ rest) ->
    restore_all items (Map.keys rest) acc = acc ++ rest.
Proof.
  intros items. induction rest as [| [k v] rest IH]; intros acc Ho Hok.
  - cbn. now rewrite app_nil_r.
  - cbn [Map.keys map fst]. rewrite restore_all_cons.
    assert (Hin : In (k, v) (acc ++ (k, v) :: rest)).
    { apply in_or_app. right. now left. }
    destruct (selection_ok_in items _ k v Hok Hin) as [Hf Ht].
    unfold restore_step. rewrite (product_of_selected items k v Ho Hf Ht).
    rewrite set_absent by now apply (selection_ok_app_fresh items acc k v rest).
    change (map fst rest) with (Map.keys rest).
    rewrite IH; [now rewrite <- app_assoc | assumption |].
    now rewrite <- app_assoc.
Qed.

(** C3: from a selection that holds products of the catalog under their
    ids, [persist()] followed by [restore()] against the same catalog gives
    the selection that was persisted, bindings and order alike: on the same
    page, and on a later page that starts empty with the record left by
    [persist()]. *)
Theorem persist_restore_roundtrip :
  forall (st : State) (items : list JS.value) (o : FetchOutcome),
    catalog_of st items ->
    selection_ok items (selectedProducts st) ->
    storage_usable st ->
    encoded_keys (selectedProducts st) <> "" ->
    JSON_parse (encoded_keys (selectedProducts st)) =
      JS.Ok (JS.Arr (Map.keys (selectedProducts st))) ->
    let persisted := listener saveSelectionsToStorage st in
    ls_item (localStorage persisted) = Some (encoded_keys (selectedProducts st)) /\
    selectedProducts (listener (restoreSelectionsFromStorage o) persisted) =
      selectedProducts st /\
    (forall (later : State) (o' : FetchOutcome),
       selectedProducts later = [] ->
       localStorage later = localStorage persisted ->
       available later o' items ->
       selectedProducts (listener (restoreSelectionsFromStorage o') later) =
         selectedProducts st).
Proof.
  intros st items o [Hc Ho] Hok Hu Hne Hparse persisted. subst persisted.
  unfold listener at 1 3 4. rewrite saveSelectionsToStorage_eq. cbn [snd].
  destruct (saved_usable st Hu) as [Hls _].
  split; [now rewrite Hls |].
  split.
  - rewrite (restore_populates o (saved st) (encoded_keys (selectedProducts st))
               (Map.keys (selectedProducts st)) items);
      try (rewrite Hls; reflexivity); auto.
    + rewrite selected_saved. apply restore_all_same; auto.
      intros id Hin. unfold Map.keys in Hin. apply in_map_iff in Hin as [[k v] [<- Hin]].
      now exists v.
    + left. now rewrite cache_saved.
  - intros later o' Hempty Hlater Hav.
    rewrite (restore_populates o' later (encoded_keys (selectedProducts st))
               (Map.keys (selectedProducts st)) items);
      try (rewrite Hlater, Hls; reflexivity); auto.
    rewrite Hempty. now apply (restore_all_fresh items (selectedProducts st) []).
Qed.

(** *** The invariant of the selection *)

Lemma selection_ok_set :
  forall items k p m,
    selection_ok items m -> find_by_id items k = JS.Ok p -> JS.truthy p = true ->
    selection_ok items (Map.set k p m).
Proof.
  induction m as [| [k0 v0] m IH]; intros Hok Hf Ht.
  - cbn. repeat split; auto.
  - destruct Hok as (Hf0 & Ht0 & Hfresh & Hok). cbn [Map.set].
    destruct (JS.strict_eq k0 k) eqn:E.
    + apply strict_eq_eq in E. subst k0. cbn. repeat split; auto.
    + cbn. repeat split; auto.
      rewrite has_set, Hfresh, strict_eq_sym, E. reflexivity.
Qed.

Lemma find_product_items :
  forall cache id p,
    find_product cache id = JS.Ok p -> find_by_id (catalog_items cache) id = JS.Ok p.
Proof.
  intros cache id p. unfold find_product, catalog_items.
  destruct (JS.or cache (JS.Arr [])); try discriminate. auto.
Qed.

Lemma selection_ok_no_items : forall m, selection_ok [] m -> m = [].
Proof.
  intros [| [k v] m] H; [reflexivity |].
  destruct H as (Hf & Ht & _). cbn in Hf. injection Hf as <-. discriminate.
Qed.

Lemma coherent_uncached :
  forall st, JS.truthy (allProductsCache st) = false -> coherent st ->
    selectedProducts st = [].
Proof.
  intros st Hc H. apply selection_ok_no_items.
  unfold coherent, catalog_items, JS.or in H. now rewrite Hc in H.
Qed.

Lemma keeps_coherent_refl : forall st, keeps_coherent st st.
Proof. intros st H. exact H. Qed.

Lemma keeps_coherent_trans :
  forall a b c, keeps_coherent a b -> keeps_coherent b c -> keeps_coherent a c.
Proof. unfold keeps_coherent. auto. Qed.

Lemma coherent_modify :
  forall f : State -> State,
    (forall st, allProductsCache (f st) = allProductsCache st /\
                selectedProducts (f st) = selectedProducts st) ->
    stable keeps_coherent (modify f).
Proof.
  intros f Hf st H. unfold coherent in *. cbn. destruct (Hf st) as [H1 H2].
  now rewrite H1, H2.
Qed.

Lemma coherent_emit : forall e, stable keeps_coherent (emit e).
Proof. intros e. apply coherent_modify. intro st. split; reflexivity. Qed.

Lemma coherent_getItem : stable keeps_coherent getItem.
Proof.
  intros st. unfold getItem.
  destruct (ls_disabled (localStorage st)); apply keeps_coherent_refl.
Qed.

Lemma coherent_setItem : forall v, stable keeps_coherent (setItem v).
Proof.
  intros v st H. unfold setItem.
  destruct (ls_disabled (localStorage st)); [exact H |].
  destruct (ls_full (localStorage st)); exact H.
Qed.

Lemma coherent_sendMessagesToAI :
  forall msgs o, stable keeps_coherent (sendMessagesToAI msgs o).
Proof. intros msgs o st H. rewrite sendMessagesToAI_eq. exact H. Qed.

Lemma coherent_loadProducts : forall o, stable keeps_coherent (loadProducts o).
Proof.
  intros o st H. rewrite loadProducts_eq.
  destruct (JS.truthy (allProductsCache st)) eqn:Hc; [exact H |].
  pose proof (coherent_uncached st Hc H) as Hnil. cbv zeta.
  destruct o as [e | r]; [exact H |].
  destruct (JSON_parse (body r)) as [data | e]; [| exact H].
  destruct (JS.member data "products") as [products | e]; [| exact H].
  unfold coherent. cbn. rewrite Hnil. exact I.
Qed.

Lemma coherent_restore_one : forall id, stable keeps_coherent (restore_one id).
Proof.
  intros id st H. unfold restore_one. run.
  destruct (find_product (allProductsCache st) id) as [prod | e] eqn:Hf; [| exact H].
  destruct (JS.truthy prod) eqn:Ht; [| exact H].
  unfold coherent. cbn. apply selection_ok_set; auto.
  now apply find_product_items.
Qed.

Lemma coherent_saved : forall st, coherent st -> coherent (saved st).
Proof.
  intros st H. unfold coherent. now rewrite selected_saved, cache_saved.
Qed.

Lemma coherent_reselected :
  forall k m st,
    selection_ok (catalog_items (allProductsCache st)) m -> coherent (reselected k m st).
Proof.
  intros k m st H. unfold coherent.
  now rewrite selected_reselected, cache_reselected.
Qed.

Lemma coherent_toggleSelection : forall n, stable keeps_coherent (toggleSelection n).
Proof.
  intros n st H. rewrite toggleSelection_eq. cbv zeta.
  destruct (find_product (allProductsCache st) (JS.Num n)) as [product | e] eqn:Hf;
    [| exact H].
  destruct (JS.truthy product) eqn:Ht; [| exact H].
  cbn [snd]. apply coherent_reselected.
  destruct (Map.has (JS.Num n) (selectedProducts st)).
  - now apply selection_ok_delete.
  - apply selection_ok_set; auto. now apply find_product_items.
Qed.

Lemma removeSelection_eq :
  forall n st,
    removeSelection n st =
    (JS.Ok tt, reselected (JS.Num n) (Map.delete (JS.Num n) (selectedProducts st)) st).
Proof.
  intros n st. unfold removeSelection, updateCardHighlight, renderSelectedProducts. run.
  rewrite saveSelectionsToStorage_eq. reflexivity.
Qed.

Lemma coherent_removeSelection : forall n, stable keeps_coherent (removeSelection n).
Proof.
  intros n st H. rewrite removeSelection_eq. cbn [snd].
  apply coherent_reselected. now apply selection_ok_delete.
Qed.

Lemma coherent_clearSelections : stable keeps_coherent clearSelections.
Proof.
  intros st H. unfold clearSelections, renderSelectedProducts. run.
  rewrite saveSelectionsToStorage_eq. cbn [snd].
  apply coherent_saved. exact I.
Qed.

Ltac coherent_leaf :=
  first
    [ apply coherent_getItem | apply coherent_setItem | apply coherent_emit
    | apply coherent_loadProducts | apply coherent_sendMessagesToAI
    | apply coherent_restore_one
    | apply coherent_modify; intro; split; reflexivity ].

Ltac keep_coherent := stabilize keeps_coherent_refl keeps_coherent_trans coherent_leaf.

(** ** Further properties of the script *)

(** *** Escaping and the chat window *)

Lemma occurs_app :
  forall c s t, occurs c (s ++ t)%string = occurs c s || occurs c t.
Proof.
  induction s as [| d s IH]; intro t; cbn; [reflexivity |].
  rewrite IH. now rewrite orb_assoc.
Qed.

Lemma occurs_replaceAll :
  forall d c by_ s,
    occurs d (JS.replaceAll c by_ s) =
    (occurs c s && occurs d by_) || (negb (Ascii.eqb d c) && occurs d s).
Proof.
  induction s as [| x s IH]; [cbn; now rewrite andb_false_r |].
  cbn [JS.replaceAll occurs]. destruct (Ascii.eqb x c) eqn:E.
  - apply Ascii.eqb_eq in E. subst x.
    rewrite occurs_app, IH. rewrite (Ascii.eqb_sym c d).
    destruct (occurs d by_), (Ascii.eqb d c), (occurs c s), (occurs d s); reflexivity.
  - cbn [occurs]. rewrite IH.
    destruct (Ascii.eqb x d) eqn:E'.
    + apply Ascii.eqb_eq in E'. subst x. rewrite E.
      destruct (occurs c s), (occurs d by_), (occurs d s); reflexivity.
    + destruct (occurs c s), (occurs d by_), (Ascii.eqb d c), (occurs d s); reflexivity.
Qed.

Lemma replaceAll_absent :
  forall c by_ s, occurs c s = false -> JS.replaceAll c by_ s = s.
Proof.
  induction s as [| x s IH]; cbn; intro H; [reflexivity |].
  apply orb_false_iff in H as [H1 H2]. rewrite H1, IH by assumption. reflexivity.
Qed.

(** X1: the text [escapeHtml] returns holds no [<], [>], double quote or
    apostrophe, whatever the input; a text that holds none of these and no
    ampersand is returned as it is. *)
Theorem escapeHtml_markup_free :
  forall s,
    markup_free (escapeHtml s) = true /\
    (markup_free s = true -> occurs "&"%char s = false -> escapeHtml s = s).
Proof.
  intro s. split.
  - unfold markup_free, escapeHtml. rewrite !occurs_replaceAll. cbn.
    rewrite !andb_false_r. reflexivity.
  - unfold markup_free, escapeHtml. intros H Hamp.
    apply andb_true_iff in H as [H Hq]. apply andb_true_iff in H as [H Hd].
    apply andb_true_iff in H as [Hl Hg].
    apply negb_true_iff in Hl, Hg, Hd, Hq.
    rewrite (replaceAll_absent "&"%char) by assumption.
    rewrite (replaceAll_absent "<"%char) by assumption.
    rewrite (replaceAll_absent ">"%char) by assumption.
    rewrite (replaceAll_absent dquote) by assumption.
    now rewrite (replaceAll_absent "'"%char) by assumption.
Qed.








(** *** Clearing and removing *)

Lemma clearSelections_eq :
  forall st,
    clearSelections st =
    (JS.Ok tt,
     saved
       (with_generateRoutineBtn true
          (with_productCards (map (fun c => mkCard (data_id c) false) (productCards st))
             (with_selected [] st)))).
Proof.
  intro st. unfold clearSelections, renderSelectedProducts. run.
  rewrite saveSelectionsToStorage_eq. reflexivity.
Qed.

Lemma saved_fields :
  forall st,
    messages (saved st) = messages st /\ chatWindow (saved st) = chatWindow st /\
    productCards (saved st) = productCards st /\
    generateRoutineBtn_disabled (saved st) = generateRoutineBtn_disabled st /\
    sendBtn_disabled (saved st) = sendBtn_disabled st /\
    posts (trace (saved st)) = posts (trace st) /\
    fetches (trace (saved st)) = fetches (trace st).
Proof.
  intro st. unfold saved.
  destruct (ls_disabled (localStorage st)).
  - repeat split; try reflexivity; cbn [trace with_trace];
      unfold posts, fetches; rewrite filter_app; cbn; now rewrite app_nil_r.
  - destruct (ls_full (localStorage st));
      repeat split; try reflexivity; cbn [trace with_trace with_localStorage];
      unfold posts, fetches; rewrite ?filter_app; cbn; now rewrite ?app_nil_r.
Qed.

(** X3: the clear button empties the selection, takes the mark off every
    card (the cards and their ids stay), disables the routine button and,
    when the storage is usable, leaves the encoding of the empty key list
    in the record; it raises nothing and leaves the conversation and the
    catalog cache alone, and a routine request made next only gets the
    guidance message: no completion call is made. *)
Theorem clearSelections_effect :
  forall (st : State) (o : FetchOutcome),
    let st' := listener clearSelections st in
    fst (clearSelections st) = JS.Ok tt /\
    selectedProducts st' = [] /\
    productCards st' = map (fun c => mkCard (data_id c) false) (productCards st) /\
    generateRoutineBtn_disabled st' = true /\
    allProductsCache st' = allProductsCache st /\
    conversation_kept st st' /\
    (storage_usable st -> ls_item (localStorage st') = Some (encoded_keys [])) /\
    posts (trace (listener (generateRoutine o) st')) = posts (trace st) /\
    messages (listener (generateRoutine o) st') = messages st.
Proof.
  intros st o st'. subst st'. unfold listener.
  rewrite clearSelections_eq. cbn [fst snd].
  match goal with |- context [saved ?s] => set (cleared := s) end.
  destruct (saved_fields cleared) as (Hm & Hw & Hc & Hg & _ & Hp & _).
  split; [reflexivity |].
  split; [now rewrite selected_saved |].
  split; [now rewrite Hc |].
  split; [now rewrite Hg |].
  split; [now rewrite cache_saved |].
  split; [unfold conversation_kept; now rewrite Hm, Hw, Hp |].
  split.
  - intro Hu. destruct (saved_usable cleared Hu) as [Hls _]. now rewrite Hls.
  - rewrite generateRoutine_eq, selected_saved. cbn [snd selectedProducts cleared
      with_generateRoutineBtn with_productCards with_selected].
    cbn [trace messages with_chatWindow]. now rewrite Hp, Hm.
Qed.


(** *** The two halves of a listener

    Run one after the other, with nothing in between, the two halves of an
    asynchronous listener are the listener. *)

Lemma loadProducts_halves :
  forall o st,
    loadProducts o st =
    match loadProducts_start st with
    | (JS.Ok (Some cache), st1) => (JS.Ok cache, st1)
    | (JS.Ok None, st1) => loadProducts_resume o st1
    | (JS.Throw e, st1) => (JS.Throw e, st1)
    end.
Proof.
  intros o st. unfold loadProducts, loadProducts_start, loadProducts_resume, fetch, settle.
  run. destruct (JS.truthy (allProductsCache st)); reflexivity.
Qed.

Lemma sendMessagesToAI_halves :
  forall msgs o st,
    sendMessagesToAI msgs o st =
    (sendMessagesToAI_start msgs ;; sendMessagesToAI_resume o) st.
Proof. reflexivity. Qed.

Lemma sendMessagesToAI_resume_eq :
  forall o st, sendMessagesToAI_resume o st = (reply_of o, st).
Proof.
  intros o st. unfold sendMessagesToAI_resume, settle, json, text, reply_of. run.
  destruct o as [e | r]; [reflexivity |].
  destruct (ok r); cbn [negb]; [| reflexivity].
  destruct (JSON_parse (body r)) as [data | e]; [| reflexivity].
  rewrite first_nonempty_aiText.
  destruct (JS.truthy (aiText_of data)); cbn [negb]; [| reflexivity].
  destruct (JS.ToString (aiText_of data)); reflexivity.
Qed.

Lemma restoreSelectionsFromStorage_halves :
  forall o st,
    restoreSelectionsFromStorage o st =
    match restoreSelectionsFromStorage_start st with
    | (JS.Ok (Some ids), st1) => restoreSelectionsFromStorage_resume ids o st1
    | (JS.Ok None, st1) => (JS.Ok tt, st1)
    | (JS.Throw e, st1) => (JS.Throw e, st1)
    end.
Proof.
  intros o st.
  unfold restoreSelectionsFromStorage, restoreSelectionsFromStorage_start,
    restoreSelectionsFromStorage_resume, restore_finish, renderSelectedProducts, getItem.
  run.
  destruct (ls_disabled (localStorage st)); [reflexivity |].
  destruct (ls_item (localStorage st)) as [[| c raw] |]; try reflexivity.
  destruct (JSON_parse (String c raw)) as [ids | e]; [| reflexivity].
  destruct ids as [| | b | n | s | ids | fields]; try reflexivity.
  rewrite loadProducts_halves. unfold loadProducts_start. run.
  destruct (JS.truthy (allProductsCache st)).
  - destruct (forEach ids restore_one st) as [[[] | e] st1]; [| reflexivity].
    match goal with
    | |- context [forEach ids updateCardHighlight ?s] =>
        destruct (forEach ids updateCardHighlight s) as [[[] | e] st2]
    end; reflexivity.
  - destruct (loadProducts_resume o
                (with_trace (trace st ++ [EvFetch PRODUCTS_URL]) st)) as [[v | e] st1];
      reflexivity.
Qed.

Lemma categoryChange_halves :
  forall c o st,
    categoryChange c o st =
    match categoryChange_start c st with
    | (JS.Ok true, st1) => categoryChange_resume c o st1
    | (JS.Ok false, st1) => (JS.Ok tt, st1)
    | (JS.Throw e, st1) => (JS.Throw e, st1)
    end.
Proof.
  intros c o st. unfold categoryChange, categoryChange_start, categoryChange_resume.
  run. rewrite loadProducts_halves. unfold loadProducts_start. run.
  destruct (JS.truthy (allProductsCache st)).
  - unfold category_finish. run.
    destruct (allProductsCache st) as [| | b | n | s | items | fields]; try reflexivity.
    destruct (filter_category items c) as [kept | e]; [| reflexivity].
    destruct (displayProducts kept st) as [[[] | e] st1]; reflexivity.
  - destruct (loadProducts_resume o
                (with_trace (trace st ++ [EvFetch PRODUCTS_URL]) st)) as [[v | e] st1];
      [| reflexivity].
    unfold category_finish. run.
    destruct v as [| | b | n | s | items | fields]; try reflexivity.
Qed.

Lemma chatSubmit_resume_eq :
  forall o st, chatSubmit_resume o st = (JS.Ok tt, replied "Error: " (reply_of o) st).
Proof.
  intros o st. unfold chatSubmit_resume. run. rewrite sendMessagesToAI_resume_eq.
  unfold push_message, appendMessageToChat, remove_placeholder, enable_controls. run.
  unfold replied. destruct (reply_of o) as [aiText | err]; reflexivity.
Qed.

Lemma generateRoutine_resume_eq :
  forall o st,
    generateRoutine_resume o st =
    (JS.Ok tt, replied "Error generating routine: " (reply_of o) st).
Proof.
  intros o st. unfold generateRoutine_resume. run. rewrite sendMessagesToAI_resume_eq.
  unfold push_message, appendMessageToChat, remove_placeholder. run.
  unfold replied. destruct (reply_of o) as [aiText | err]; reflexivity.
Qed.

Lemma chatSubmit_start_eq :
  forall st,
    chatSubmit_start st =
    if (JS.trim (userInput st) =? "")%string then (JS.Ok false, st)
    else
      (JS.Ok true,
       with_trace
         (trace st ++ [EvPost WORKER_URL (messages (chat_sent st)) PROMPT_ID])
         (chat_sent st)).
Proof.
  intro st. unfold chatSubmit_start. run.
  destruct (JS.trim (userInput st) =? "")%string; [reflexivity |].
  unfold push_message, appendMessageToChat, sendMessagesToAI_start. run. reflexivity.
Qed.

Lemma generateRoutine_start_eq :
  forall st,
    generateRoutine_start st =
    match selectedProducts st with
    | [] =>
        (JS.Ok false,
         with_chatWindow
           (chatWindow st ++
              [assistant_entry "Select at least one product to generate a routine."]) st)
    | _ =>
        (JS.Ok true,
         with_trace
           (trace st ++ [EvPost WORKER_URL (messages (routine_sent st)) PROMPT_ID])
           (routine_sent st))
    end.
Proof.
  intro st. unfold generateRoutine_start. run.
  destruct (selectedProducts st) as [| kv rest] eqn:Hsel; [reflexivity |].
  cbn [Map.values map List.length Nat.eqb].
  unfold push_message, appendMessageToChat, sendMessagesToAI_start. run.
  unfold routine_sent. rewrite Hsel. reflexivity.
Qed.

Lemma settled_replied :
  forall prefix r st,
    settled prefix r st =
    replied prefix r
      (with_trace (trace st ++ [EvPost WORKER_URL (messages st) PROMPT_ID]) st).
Proof. intros prefix [aiText | err] st; reflexivity. Qed.

Lemma chatSubmit_halves :
  forall o st,
    chatSubmit o st =
    match chatSubmit_start st with
    | (JS.Ok true, st1) => chatSubmit_resume o st1
    | (JS.Ok false, st1) => (JS.Ok tt, st1)
    | (JS.Throw e, st1) => (JS.Throw e, st1)
    end.
Proof.
  intros o st. rewrite chatSubmit_eq, chatSubmit_start_eq.
  destruct (JS.trim (userInput st) =? "")%string; [reflexivity |].
  rewrite chatSubmit_resume_eq, settled_replied. reflexivity.
Qed.

Lemma generateRoutine_halves :
  forall o st,
    generateRoutine o st =
    match generateRoutine_start st with
    | (JS.Ok true, st1) => generateRoutine_resume o st1
    | (JS.Ok false, st1) => (JS.Ok tt, st1)
    | (JS.Throw e, st1) => (JS.Throw e, st1)
    end.
Proof.
  intros o st. rewrite generateRoutine_eq, generateRoutine_start_eq.
  destruct (selectedProducts st); [reflexivity |].
  rewrite generateRoutine_resume_eq, settled_replied. reflexivity.
Qed.

(** *** The page with requests in flight *)

Lemma cache_same_refl : forall st, cache_same st st.
Proof. reflexivity. Qed.

Lemma cache_same_trans :
  forall a b c, cache_same a b -> cache_same b c -> cache_same a c.
Proof. unfold cache_same. congruence. Qed.

Lemma cache_same_modify :
  forall f : State -> State,
    (forall st, allProductsCache (f st) = allProductsCache st) ->
    stable cache_same (modify f).
Proof. intros f Hf st. apply Hf. Qed.

Lemma cache_same_emit : forall e, stable cache_same (emit e).
Proof. intros e st. reflexivity. Qed.

Lemma cache_same_getItem : stable cache_same getItem.
Proof.
  intro st. unfold getItem. destruct (ls_disabled (localStorage st)); reflexivity.
Qed.

Lemma cache_same_setItem : forall v, stable cache_same (setItem v).
Proof.
  intros v st. unfold setItem.
  destruct (ls_disabled (localStorage st)); [reflexivity |].
  destruct (ls_full (localStorage st)); reflexivity.
Qed.

Lemma cache_same_sendMessagesToAI_resume :
  forall o, stable cache_same (sendMessagesToAI_resume o).
Proof. intros o st. rewrite sendMessagesToAI_resume_eq. reflexivity. Qed.

Ltac cache_same_leaf :=
  first
    [ apply cache_same_getItem | apply cache_same_setItem | apply cache_same_emit
    | apply cache_same_sendMessagesToAI_resume
    | apply cache_same_modify; intro; reflexivity ].

Ltac keep_same := stabilize cache_same_refl cache_same_trans cache_same_leaf.

Lemma coherent_sendMessagesToAI_resume :
  forall o, stable keeps_coherent (sendMessagesToAI_resume o).
Proof. intros o st H. rewrite sendMessagesToAI_resume_eq. exact H. Qed.

Ltac resumed_coherent_leaf :=
  first [ apply coherent_sendMessagesToAI_resume | coherent_leaf ].

Ltac keep_coherent_resumed := stabilize keeps_coherent_refl keeps_coherent_trans resumed_coherent_leaf.

Lemma keeps_sound_refl : forall v st, keeps_sound v st st.
Proof. intros v st H. exact H. Qed.

Lemma keeps_sound_trans :
  forall v a b c, keeps_sound v a b -> keeps_sound v b c -> keeps_sound v a c.
Proof. unfold keeps_sound. auto. Qed.

Lemma sound_of_both :
  forall v A (m : M A),
    stable keeps_coherent m -> stable cache_same m -> stable (keeps_sound v) m.
Proof.
  intros v A m Hc Hs st [H1 H2]. split; [now apply Hc |].
  unfold cached_only. now rewrite (Hs st).
Qed.

(** The second half of a load keeps the invariant when the request is
    answered with the one catalog. *)
Lemma sound_loadProducts_resume :
  forall v o,
    match o with
    | Resolved r =>
        forall data,
          JSON_parse (body r) = JS.Ok data -> JS.nullish data = false ->
          JS.prop data "products" = v
    | Rejected _ => True
    end ->
    stable (keeps_sound v) (loadProducts_resume o).
Proof.
  intros v o Ho st H. unfold loadProducts_resume, settle, json. run.
  destruct o as [e | r]; [exact H |].
  destruct (JSON_parse (body r)) as [data | e] eqn:Hp; [| exact H].
  unfold JS.member. destruct (JS.nullish data) eqn:Hn; [exact H |].
  cbn [snd]. rewrite (Ho data eq_refl Hn).
  destruct H as [Hcoh [Hc | Hc]].
  - split; [| now right].
    unfold coherent. cbn [allProductsCache selectedProducts with_cache].
    rewrite (coherent_uncached st); [exact I | now rewrite Hc | exact Hcoh].
  - split; [| now right].
    unfold coherent in *. cbn [allProductsCache selectedProducts with_cache].
    now rewrite <- Hc.
Qed.

Lemma coherent_restore_finish : forall ids, stable keeps_coherent (restore_finish ids).
Proof.
  intro ids. unfold restore_finish, renderSelectedProducts, updateCardHighlight.
  keep_coherent_resumed.
Qed.

Lemma cache_same_restore_finish : forall ids, stable cache_same (restore_finish ids).
Proof.
  intro ids. unfold restore_finish, restore_one, renderSelectedProducts,
    updateCardHighlight. keep_same.
Qed.

Lemma coherent_category_finish :
  forall v c, stable keeps_coherent (category_finish v c).
Proof. intros v c. unfold category_finish, displayProducts. keep_coherent_resumed. Qed.

Lemma cache_same_category_finish :
  forall v c, stable cache_same (category_finish v c).
Proof. intros v c. unfold category_finish, displayProducts. keep_same. Qed.

Ltac halves_coherent_leaf :=
  first [ apply coherent_restore_finish | apply coherent_category_finish | resumed_coherent_leaf ].

Ltac halves_same_leaf :=
  first [ apply cache_same_restore_finish | apply cache_same_category_finish
        | cache_same_leaf ].

Ltac keep_coherent_halves :=
  stabilize keeps_coherent_refl keeps_coherent_trans halves_coherent_leaf.

Ltac keep_same_halves := stabilize cache_same_refl cache_same_trans halves_same_leaf.

Lemma sound_starts :
  forall v t pg, sound v (current pg) -> sound v (current (starts t pg)).
Proof.
  intros v t pg H.
  destruct t as [| c | n | n | | typed |]; cbn [starts started current].
  - revert H. apply sound_of_both.
    + unfold restoreSelectionsFromStorage_start, loadProducts_start.
      keep_coherent_halves.
    + unfold restoreSelectionsFromStorage_start, loadProducts_start.
      keep_same_halves.
  - revert H. apply sound_of_both.
    + unfold categoryChange_start, loadProducts_start.
      keep_coherent_halves.
    + unfold categoryChange_start, loadProducts_start.
      keep_same_halves.
  - revert H. apply sound_of_both.
    + apply coherent_toggleSelection.
    + unfold toggleSelection, renderSelectedProducts, updateCardHighlight,
        saveSelectionsToStorage. keep_same.
  - revert H. apply sound_of_both.
    + apply coherent_removeSelection.
    + unfold removeSelection, renderSelectedProducts, updateCardHighlight,
        saveSelectionsToStorage. keep_same.
  - revert H. apply sound_of_both.
    + apply coherent_clearSelections.
    + unfold clearSelections, renderSelectedProducts, saveSelectionsToStorage.
      keep_same.
  - assert (H' : sound v (with_userInput typed (current pg))) by exact H.
    revert H'. apply sound_of_both.
    + unfold chatSubmit_start, push_message, appendMessageToChat,
        sendMessagesToAI_start. keep_coherent_resumed.
    + unfold chatSubmit_start, push_message, appendMessageToChat,
        sendMessagesToAI_start. keep_same.
  - revert H. apply sound_of_both.
    + unfold generateRoutine_start, push_message, appendMessageToChat,
        sendMessagesToAI_start. keep_coherent_resumed.
    + unfold generateRoutine_start, push_message, appendMessageToChat,
        sendMessagesToAI_start. keep_same.
Qed.

Lemma sound_occur :
  forall v e pg,
    static_catalog v e -> sound v (current pg) -> sound v (current (occur e pg)).
Proof.
  intros v e pg Hstatic H. destruct e as [t | i o | i o]; cbn [occur].
  - now apply sound_starts.
  - assert (Ho : stable (keeps_sound v) (loadProducts_resume o)).
    { apply sound_loadProducts_resume. destruct o; [exact I | exact Hstatic]. }
    destruct (nth_error (pending pg) i) as [[ids | | |] |]; try exact H.
    + cbn [resumed current]. unfold listener. revert H.
      unfold restoreSelectionsFromStorage_resume.
      apply (stable_try_catch _ (keeps_sound_trans v)).
      * apply (stable_bind _ (keeps_sound_trans v)); [exact Ho |].
        intros _. apply sound_of_both;
          [apply coherent_restore_finish | apply cache_same_restore_finish].
      * intro e. apply sound_of_both; [apply coherent_emit | apply cache_same_emit].
    + cbn [resumed current]. unfold listener. revert H.
      unfold categoryChange_resume.
      apply (stable_bind _ (keeps_sound_trans v)); [exact Ho |].
      intro products. apply sound_of_both;
        [apply coherent_category_finish | apply cache_same_category_finish].
  - destruct (nth_error (pending pg) i) as [[ids | | |] |]; try exact H.
    + cbn [resumed current]. unfold listener. revert H. apply sound_of_both.
      * unfold chatSubmit_resume, push_message, appendMessageToChat,
          remove_placeholder, enable_controls. keep_coherent_resumed.
      * unfold chatSubmit_resume, push_message, appendMessageToChat,
          remove_placeholder, enable_controls. keep_same.
    + cbn [resumed current]. unfold listener. revert H. apply sound_of_both.
      * unfold generateRoutine_resume, push_message, appendMessageToChat,
          remove_placeholder. keep_coherent_resumed.
      * unfold generateRoutine_resume, push_message, appendMessageToChat,
          remove_placeholder. keep_same.
Qed.

Lemma sound_occur_all :
  forall v occs pg,
    Forall (static_catalog v) occs -> sound v (current pg) ->
    sound v (current (occur_all occs pg)).
Proof.
  induction occs as [| e occs IH]; intros pg Hall H; [exact H |].
  inversion Hall as [| ? ? He Hrest]; subst.
  unfold occur_all. cbn [fold_left]. apply IH; [assumption |].
  now apply sound_occur.
Qed.

(** *** Invariants of the page *)

Lemma selection_ok_NoDup :
  forall items m, selection_ok items m -> NoDup (Map.keys m).
Proof.
  induction m as [| [k v] m IH]; intro H; [constructor |].
  destruct H as (Hf & Ht & Hfresh & Hok). cbn. constructor; [| now apply IH].
  intro Hin. unfold Map.keys in Hin. apply in_map_iff in Hin as [[k' v'] [E Hin]].
  cbn in E. subst k'.
  rewrite (in_has m k v' Hin (find_by_id_found items k v Hf Ht)) in Hfresh.
  discriminate.
Qed.

(** X5: on the page with requests in flight, where listeners start while
    others wait and requests settle in any order, and where every catalog
    request that is answered with a JSON document is answered with the same
    products: the selection always binds each of its ids to the product that
    a search of the cached catalog finds for that id, holds no id twice,
    holds only ids that are primitive values, and is empty as long as no
    catalog is cached; and the cache holds nothing or those products. *)
Theorem selection_invariant :
  forall (ls : Storage) (products : JS.value) (occs : list Occurrence),
    Forall (static_catalog products) occs ->
    let st := current (occur_all occs (opened ls)) in
    (forall k v,
       In (k, v) (selectedProducts st) ->
       find_by_id (catalog_items (allProductsCache st)) k = JS.Ok v /\
       JS.truthy v = true /\ JS.strict_eq k k = true) /\
    NoDup (Map.keys (selectedProducts st)) /\
    (JS.truthy (allProductsCache st) = false -> selectedProducts st = []) /\
    (allProductsCache st = JS.Undefined \/ allProductsCache st = products).
Proof.
  intros ls products occs Hall st.
  assert (Hs : sound products st).
  { apply sound_occur_all; [exact Hall |]. split; [exact I | now left]. }
  destruct Hs as [H Hcache].
  split; [| split; [| split]].
  - intros k v Hin. destruct (selection_ok_in _ _ k v H Hin) as [Hf Ht].
    repeat split; auto. exact (find_by_id_found _ k v Hf Ht).
  - now apply (selection_ok_NoDup _ _ H).
  - intro Hc. now apply coherent_uncached.
  - exact Hcache.
Qed.

(** *** The cached catalog on the page with requests in flight *)

Lemma cache_kept_loadProducts_start : stable cache_kept loadProducts_start.
Proof.
  intros st Hc. unfold loadProducts_start. run. rewrite Hc. split; reflexivity.
Qed.

Lemma cache_kept_sendMessagesToAI_resume :
  forall o, stable cache_kept (sendMessagesToAI_resume o).
Proof. intros o st _. rewrite sendMessagesToAI_resume_eq. split; reflexivity. Qed.

Ltac halves_cache_kept_leaf :=
  first
    [ apply cache_kept_loadProducts_start | apply cache_kept_sendMessagesToAI_resume
    | cache_kept_leaf ].

Ltac keep_cache_halves :=
  stabilize cache_kept_refl cache_kept_trans halves_cache_kept_leaf.

Lemma restore_start_cached :
  forall st,
    JS.truthy (allProductsCache st) = true ->
    fst (restoreSelectionsFromStorage_start st) = JS.Ok None.
Proof.
  intros st Hc. unfold restoreSelectionsFromStorage_start, loadProducts_start, getItem.
  run.
  destruct (ls_disabled (localStorage st)); [reflexivity |].
  destruct (ls_item (localStorage st)) as [[| c raw] |]; try reflexivity.
  destruct (JSON_parse (String c raw)) as [ids | e]; [| reflexivity].
  destruct ids as [| | b | n | s | ids | fields]; try reflexivity.
  rewrite Hc.
  destruct (restore_finish ids st) as [[[] | e] st1]; reflexivity.
Qed.

Lemma categoryChange_start_cached :
  forall c st,
    JS.truthy (allProductsCache st) = true ->
    fst (categoryChange_start c st) <> JS.Ok true.
Proof.
  intros c st Hc. unfold categoryChange_start, loadProducts_start. run. rewrite Hc.
  destruct (category_finish (allProductsCache st) c st) as [[[] | e] st1]; discriminate.
Qed.

Lemma awaits_reply_without :
  forall l i, forallb awaits_reply l = true -> forallb awaits_reply (without i l) = true.
Proof.
  unfold without. induction l as [| p l IH]; intros i H.
  - now destruct i.
  - cbn [forallb] in H. apply andb_true_iff in H as [Hp H].
    destruct i as [| i]; cbn [firstn skipn app]; [exact H |].
    cbn [forallb]. rewrite Hp. now apply IH.
Qed.

Lemma awaits_reply_nth :
  forall l i p,
    forallb awaits_reply l = true -> nth_error l i = Some p -> awaits_reply p = true.
Proof.
  intros l i p H Hn. rewrite forallb_forall in H. apply H.
  now apply nth_error_In with i.
Qed.

(** What one occurrence keeps, once the catalog is cached and no listener
    waits for it. *)
Lemma occur_keeps_cache :
  forall e pg,
    JS.truthy (allProductsCache (current pg)) = true ->
    forallb awaits_reply (pending pg) = true ->
    cache_kept (current pg) (current (occur e pg)) /\
    forallb awaits_reply (pending (occur e pg)) = true.
Proof.
  intros e pg Hc Hp. destruct e as [t | i o | i o]; cbn [occur].
  - destruct t as [| c | n | n | | typed |]; cbn [starts started current pending].
    + split.
      * assert (H : stable cache_kept restoreSelectionsFromStorage_start).
        { unfold restoreSelectionsFromStorage_start, restore_finish, restore_one,
            renderSelectedProducts, updateCardHighlight. keep_cache_halves. }
        apply H.
      * rewrite restore_start_cached by assumption. cbn [option_map].
        now rewrite app_nil_r.
    + split.
      * assert (H : stable cache_kept (categoryChange_start c)).
        { unfold categoryChange_start, category_finish, displayProducts.
          keep_cache_halves. }
        apply H.
      * pose proof (categoryChange_start_cached c (current pg) Hc) as Hno.
        destruct (fst (categoryChange_start c (current pg))) as [[|] | e];
          try contradiction; now rewrite app_nil_r.
    + split; [apply cache_kept_toggleSelection | exact Hp].
    + split; [apply cache_kept_removeSelection | exact Hp].
    + split; [apply cache_kept_clearSelections | exact Hp].
    + split.
      * assert (H : stable cache_kept chatSubmit_start).
        { unfold chatSubmit_start, push_message, appendMessageToChat,
            sendMessagesToAI_start. keep_cache_halves. }
        eapply cache_kept_trans; [| apply H]. intros _. split; reflexivity.
      * rewrite forallb_app, Hp.
        destruct (fst (chatSubmit_start (with_userInput typed (current pg))))
          as [[|] | e]; reflexivity.
    + split.
      * assert (H : stable cache_kept generateRoutine_start).
        { unfold generateRoutine_start, push_message, appendMessageToChat,
            sendMessagesToAI_start. keep_cache_halves. }
        apply H.
      * rewrite forallb_app, Hp.
        destruct (fst (generateRoutine_start (current pg))) as [[|] | e]; reflexivity.
  - destruct (nth_error (pending pg) i) as [p |] eqn:Hn;
      [| split; [apply cache_kept_refl | exact Hp]].
    pose proof (awaits_reply_nth _ _ _ Hp Hn) as Hr.
    destruct p; try discriminate; split; first [apply cache_kept_refl | exact Hp].
  - destruct (nth_error (pending pg) i) as [[ids | | |] |];
      try (split; [apply cache_kept_refl | exact Hp]);
      cbn [resumed current pending]; unfold listener.
    + split; [| now apply awaits_reply_without].
      assert (H : stable cache_kept (chatSubmit_resume o)).
      { unfold chatSubmit_resume, push_message, appendMessageToChat,
          remove_placeholder, enable_controls. keep_cache_halves. }
      apply H.
    + split; [| now apply awaits_reply_without].
      assert (H : stable cache_kept (generateRoutine_resume o)).
      { unfold generateRoutine_resume, push_message, appendMessageToChat,
          remove_placeholder. keep_cache_halves. }
      apply H.
Qed.

Lemma occur_all_keeps_cache :
  forall occs pg,
    JS.truthy (allProductsCache (current pg)) = true ->
    forallb awaits_reply (pending pg) = true ->
    cache_kept (current pg) (current (occur_all occs pg)) /\
    forallb awaits_reply (pending (occur_all occs pg)) = true.
Proof.
  induction occs as [| e occs IH]; intros pg Hc Hp.
  - split; [apply cache_kept_refl | exact Hp].
  - unfold occur_all. cbn [fold_left]. fold (occur_all occs (occur e pg)).
    destruct (occur_keeps_cache e pg Hc Hp) as [Hk Hp1].
    destruct (Hk Hc) as [Hc1 _].
    destruct (IH (occur e pg)) as [Hk2 Hp2]; [now rewrite Hc1 | exact Hp1 |].
    split; [| exact Hp2].
    eapply cache_kept_trans; eassumption.
Qed.

(** X24: once a catalog is cached and no listener waits for a catalog
    request, the page stays so whatever happens next, listeners starting
    while others wait and replies arriving in any order: the cache keeps
    its value, no catalog fetch is issued, no listener comes to wait for
    the catalog, and [load()] returns the cached value at once. *)
Theorem catalog_fetched_once :
  forall (pg : Page) (occs : list Occurrence),
    JS.truthy (allProductsCache (current pg)) = true ->
    forallb awaits_reply (pending pg) = true ->
    let pg' := occur_all occs pg in
    allProductsCache (current pg') = allProductsCache (current pg) /\
    fetches (trace (current pg')) = fetches (trace (current pg)) /\
    forallb awaits_reply (pending pg') = true /\
    (forall o,
       loadProducts o (current pg') =
         (JS.Ok (allProductsCache (current pg)), current pg')) /\
    loadProducts_start (current pg') =
      (JS.Ok (Some (allProductsCache (current pg))), current pg').
Proof.
  intros pg occs Hc Hp pg'. subst pg'.
  destruct (occur_all_keeps_cache occs pg Hc Hp) as [Hk Hp'].
  destruct (Hk Hc) as [Hsame Hfetch].
  split; [exact Hsame |]. split; [exact Hfetch |]. split; [exact Hp' |].
  split.
  - intro o. rewrite loadProducts_eq, Hsame, Hc. reflexivity.
  - unfold loadProducts_start. run. rewrite Hsame, Hc. reflexivity.
Qed.

Lemma posts_app : forall t u, posts (t ++ u) = (posts t + posts u)%nat.
Proof. intros. unfold posts. now rewrite filter_app, length_app. Qed.

Lemma loadProducts_frame :
  forall o st,
    let st' := snd (loadProducts o st) in
    selectedProducts st' = selectedProducts st /\ messages st' = messages st /\
    chatWindow st' = chatWindow st /\ productCards st' = productCards st /\
    localStorage st' = localStorage st /\ posts (trace st') = posts (trace st).
Proof.
  intros o st. cbv zeta. rewrite loadProducts_eq.
  destruct (JS.truthy (allProductsCache st)); [repeat split |].
  assert (Hp : posts (trace st ++ [EvFetch PRODUCTS_URL]) = posts (trace st)).
  { rewrite posts_app. cbn. lia. }
  cbv zeta. destruct o as [e | r]; [repeat split; exact Hp |].
  destruct (JSON_parse (body r)) as [data | e]; [| repeat split; exact Hp].
  destruct (JS.member data "products"); repeat split; exact Hp.
Qed.

Lemma setItem_frame :
  forall v st,
    let st' := snd (setItem v st) in
    selectedProducts st' = selectedProducts st /\ messages st' = messages st /\
    chatWindow st' = chatWindow st /\ productCards st' = productCards st /\
    allProductsCache st' = allProductsCache st /\ posts (trace st') = posts (trace st).
Proof.
  intros v st. cbv zeta. unfold setItem.
  destruct (ls_disabled (localStorage st)); [repeat split |].
  assert (Hp : posts (trace st ++ [EvSetItem STORAGE_KEY v]) = posts (trace st)).
  { rewrite posts_app. cbn. lia. }
  destruct (ls_full (localStorage st)); repeat split; exact Hp.
Qed.

(** The log only grows. *)

Lemma log_grows_refl : forall st, log_grows st st.
Proof. intro st. exists []. split; [now rewrite app_nil_r | constructor]. Qed.

Lemma log_grows_trans :
  forall a b c, log_grows a b -> log_grows b c -> log_grows a c.
Proof.
  intros a b c (s1 & E1 & F1) (s2 & E2 & F2). exists (s1 ++ s2). split.
  - now rewrite E2, E1, app_assoc.
  - apply Forall_app. now split.
Qed.

Lemma log_grows_same :
  forall st st', messages st' = messages st -> log_grows st st'.
Proof.
  intros st st' E. exists []. split; [now rewrite app_nil_r | constructor].
Qed.

Lemma log_grows_modify :
  forall f : State -> State,
    (forall st, messages (f st) = messages st) -> stable log_grows (modify f).
Proof. intros f Hf st. apply log_grows_same. apply Hf. Qed.

Lemma log_grows_push :
  forall m, role m <> system -> stable log_grows (push_message m).
Proof.
  intros m Hm st. exists [m]. split; [reflexivity |]. now constructor.
Qed.

Lemma log_grows_getItem : stable log_grows getItem.
Proof.
  intro st. unfold getItem. destruct (ls_disabled (localStorage st)); apply log_grows_refl.
Qed.

Lemma log_grows_setItem : forall v, stable log_grows (setItem v).
Proof.
  intros v st. apply log_grows_same. now destruct (setItem_frame v st) as (_ & H & _).
Qed.

Lemma log_grows_loadProducts : forall o, stable log_grows (loadProducts o).
Proof.
  intros o st. apply log_grows_same. now destruct (loadProducts_frame o st) as (_ & H & _).
Qed.

Lemma log_grows_sendMessagesToAI :
  forall msgs o, stable log_grows (sendMessagesToAI msgs o).
Proof.
  intros msgs o st. apply log_grows_same. now rewrite sendMessagesToAI_eq.
Qed.

Ltac log_grows_leaf :=
  first
    [ apply log_grows_getItem | apply log_grows_setItem | apply log_grows_loadProducts
    | apply log_grows_sendMessagesToAI
    | apply log_grows_push; discriminate
    | apply log_grows_modify; intro; reflexivity ].

Ltac grow_log := stabilize log_grows_refl log_grows_trans log_grows_leaf.

Lemma perform_log_grows : forall a st, log_grows st (perform a st).
Proof.
  intros [o | c o | n | n | | typed o | o] st; cbn [perform]; unfold listener.
  - assert (H : stable log_grows (restoreSelectionsFromStorage o)).
    { unfold restoreSelectionsFromStorage, restore_one, renderSelectedProducts,
        updateCardHighlight, emit. grow_log. }
    apply H.
  - assert (H : stable log_grows (categoryChange c o)).
    { unfold categoryChange, displayProducts. grow_log. }
    apply H.
  - assert (H : stable log_grows (toggleSelection n)).
    { unfold toggleSelection, saveSelectionsToStorage, renderSelectedProducts,
        updateCardHighlight, emit. grow_log. }
    apply H.
  - assert (H : stable log_grows (removeSelection n)).
    { unfold removeSelection, saveSelectionsToStorage, renderSelectedProducts,
        updateCardHighlight, emit. grow_log. }
    apply H.
  - assert (H : stable log_grows clearSelections).
    { unfold clearSelections, saveSelectionsToStorage, renderSelectedProducts, emit.
      grow_log. }
    apply H.
  - assert (H : stable log_grows (chatSubmit o)).
    { unfold chatSubmit, appendMessageToChat, remove_placeholder, enable_controls, emit.
      grow_log. }
    eapply log_grows_trans; [| apply H]. now apply log_grows_same.
  - assert (H : stable log_grows (generateRoutine o)).
    { unfold generateRoutine, appendMessageToChat, remove_placeholder, emit. grow_log. }
    apply H.
Qed.

Lemma perform_all_log_grows : forall acts st, log_grows st (perform_all acts st).
Proof.
  induction acts as [| a acts IH]; intro st; [apply log_grows_refl |].
  unfold perform_all. cbn [fold_left].
  eapply log_grows_trans; [apply perform_log_grows | apply IH].
Qed.

(** X6: the conversation log is append-only: whatever happens to the page,
    the log is the earlier log followed by user and assistant messages, so
    that from the start of the page its first entry is the system message
    and no other entry has the system role. *)
Theorem conversation_log_append_only :
  forall (acts : list Action),
    (forall st,
       exists suffix,
         messages (perform_all acts st) = messages st ++ suffix /\
         Forall (fun m => role m <> system) suffix) /\
    (forall ls,
       exists rest,
         messages (perform_all acts (initial ls)) =
           mkMessage system SYSTEM_PROMPT :: rest /\
         Forall (fun m => role m <> system) rest).
Proof.
  intro acts. split.
  - intro st. apply perform_all_log_grows.
  - intro ls. destruct (perform_all_log_grows acts (initial ls)) as (suffix & E & F).
    exists suffix. split; assumption.
Qed.

(** The selection handlers and the conversation handlers keep to their
    own part of the state. *)

Lemma conversation_kept_refl : forall st, conversation_kept st st.
Proof. intro st. repeat split. Qed.

Lemma conversation_kept_trans :
  forall a b c, conversation_kept a b -> conversation_kept b c -> conversation_kept a c.
Proof.
  intros a b c (H1 & H2 & H3) (H4 & H5 & H6). repeat split; congruence.
Qed.

Lemma conversation_kept_modify :
  forall f : State -> State,
    (forall st, messages (f st) = messages st /\ chatWindow (f st) = chatWindow st /\
                trace (f st) = trace st) ->
    stable conversation_kept (modify f).
Proof.
  intros f Hf st. destruct (Hf st) as (H1 & H2 & H3). cbn.
  repeat split; congruence.
Qed.

Lemma conversation_kept_emit :
  forall e, posts [e] = 0%nat -> stable conversation_kept (emit e).
Proof.
  intros e He st. repeat split.
  change (posts (trace st ++ [e]) = posts (trace st)). rewrite posts_app, He. lia.
Qed.

Lemma conversation_kept_getItem : stable conversation_kept getItem.
Proof.
  intro st. unfold getItem.
  destruct (ls_disabled (localStorage st)); apply conversation_kept_refl.
Qed.

Lemma conversation_kept_setItem : forall v, stable conversation_kept (setItem v).
Proof.
  intros v st. destruct (setItem_frame v st) as (_ & H1 & H2 & _ & _ & H3).
  repeat split; assumption.
Qed.

Lemma conversation_kept_loadProducts : forall o, stable conversation_kept (loadProducts o).
Proof.
  intros o st. destruct (loadProducts_frame o st) as (_ & H1 & H2 & _ & _ & H3).
  repeat split; assumption.
Qed.

Ltac conversation_kept_leaf :=
  first
    [ apply conversation_kept_getItem | apply conversation_kept_setItem
    | apply conversation_kept_loadProducts
    | apply conversation_kept_emit; reflexivity
    | apply conversation_kept_modify; intro; repeat split; reflexivity ].

Ltac keep_conversation :=
  stabilize conversation_kept_refl conversation_kept_trans conversation_kept_leaf.

(** X7: restoring the selection, changing the category, toggling a card,
    removing a chip and clearing the selection leave the conversation log
    and the chat window as they are and make no completion call. *)
Theorem selection_actions_keep_conversation :
  forall (a : Action) (st : State),
    match a with
    | ChatSubmitted _ _ | RoutineRequested _ => True
    | _ =>
        messages (perform a st) = messages st /\
        chatWindow (perform a st) = chatWindow st /\
        posts (trace (perform a st)) = posts (trace st)
    end.
Proof.
  intros [o | c o | n | n | | typed o | o] st; try exact I;
    cbn [perform]; unfold listener.
  - assert (H : stable conversation_kept (restoreSelectionsFromStorage o)).
    { unfold restoreSelectionsFromStorage, restore_one, renderSelectedProducts,
        updateCardHighlight. keep_conversation. }
    apply H.
  - assert (H : stable conversation_kept (categoryChange c o)).
    { unfold categoryChange, displayProducts. keep_conversation. }
    apply H.
  - assert (H : stable conversation_kept (toggleSelection n)).
    { unfold toggleSelection, renderSelectedProducts, updateCardHighlight.
      keep_conversation. }
    apply H.
  - assert (H : stable conversation_kept (removeSelection n)).
    { unfold removeSelection, renderSelectedProducts, updateCardHighlight.
      keep_conversation. }
    apply H.
  - assert (H : stable conversation_kept clearSelections).
    { unfold clearSelections, renderSelectedProducts. keep_conversation. }
    apply H.
Qed.

Lemma store_kept_refl : forall st, store_kept st st.
Proof. intro st. repeat split. Qed.

Lemma store_kept_trans :
  forall a b c, store_kept a b -> store_kept b c -> store_kept a c.
Proof.
  intros a b c (H1 & H2 & H3 & H4 & H5) (H6 & H7 & H8 & H9 & H10).
  repeat split; congruence.
Qed.

Lemma store_kept_modify :
  forall f : State -> State,
    (forall st, selectedProducts (f st) = selectedProducts st /\
                allProductsCache (f st) = allProductsCache st /\
                localStorage (f st) = localStorage st /\
                productCards (f st) = productCards st /\
                trace (f st) = trace st) ->
    stable store_kept (modify f).
Proof.
  intros f Hf st. destruct (Hf st) as (H1 & H2 & H3 & H4 & H5). cbn.
  repeat split; congruence.
Qed.

Lemma store_kept_emit :
  forall e, fetches [e] = 0%nat -> stable store_kept (emit e).
Proof.
  intros e He st. repeat split.
  change (fetches (trace st ++ [e]) = fetches (trace st)). rewrite fetches_app, He. lia.
Qed.

Lemma store_kept_sendMessagesToAI :
  forall msgs o, stable store_kept (sendMessagesToAI msgs o).
Proof.
  intros msgs o st. rewrite sendMessagesToAI_eq. repeat split.
  cbn [snd trace with_trace]. rewrite fetches_app. cbn. lia.
Qed.

Ltac store_kept_leaf :=
  first
    [ apply store_kept_sendMessagesToAI
    | apply store_kept_emit; reflexivity
    | apply store_kept_modify; intro; repeat split; reflexivity ].

Ltac keep_store := stabilize store_kept_refl store_kept_trans store_kept_leaf.

(** X8: a chat turn and a routine request, however the request ends, leave
    the selection, the catalog cache, the persisted record and the cards as
    they are and fetch no catalog. *)
Theorem conversation_actions_keep_store :
  forall (typed : string) (o : FetchOutcome) (st : State),
    (selectedProducts (perform (ChatSubmitted typed o) st) = selectedProducts st /\
     allProductsCache (perform (ChatSubmitted typed o) st) = allProductsCache st /\
     localStorage (perform (ChatSubmitted typed o) st) = localStorage st /\
     productCards (perform (ChatSubmitted typed o) st) = productCards st /\
     fetches (trace (perform (ChatSubmitted typed o) st)) = fetches (trace st)) /\
    (selectedProducts (perform (RoutineRequested o) st) = selectedProducts st /\
     allProductsCache (perform (RoutineRequested o) st) = allProductsCache st /\
     localStorage (perform (RoutineRequested o) st) = localStorage st /\
     productCards (perform (RoutineRequested o) st) = productCards st /\
     fetches (trace (perform (RoutineRequested o) st)) = fetches (trace st)).
Proof.
  intros typed o st. split; cbn [perform]; unfold listener.
  - assert (H : stable store_kept (chatSubmit o)).
    { unfold chatSubmit, push_message, appendMessageToChat, remove_placeholder,
        enable_controls. keep_store. }
    apply (H (with_userInput typed st)).
  - assert (H : stable store_kept (generateRoutine o)).
    { unfold generateRoutine, push_message, appendMessageToChat, remove_placeholder.
      keep_store. }
    apply H.
Qed.

(** *** The product grid *)

Lemma highlight_data_ids :
  forall label on cards, map data_id (highlight label on cards) = map data_id cards.
Proof.
  induction cards as [| c cards IH]; [reflexivity |].
  cbn [highlight]. destruct (data_id c =? label)%string eqn:E; cbn; [reflexivity |].
  now rewrite IH.
Qed.

Lemma highlight_no_match :
  forall label on cards,
    forallb (fun c => negb (data_id c =? label)%string) cards = true ->
    highlight label on cards = cards.
Proof.
  induction cards as [| c cards IH]; cbn; intro H; [reflexivity |].
  apply andb_true_iff in H as [H1 H2]. apply negb_true_iff in H1.
  rewrite H1, IH by assumption. reflexivity.
Qed.

Lemma highlight_first_match :
  forall label on before c after,
    forallb (fun c => negb (data_id c =? label)%string) before = true ->
    data_id c = label ->
    highlight label on (before ++ c :: after) = before ++ mkCard label on :: after.
Proof.
  induction before as [| b before IH]; intros c after H Hc.
  - cbn. rewrite Hc, String.eqb_refl. reflexivity.
  - cbn in H. apply andb_true_iff in H as [H1 H2]. apply negb_true_iff in H1.
    cbn. rewrite H1. now rewrite IH.
Qed.

Lemma decimal_digit :
  forall c acc rest,
    ((48 <=? nat_of_ascii c) && (nat_of_ascii c <=? 57))%nat = true ->
    JS.decimal acc (String c rest) =
    JS.decimal (acc * 10 + Z.of_nat (nat_of_ascii c - 48))%Z rest.
Proof. intros c acc rest H. cbn [JS.decimal]. now rewrite H. Qed.

Ltac eval_digit :=
  match goal with
  | |- context [Z.of_nat ?n] =>
      let v := eval vm_compute in (Z.of_nat n) in change (Z.of_nat n) with v
  end.

Lemma decimal_uint_acc :
  forall d acc,
    JS.decimal (Z.pos acc) (NilEmpty.string_of_uint d) =
    Some (Z.pos (Pos.of_uint_acc d acc)).
Proof.
  induction d; intro acc; cbn [NilEmpty.string_of_uint Pos.of_uint_acc];
    try reflexivity;
    rewrite decimal_digit by reflexivity; eval_digit;
    match goal with
    | |- JS.decimal ?z _ = Some (Z.pos (Pos.of_uint_acc _ ?p)) =>
        replace z with (Z.pos p) by lia
    end; apply IHd.
Qed.

Lemma decimal_uint :
  forall d, JS.decimal 0 (NilEmpty.string_of_uint d) = Some (Z.of_N (Pos.of_uint d)).
Proof.
  induction d; cbn [NilEmpty.string_of_uint Pos.of_uint];
    try reflexivity;
    rewrite decimal_digit by reflexivity; eval_digit; cbn [Z.mul Z.add Z.of_N];
    first [ exact IHd | apply decimal_uint_acc ].
Qed.

Lemma trimEnd_no_space : forall s, no_space s = true -> JS.trimEnd s = s.
Proof.
  induction s as [| c s IH]; cbn; intro H; [reflexivity |].
  apply andb_true_iff in H as [Hc Hs]. rewrite IH by assumption.
  destruct s; [| reflexivity].
  apply negb_true_iff in Hc. now rewrite Hc.
Qed.

Lemma trim_no_space : forall s, no_space s = true -> JS.trim s = s.
Proof.
  intros s H. unfold JS.trim.
  assert (E : JS.trimStart s = s).
  { destruct s as [| c s]; [reflexivity |]. cbn in *.
    apply andb_true_iff in H as [Hc _]. apply negb_true_iff in Hc. now rewrite Hc. }
  rewrite E. now apply trimEnd_no_space.
Qed.

Lemma no_space_uint : forall d, no_space (NilEmpty.string_of_uint d) = true.
Proof.
  induction d; cbn [NilEmpty.string_of_uint no_space]; try reflexivity;
    rewrite IHd; reflexivity.
Qed.

Lemma uint_text_nonnil :
  forall d, d <> Decimal.Nil -> NilZero.string_of_uint d = NilEmpty.string_of_uint d.
Proof. intros [] H; try reflexivity. contradiction. Qed.

(** [Number] reads back the text that [String] gives for an integer. *)
Lemma Number_of_text_string_of_Z :
  forall n, JS.Number_of_text (JS.string_of_Z n) = Some n.
Proof.
  intros [| p | p]; unfold JS.string_of_Z, Z.to_int, NilZero.string_of_int.
  - reflexivity.
  - rewrite uint_text_nonnil by apply Unsigned.to_uint_nonnil.
    unfold JS.Number_of_text. rewrite trim_no_space by apply no_space_uint.
    assert (H : JS.decimal 0 (NilEmpty.string_of_uint (Pos.to_uint p)) = Some (Z.pos p)).
    { rewrite decimal_uint, Unsigned.of_to. reflexivity. }
    pose proof (Unsigned.to_uint_nonnil p) as Hn.
    destruct (Pos.to_uint p); try contradiction;
      cbn [NilEmpty.string_of_uint] in *; exact H.
  - rewrite uint_text_nonnil by apply Unsigned.to_uint_nonnil.
    unfold JS.Number_of_text.
    rewrite trim_no_space by (cbn [no_space]; rewrite no_space_uint; reflexivity).
    assert (H : JS.decimal 0 (NilEmpty.string_of_uint (Pos.to_uint p)) = Some (Z.pos p)).
    { rewrite decimal_uint, Unsigned.of_to. reflexivity. }
    pose proof (Unsigned.to_uint_nonnil p) as Hn.
    destruct (Pos.to_uint p); try contradiction;
      cbn [NilEmpty.string_of_uint] in *; rewrite H; reflexivity.
Qed.

Lemma selector_text_uint :
  forall d, selector_text (NilEmpty.string_of_uint d) = true.
Proof.
  induction d; cbn [NilEmpty.string_of_uint selector_text]; try reflexivity;
    rewrite IHd; reflexivity.
Qed.

(** The text of a number can stand in an attribute selector as it is. *)
Lemma selector_text_number : forall n, selector_text (JS.string_of_Z n) = true.
Proof.
  intros [| p | p]; unfold JS.string_of_Z, Z.to_int, NilZero.string_of_int.
  - reflexivity.
  - rewrite uint_text_nonnil by apply Unsigned.to_uint_nonnil.
    apply selector_text_uint.
  - rewrite uint_text_nonnil by apply Unsigned.to_uint_nonnil.
    cbn [selector_text]. rewrite selector_text_uint. reflexivity.
Qed.

(** X9: for an id that is a primitive value and whose text can stand in the
    attribute selector as it is (the text of a number can),
    [updateCardHighlight] touches nothing but the cards, keeps their number
    and their ids, and changes at most one of them: the first card whose
    [data-id] is the text of the id gets the mark exactly when that id is
    selected; when no card carries that text, nothing changes. *)
Theorem updateCardHighlight_first_card :
  forall (id : JS.value) (st : State),
    primitive id = true ->
    selector_text (JS.to_String id) = true ->
    let label := JS.to_String id in
    let on := Map.has id (selectedProducts st) in
    let st' := snd (updateCardHighlight id st) in
    fst (updateCardHighlight id st) = JS.Ok tt /\
    st' = with_productCards (productCards st') st /\
    map data_id (productCards st') = map data_id (productCards st) /\
    (forallb (fun c => negb (data_id c =? label)%string) (productCards st) = true ->
     st' = st) /\
    (forall before c after,
       productCards st = before ++ c :: after ->
       forallb (fun c => negb (data_id c =? label)%string) before = true ->
       data_id c = label ->
       productCards st' = before ++ mkCard label on :: after) /\
    (forall n, safe_integer n = true ->
       primitive (JS.Num n) = true /\ selector_text (JS.to_String (JS.Num n)) = true).
Proof.
  intros id st _ _ label on st'. subst label on st'.
  unfold updateCardHighlight, modify. cbn [fst snd].
  split; [reflexivity |]. split; [reflexivity |].
  split; [apply highlight_data_ids |]. split; [| split].
  - intro H. cbn [productCards with_productCards]. destruct st.
    unfold with_productCards. cbn in *. now rewrite highlight_no_match.
  - intros before c after E H Hc. cbn [productCards with_productCards].
    rewrite E. now apply highlight_first_match.
  - intros n Hn. split; [exact Hn | apply selector_text_number].
Qed.

Lemma ToString_primitive :
  forall v, primitive v = true -> JS.ToString v = JS.Ok (JS.to_String v).
Proof.
  intros [| | [] | n | s | items | fields] H; try reflexivity; discriminate.
Qed.

Lemma markup_text_primitive : forall v, markup_text v = true -> primitive v = true.
Proof. intros [| | b | n | s | items | fields] H; try exact H; reflexivity. Qed.

Lemma interpolate_safe :
  forall p,
    card_safe p = true ->
    exists texts,
      interpolate p card_fields = JS.Ok (JS.to_String (JS.prop p "id") :: texts).
Proof.
  intros p H. unfold card_safe in H.
  repeat (apply andb_true_iff in H as [H ?]).
  destruct p as [| | b | n | s | items | fields]; try discriminate.
  assert (Hid : primitive (JS.prop (JS.Obj fields) "id") = true).
  { destruct (JS.prop (JS.Obj fields) "id"); try discriminate. assumption. }
  unfold card_fields. cbn [interpolate]. unfold JS.member. cbn [JS.nullish].
  rewrite !(ToString_primitive (JS.prop (JS.Obj fields) "id")) by exact Hid.
  rewrite !(ToString_primitive (JS.prop (JS.Obj fields) "image"))
    by now apply markup_text_primitive.
  rewrite !(ToString_primitive (JS.prop (JS.Obj fields) "name"))
    by now apply markup_text_primitive.
  rewrite !(ToString_primitive (JS.prop (JS.Obj fields) "brand"))
    by now apply markup_text_primitive.
  rewrite !(ToString_primitive (JS.prop (JS.Obj fields) "description"))
    by now apply markup_text_primitive.
  eexists. reflexivity.
Qed.

Lemma card_labels_safe :
  forall products,
    forallb card_safe products = true ->
    card_labels products = JS.Ok (map (fun p => JS.to_String (JS.prop p "id")) products).
Proof.
  induction products as [| p products IH]; intro H; [reflexivity |].
  cbn [forallb] in H. apply andb_true_iff in H as [Hp H].
  cbn [card_labels map]. destruct (interpolate_safe p Hp) as [texts E].
  rewrite E, IH by assumption. reflexivity.
Qed.

Lemma card_labels_nullish :
  forall products,
    existsb JS.nullish products = true -> exists e, card_labels products = JS.Throw e.
Proof.
  induction products as [| p products IH]; intro H; [discriminate |].
  cbn [existsb] in H. cbn [card_labels].
  destruct (JS.nullish p) eqn:Hn.
  - unfold card_fields. cbn [interpolate]. unfold JS.member. rewrite Hn.
    eexists. reflexivity.
  - cbn [orb] in H. destruct (IH H) as [e E]. rewrite E.
    destruct (interpolate p card_fields); eexists; reflexivity.
Qed.

Lemma displayProducts_eq :
  forall products st,
    displayProducts products st =
    match card_labels products with
    | JS.Throw e => (JS.Throw e, st)
    | JS.Ok labels =>
        (JS.Ok tt,
         with_productCards
           (map (fun data =>
                   mkCard data
                     (match JS.Number_of_text data with
                      | Some n => Map.has (JS.Num n) (selectedProducts st)
                      | None => false
                      end))
                labels) st)
    end.
Proof.
  intros products st. unfold displayProducts. run.
  destruct (card_labels products); reflexivity.
Qed.

Lemma card_safe_number :
  forall p, card_safe p = true -> exists n, JS.prop p "id" = JS.Num n.
Proof.
  intros p H. unfold card_safe in H.
  repeat (apply andb_true_iff in H as [H ?]).
  destruct (JS.prop p "id"); try discriminate. now eexists.
Qed.

Lemma displayProducts_safe :
  forall products st,
    forallb card_safe products = true ->
    displayProducts products st =
    (JS.Ok tt, with_productCards (map (card_for (selectedProducts st)) products) st).
Proof.
  intros products st H. rewrite displayProducts_eq, card_labels_safe by assumption.
  f_equal. f_equal. rewrite map_map. apply map_ext_in.
  intros p Hin. rewrite forallb_forall in H.
  destruct (card_safe_number p (H p Hin)) as [n E].
  unfold card_for. rewrite E. cbn [JS.to_String].
  now rewrite Number_of_text_string_of_Z.
Qed.

(** X10: [displayProducts] touches nothing but the grid, and writes nothing
    when it throws, as it does when a product is [null] or [undefined].
    For products that are records with an integer id and with members that
    open no tag and close no attribute in the markup, it draws one card per
    product, in order, whose [data-id] is the text of the product's id, and
    each card is marked exactly when the product's id is selected; for the
    empty list no card is left. *)
Theorem displayProducts_cards :
  forall (products : list JS.value) (st : State),
    let st' := snd (displayProducts products st) in
    st' = with_productCards (productCards st') st /\
    (forall e, fst (displayProducts products st) = JS.Throw e -> st' = st) /\
    (existsb JS.nullish products = true ->
     exists e, fst (displayProducts products st) = JS.Throw e) /\
    (forallb card_safe products = true ->
     fst (displayProducts products st) = JS.Ok tt /\
     productCards st' = map (card_for (selectedProducts st)) products /\
     map data_id (productCards st') =
       map (fun p => JS.to_String (JS.prop p "id")) products) /\
    (products = [] ->
     fst (displayProducts products st) = JS.Ok tt /\ productCards st' = []).
Proof.
  intros products st st'. subst st'.
  split; [| split; [| split; [| split]]].
  - rewrite displayProducts_eq. destruct (card_labels products); [reflexivity |].
    destruct st. reflexivity.
  - intros e. rewrite displayProducts_eq.
    destruct (card_labels products); [discriminate | reflexivity].
  - intro H. rewrite displayProducts_eq.
    destruct (card_labels_nullish products H) as [e E]. rewrite E. now exists e.
  - intro H. rewrite displayProducts_safe by assumption.
    cbn [fst snd productCards with_productCards].
    split; [reflexivity |]. split; [reflexivity |].
    rewrite map_map. reflexivity.
  - intros ->. split; reflexivity.
Qed.



(** X12: when the catalog cannot be had as a list (the load fails or what
    it returns is not an array), a change of category raises an exception
    and leaves the grid, the selection and the conversation as they were. *)
Theorem categoryChange_without_catalog :
  forall (c : string) (o : FetchOutcome) (st : State),
    match fst (loadProducts o st) with
    | JS.Ok (JS.Arr _) => True
    | _ =>
        (exists e, fst (categoryChange c o st) = JS.Throw e) /\
        productCards (snd (categoryChange c o st)) = productCards st /\
        selectedProducts (snd (categoryChange c o st)) = selectedProducts st /\
        messages (snd (categoryChange c o st)) = messages st /\
        chatWindow (snd (categoryChange c o st)) = chatWindow st
    end.
Proof.
  intros c o st.
  destruct (loadProducts_frame o st) as (Hs & Hm & Hw & Hcards & _).
  unfold categoryChange, bind.
  destruct (loadProducts o st) as [[v | e] st1]; cbn [fst snd] in *.
  - destruct v; try exact I; (split; [eexists; reflexivity | repeat split; assumption]).
  - split; [eexists; reflexivity | repeat split; assumption].
Qed.

(** *** Failures that are swallowed, failures that escape *)

(** X13: [saveSelectionsToStorage] never raises: when the storage is
    disabled or full the record stays as it was and a warning is logged,
    otherwise the record becomes the encoding of the selected ids; in all
    three cases the selection in memory is untouched, so that a chip removed
    while the storage refuses writes is removed all the same. *)
Theorem saveSelectionsToStorage_swallows_errors :
  forall (st : State) (productId : Z),
    let ls := localStorage st in
    let st' := snd (saveSelectionsToStorage st) in
    let v := encoded_keys (selectedProducts st) in
    fst (saveSelectionsToStorage st) = JS.Ok tt /\
    selectedProducts st' = selectedProducts st /\
    localStorage st' =
      (if ls_disabled ls || ls_full ls then ls else mkStorage (Some v) false false) /\
    trace st' =
      trace st ++
        (if ls_disabled ls then [EvWarn "Could not save selections:"]
         else if ls_full ls
              then [EvSetItem STORAGE_KEY v; EvWarn "Could not save selections:"]
              else [EvSetItem STORAGE_KEY v]) /\
    selectedProducts (listener (removeSelection productId) st) =
      Map.delete (JS.Num productId) (selectedProducts st) /\
    (ls_disabled ls || ls_full ls = true ->
     localStorage (listener (removeSelection productId) st) = ls).
Proof.
  intros st productId ls st' v. subst ls st' v.
  rewrite saveSelectionsToStorage_eq. cbn [fst snd].
  split; [reflexivity |]. split; [apply selected_saved |].
  unfold listener. rewrite removeSelection_eq. cbn [snd].
  rewrite selected_reselected. unfold reselected, saved.
  cbn [localStorage selectedProducts trace with_generateRoutineBtn with_productCards
         with_selected].
  destruct (ls_disabled (localStorage st)) eqn:Hd.
  - repeat split.
  - destruct (ls_full (localStorage st)) eqn:Hf; cbn [orb].
    + repeat split. cbn. now rewrite <- app_assoc.
    + repeat split. discriminate.
Qed.



(** X15: [sendMessagesToAI] records one request to the worker, carrying the
    messages it was given and the prompt id, and changes nothing else; a
    rejected fetch and a body of a 2xx response that is not JSON make it
    fail with the exception of the fetch, respectively of the parser; a
    non-empty [content] string is returned trimmed even when only white
    space, that is as the empty reply. *)
Theorem sendMessagesToAI_failures :
  forall (msgs : list Message) (o : FetchOutcome) (st : State),
    snd (sendMessagesToAI msgs o st) =
      with_trace (trace st ++ [EvPost WORKER_URL msgs PROMPT_ID]) st /\
    (forall e, o = Rejected e -> fst (sendMessagesToAI msgs o st) = JS.Throw e) /\
    (forall r e, o = Resolved r -> ok r = true -> JSON_parse (body r) = JS.Throw e ->
       fst (sendMessagesToAI msgs o st) = JS.Throw e) /\
    (forall r data content, o = Resolved r -> ok r = true ->
       JSON_parse (body r) = JS.Ok data ->
       JS.opt_member data "content" = JS.Str content -> content <> "" ->
       fst (sendMessagesToAI msgs o st) = JS.Ok (JS.trim content)).
Proof.
  intros msgs o st. rewrite sendMessagesToAI_eq. cbn [fst snd].
  split; [reflexivity |]. split; [| split].
  - intros e ->. reflexivity.
  - intros r e -> Hok Hp. cbn [reply_of]. now rewrite Hok, Hp.
  - intros r data content -> Hok Hp Hc Hne. cbn [reply_of]. rewrite Hok, Hp.
    unfold first_nonempty, response_shapes. cbn [map find]. rewrite Hc.
    cbn [JS.truthy]. destruct (content =? "")%string eqn:E.
    + apply String.eqb_eq in E. contradiction.
    + reflexivity.
Qed.

(** *** Restoring, once more *)

Lemma highlight_all_frame :
  forall ids st,
    allProductsCache (highlight_all ids st) = allProductsCache st /\
    localStorage (highlight_all ids st) = localStorage st.
Proof.
  induction ids as [| id ids IH]; intro st; [split; reflexivity |].
  change (highlight_all (id :: ids) st)
    with (highlight_all ids
            (with_productCards
               (highlight (JS.to_String id) (Map.has id (selectedProducts st))
                  (productCards st)) st)).
  match goal with |- context [highlight_all ids ?s] => destruct (IH s) as [H1 H2] end.
  rewrite H1, H2. split; reflexivity.
Qed.

Lemma restore_run :
  forall o st raw ids items,
    ls_disabled (localStorage st) = false ->
    ls_item (localStorage st) = Some raw -> raw <> "" ->
    JSON_parse raw = JS.Ok (JS.Arr ids) ->
    available st o items -> forallb isObject items = true ->
    let st' := listener (restoreSelectionsFromStorage o) st in
    selectedProducts st' = restore_all items ids (selectedProducts st) /\
    allProductsCache st' = JS.Arr items /\
    localStorage st' = localStorage st.
Proof.
  intros o st raw ids items Hd Hi Hraw Hp Hav Ho st'. subst st'.
  destruct (load_available st o items Hav) as (st1 & Hload & Hc1 & Hs1).
  pose proof (loadProducts_frame o st) as Hframe. cbv zeta in Hframe.
  rewrite Hload in Hframe. cbn [snd] in Hframe.
  destruct Hframe as (_ & _ & _ & _ & Hls1 & _).
  unfold listener, restoreSelectionsFromStorage, getItem. run.
  rewrite Hd, Hi. destruct raw as [| c raw]; [contradiction |].
  rewrite Hp, Hload.
  rewrite (forEach_restore_one items ids st1 Hc1 Ho).
  unfold renderSelectedProducts. run.
  rewrite forEach_highlight. cbn [snd].
  match goal with |- context [highlight_all ids ?s] =>
    destruct (highlight_all_frame ids s) as [H1 H2] end.
  rewrite selected_highlight_all, H1, H2. cbn. rewrite Hs1.
  repeat split; assumption.
Qed.

Lemma set_twice :
  forall k p m, JS.strict_eq k k = true -> Map.set k p (Map.set k p m) = Map.set k p m.
Proof.
  induction m as [| [k0 v0] m IH]; intro Hk.
  - cbn. now rewrite Hk.
  - cbn [Map.set]. destruct (JS.strict_eq k0 k) eqn:E; cbn [Map.set]; rewrite E.
    + reflexivity.
    + now rewrite IH.
Qed.

Lemma set_fixed_after_set :
  forall k p k' p' m,
    Map.set k p m = m -> (k' = k -> p' = p) ->
    Map.set k p (Map.set k' p' m) = Map.set k' p' m.
Proof.
  induction m as [| [k0 v0] m IH]; intros Hfix Hsame; [discriminate |].
  cbn [Map.set] in Hfix |- *.
  destruct (JS.strict_eq k0 k) eqn:E.
  - injection Hfix as ->.
    destruct (JS.strict_eq k0 k') eqn:E'; cbn [Map.set]; rewrite E.
    + apply strict_eq_eq in E, E'. subst. now rewrite Hsame.
    + reflexivity.
  - injection Hfix as Hfix.
    destruct (JS.strict_eq k0 k') eqn:E'; cbn [Map.set]; rewrite E.
    + now rewrite Hfix.
    + now rewrite IH.
Qed.

Lemma restore_all_keeps_fixed :
  forall items ids m k p,
    product_of items k = Some p -> Map.set k p m = m ->
    Map.set k p (restore_all items ids m) = restore_all items ids m.
Proof.
  intros items. induction ids as [| id ids IH]; intros m k p Hp Hfix; [exact Hfix |].
  rewrite restore_all_cons. apply IH; [assumption |].
  unfold restore_step. destruct (product_of items id) as [p' |] eqn:Hp'; [| exact Hfix].
  apply set_fixed_after_set; [assumption |]. intros ->. congruence.
Qed.

Lemma product_of_key :
  forall items k p, product_of items k = Some p -> JS.strict_eq k k = true.
Proof.
  intros items k p H. apply find_some in H as [_ H]. now apply strict_eq_refl_l in H.
Qed.

Lemma restore_all_fixes :
  forall items ids m id p,
    In id ids -> product_of items id = Some p ->
    Map.set id p (restore_all items ids m) = restore_all items ids m.
Proof.
  intros items. induction ids as [| a ids IH]; intros m id p Hin Hp; [contradiction |].
  rewrite restore_all_cons. destruct Hin as [-> | Hin].
  - apply restore_all_keeps_fixed; [assumption |].
    unfold restore_step. rewrite Hp. apply set_twice. now apply (product_of_key items id p).
  - now apply IH.
Qed.

Lemma restore_all_fixed_point :
  forall items ids m,
    (forall id p, In id ids -> product_of items id = Some p -> Map.set id p m = m) ->
    restore_all items ids m = m.
Proof.
  intros items. induction ids as [| a ids IH]; intros m H; [reflexivity |].
  rewrite restore_all_cons.
  assert (E : restore_step items m a = m).
  { unfold restore_step. destruct (product_of items a) as [p |] eqn:Hp; [| reflexivity].
    apply H; [now left | assumption]. }
  rewrite E. apply IH. intros id p Hin Hp. apply H; [now right | assumption].
Qed.

Lemma restore_all_idempotent :
  forall items ids m,
    restore_all items ids (restore_all items ids m) = restore_all items ids m.
Proof.
  intros items ids m. apply restore_all_fixed_point.
  intros id p Hin Hp. now apply restore_all_fixes.
Qed.

(** X16: [restore()] can be run again: with a record that is a list and
    the catalog at hand, a second run leaves the selection that the first
    run made, bindings and order alike; the first run does not write the
    record. *)
Theorem restore_idempotent :
  forall (o o' : FetchOutcome) (st : State) (raw : string) (ids items : list JS.value),
    ls_disabled (localStorage st) = false ->
    ls_item (localStorage st) = Some raw -> raw <> "" ->
    JSON_parse raw = JS.Ok (JS.Arr ids) ->
    available st o items -> forallb isObject items = true ->
    localStorage (listener (restoreSelectionsFromStorage o) st) = localStorage st /\
    selectedProducts
      (listener (restoreSelectionsFromStorage o')
         (listener (restoreSelectionsFromStorage o) st)) =
    selectedProducts (listener (restoreSelectionsFromStorage o) st).
Proof.
  intros o o' st raw ids items Hd Hi Hraw Hp Hav Ho.
  destruct (restore_run o st raw ids items Hd Hi Hraw Hp Hav Ho) as (Hs & Hc & Hls).
  split; [exact Hls |].
  rewrite (restore_populates o' _ raw ids items); auto.
  - rewrite Hs. apply restore_all_idempotent.
  - now rewrite Hls.
  - now rewrite Hls.
  - now left.
Qed.

(** X17: when the record is a list but the catalog cannot be loaded,
    [restore()] gives up without raising: the failed fetch and a warning are
    logged, and the selection, the cache, the record and the rest of the
    page are as before. *)
Theorem restore_without_catalog :
  forall (o : FetchOutcome) (st : State) (raw : string) (ids : list JS.value) (e : JS.exn),
    ls_disabled (localStorage st) = false ->
    ls_item (localStorage st) = Some raw -> raw <> "" ->
    JSON_parse raw = JS.Ok (JS.Arr ids) ->
    fst (loadProducts o st) = JS.Throw e ->
    restoreSelectionsFromStorage o st =
      (JS.Ok tt,
       with_trace
         ((trace st ++ [EvFetch PRODUCTS_URL]) ++ [EvWarn "Could not restore selections:"])
         st).
Proof.
  intros o st raw ids e Hd Hi Hraw Hp Hload.
  assert (E : loadProducts o st =
              (JS.Throw e, with_trace (trace st ++ [EvFetch PRODUCTS_URL]) st)).
  { rewrite loadProducts_eq in Hload |- *.
    destruct (JS.truthy (allProductsCache st)); [discriminate |]. cbv zeta in *.
    destruct o as [e0 | r]; [cbn in Hload; congruence |].
    destruct (JSON_parse (body r)) as [data | e0]; [| cbn in Hload; congruence].
    destruct (JS.member data "products"); cbn in Hload; [discriminate | congruence]. }
  unfold restoreSelectionsFromStorage, getItem. run.
  rewrite Hd, Hi. destruct raw as [| c raw]; [contradiction |].
  rewrite Hp, E. reflexivity.
Qed.


(** *** Requests *)

Lemma trace_settled :
  forall prefix r st,
    trace (settled prefix r st) =
    trace st ++
      EvPost WORKER_URL (messages st) PROMPT_ID ::
      match r with
      | JS.Ok _ => []
      | JS.Throw err => [EvError (JS.message err)]
      end.
Proof.
  intros prefix [aiText | err] st; unfold settled; cbn [trace with_generateRoutineBtn
    with_sendBtn with_messages with_chatWindow with_trace].
  - reflexivity.
  - now rewrite <- app_assoc.
Qed.

Lemma posts_settled :
  forall prefix r st, posts (trace (settled prefix r st)) = S (posts (trace st)).
Proof.
  intros prefix r st. rewrite trace_settled, posts_app.
  destruct r; unfold posts; cbn [filter List.length]; lia.
Qed.

Lemma product_summary_fields :
  forall p name,
    JS.prop (product_summary p) name =
    if existsb (String.eqb name) ["id"; "name"; "brand"; "category"; "description"]
    then JS.prop p name else JS.Undefined.
Proof.
  intros p name. unfold product_summary. cbn [JS.prop JS.lookup existsb].
  rewrite !(String.eqb_sym name).
  repeat match goal with
         | |- context [(?k =? name)%string] =>
             let E := fresh "E" in
             destruct (k =? name)%string eqn:E;
             [apply String.eqb_eq in E; subst name; reflexivity | cbn [orb]; clear E]
         end.
  reflexivity.
Qed.

(** X19: a chat turn with a non-blank input, in its two halves.  The first
    half clears the input box, records the user's trimmed input in the log
    and in the window, shows the placeholder, disables both buttons and
    makes one completion call, whose messages are the whole log followed by
    that input.  The second half runs when the call settles, in whatever
    state the page is then: it asks nothing more of the outside but, on
    failure, the error log, and enables both buttons; a reply is appended
    to the log as it is then, and takes the place of the last assistant
    entry that the window shows then; a failure adds its notice to the
    window.  With nothing in between, the two halves are the listener: the
    log ends with the user's message and the reply, and the placeholder is
    gone.  When another assistant entry was shown in between, that entry is
    the one the reply removes, and the placeholder of the turn stays. *)
Theorem chat_turn_request :
  forall (st : State),
    JS.trim (userInput st) <> "" ->
    let sent := messages st ++ [mkMessage user (JS.trim (userInput st))] in
    let st1 := snd (chatSubmit_start st) in
    (fst (chatSubmit_start st) = JS.Ok true /\
     st1 = with_trace (trace st ++ [EvPost WORKER_URL sent PROMPT_ID]) (chat_sent st) /\
     userInput st1 = "" /\
     messages st1 = sent /\
     posts (trace st1) = S (posts (trace st))) /\
    (forall o mid,
       let st' := listener (chatSubmit_resume o) mid in
       posts (trace st') = posts (trace mid) /\
       sendBtn_disabled st' = false /\
       generateRoutineBtn_disabled st' = false /\
       (forall aiText,
          fst (sendMessagesToAI_resume o mid) = JS.Ok aiText ->
          trace st' = trace mid /\
          messages st' = messages mid ++ [mkMessage assistant aiText] /\
          chatWindow st' =
            remove_last_assistant (chatWindow mid) ++ [assistant_entry aiText]) /\
       (forall err,
          fst (sendMessagesToAI_resume o mid) = JS.Throw err ->
          trace st' = trace mid ++ [EvError (JS.message err)] /\
          messages st' = messages mid /\
          chatWindow st' =
            chatWindow mid ++ [assistant_entry ("Error: " ++ JS.message err)%string])) /\
    (forall o,
       listener (chatSubmit_resume o) st1 = listener (chatSubmit o) st /\
       forall aiText,
         fst (sendMessagesToAI_resume o st1) = JS.Ok aiText ->
         messages (listener (chatSubmit_resume o) st1) =
           sent ++ [mkMessage assistant aiText] /\
         chatWindow (listener (chatSubmit_resume o) st1) =
           chatWindow st ++
             [user_entry (JS.trim (userInput st)); assistant_entry aiText]) /\
    (forall o mid aiText shown,
       fst (sendMessagesToAI_resume o mid) = JS.Ok aiText ->
       chatWindow mid = chatWindow st1 ++ [assistant_entry shown] ->
       chatWindow (listener (chatSubmit_resume o) mid) =
         (chatWindow st ++
            [user_entry (JS.trim (userInput st)); assistant_entry "Thinking..."])
           ++ [assistant_entry aiText]).
Proof.
  intros st Hne sent st1. subst sent st1.
  assert (E : (JS.trim (userInput st) =? "")%string = false).
  { apply String.eqb_neq. exact Hne. }
  rewrite chatSubmit_start_eq, E. cbn [fst snd].
  split; [| split; [| split]].
  - split; [reflexivity |]. split; [reflexivity |]. split; [reflexivity |].
    split; [reflexivity |].
    cbn [trace with_trace]. rewrite posts_app. cbn. lia.
  - intros o mid. cbv zeta. unfold listener.
    rewrite chatSubmit_resume_eq, sendMessagesToAI_resume_eq. cbn [fst snd].
    split; [| split; [| split; [| split]]].
    + destruct (reply_of o);
        cbn [replied trace with_generateRoutineBtn with_sendBtn with_messages
               with_chatWindow with_trace]; [reflexivity |].
      rewrite posts_app. cbn. lia.
    + destruct (reply_of o); reflexivity.
    + destruct (reply_of o); reflexivity.
    + intros aiText ->. repeat split; reflexivity.
    + intros err ->. repeat split; reflexivity.
  - intro o. unfold listener.
    rewrite chatSubmit_halves, chatSubmit_start_eq, E. split; [reflexivity |].
    intros aiText Hr. rewrite chatSubmit_resume_eq.
    rewrite sendMessagesToAI_resume_eq in Hr. cbn [fst] in Hr. rewrite Hr.
    cbn [snd replied messages chatWindow with_generateRoutineBtn with_sendBtn
           with_messages with_chatWindow with_trace chat_sent with_userInput].
    split; [reflexivity |].
    rewrite remove_last_assistant_snoc by reflexivity.
    now rewrite <- app_assoc.
  - intros o mid aiText shown Hr Hmid. unfold listener.
    rewrite chatSubmit_resume_eq.
    rewrite sendMessagesToAI_resume_eq in Hr. cbn [fst] in Hr. rewrite Hr.
    cbn [snd replied chatWindow with_generateRoutineBtn with_sendBtn
           with_messages with_chatWindow].
    rewrite Hmid. rewrite remove_last_assistant_snoc by reflexivity.
    cbn [chatWindow with_trace chat_sent with_chatWindow with_generateRoutineBtn
           with_sendBtn with_userInput with_messages].
    now rewrite <- (app_assoc (chatWindow st)).
Qed.

(** X20: a routine request with a non-empty selection, in its two halves.
    The first half makes one completion call, whose messages are the whole
    log followed by a user message built from the summaries of the selected
    products, in selection order; a summary holds the id, name, brand,
    category and description of its product and nothing else; the window
    shows a fixed label for that message, then the placeholder.  The second
    half runs when the call settles, in whatever state the page is then: a
    reply is appended to the log as it is then and takes the place of the
    last assistant entry that the window shows then, a failure adds its
    notice, and both buttons are enabled.  With nothing in between, the two
    halves are the listener: the log ends with the request and the reply,
    and the window with the label and the reply. *)
Theorem routine_request_sent :
  forall (st : State),
    selectedProducts st <> [] ->
    let selected := map product_summary (Map.values (selectedProducts st)) in
    let sent := messages st ++ [mkMessage user (routine_request selected)] in
    let st1 := snd (generateRoutine_start st) in
    (List.length selected = Map.size (selectedProducts st) /\
     forall p name,
       JS.prop (product_summary p) name =
       if existsb (String.eqb name) ["id"; "name"; "brand"; "category"; "description"]
       then JS.prop p name else JS.Undefined) /\
    (fst (generateRoutine_start st) = JS.Ok true /\
     trace st1 = trace st ++ [EvPost WORKER_URL sent PROMPT_ID] /\
     messages st1 = sent /\
     chatWindow st1 =
       chatWindow st ++
         [user_entry "(Selected products) See the list you provided.";
          assistant_entry "Generating routine..."]) /\
    (forall o mid,
       let st' := listener (generateRoutine_resume o) mid in
       posts (trace st') = posts (trace mid) /\
       sendBtn_disabled st' = false /\
       generateRoutineBtn_disabled st' = false /\
       (forall aiText,
          fst (sendMessagesToAI_resume o mid) = JS.Ok aiText ->
          trace st' = trace mid /\
          messages st' = messages mid ++ [mkMessage assistant aiText] /\
          chatWindow st' =
            remove_last_assistant (chatWindow mid) ++ [assistant_entry aiText]) /\
       (forall err,
          fst (sendMessagesToAI_resume o mid) = JS.Throw err ->
          trace st' = trace mid ++ [EvError (JS.message err)] /\
          messages st' = messages mid /\
          chatWindow st' =
            chatWindow mid ++
              [assistant_entry ("Error generating routine: " ++ JS.message err)%string])) /\
    (forall o,
       listener (generateRoutine_resume o) st1 = listener (generateRoutine o) st /\
       forall aiText,
         fst (sendMessagesToAI_resume o st1) = JS.Ok aiText ->
         messages (listener (generateRoutine_resume o) st1) =
           sent ++ [mkMessage assistant aiText] /\
         chatWindow (listener (generateRoutine_resume o) st1) =
           chatWindow st ++
             [user_entry "(Selected products) See the list you provided.";
              assistant_entry aiText]).
Proof.
  intros st Hne selected sent st1. subst selected sent st1.
  rewrite generateRoutine_start_eq.
  destruct (selectedProducts st) as [| kv rest] eqn:Hsel; [contradiction |].
  assert (Hsent : messages (routine_sent st) =
                  messages st ++
                    [mkMessage user
                       (routine_request (map product_summary (Map.values (kv :: rest))))]).
  { unfold routine_sent. rewrite Hsel. reflexivity. }
  cbn [fst snd].
  split; [| split; [| split]].
  - split; [unfold Map.values, Map.size; now rewrite !length_map |].
    apply product_summary_fields.
  - split; [reflexivity |].
    split; [cbn [trace with_trace]; now rewrite Hsent |].
    split; [cbn [messages with_trace]; exact Hsent |].
    unfold routine_sent. cbn. now rewrite <- app_assoc.
  - intros o mid. cbv zeta. unfold listener.
    rewrite generateRoutine_resume_eq, sendMessagesToAI_resume_eq. cbn [fst snd].
    split; [| split; [| split; [| split]]].
    + destruct (reply_of o);
        cbn [replied trace with_generateRoutineBtn with_sendBtn with_messages
               with_chatWindow with_trace]; [reflexivity |].
      rewrite posts_app. cbn. lia.
    + destruct (reply_of o); reflexivity.
    + destruct (reply_of o); reflexivity.
    + intros aiText ->. repeat split; reflexivity.
    + intros err ->. repeat split; reflexivity.
  - intro o. unfold listener.
    rewrite generateRoutine_halves, generateRoutine_start_eq, Hsel.
    split; [reflexivity |].
    intros aiText Hr. rewrite generateRoutine_resume_eq.
    rewrite sendMessagesToAI_resume_eq in Hr. cbn [fst] in Hr. rewrite Hr.
    cbn [snd replied messages chatWindow with_generateRoutineBtn with_sendBtn
           with_messages with_chatWindow with_trace].
    split; [now rewrite Hsent |].
    unfold routine_sent.
    cbn [chatWindow with_chatWindow with_sendBtn with_generateRoutineBtn with_messages].
    rewrite remove_last_assistant_snoc by reflexivity.
    now rewrite <- app_assoc.
Qed.

(** X21: the routine button follows the selection after the selection
    changes (it is disabled exactly when a click on a card of the catalog, a
    removal or a clearing leaves the selection empty), but a settled request
    enables both buttons whatever the selection: after a chat turn on an
    empty selection the routine button is enabled. *)
Theorem routine_button_state :
  forall (st : State),
    (forall productId items product,
       catalog_of st items -> product_of items (JS.Num productId) = Some product ->
       generateRoutineBtn_disabled (listener (toggleSelection productId) st) =
       Nat.eqb (Map.size (selectedProducts (listener (toggleSelection productId) st))) 0) /\
    (forall productId,
       generateRoutineBtn_disabled (listener (removeSelection productId) st) =
       Nat.eqb (Map.size (selectedProducts (listener (removeSelection productId) st))) 0) /\
    generateRoutineBtn_disabled (listener clearSelections st) = true /\
    (forall o,
       JS.trim (userInput st) <> "" ->
       sendBtn_disabled (listener (chatSubmit o) st) = false /\
       generateRoutineBtn_disabled (listener (chatSubmit o) st) = false /\
       selectedProducts (listener (chatSubmit o) st) = selectedProducts st) /\
    (forall o,
       selectedProducts st <> [] ->
       sendBtn_disabled (listener (generateRoutine o) st) = false /\
       generateRoutineBtn_disabled (listener (generateRoutine o) st) = false).
Proof.
  intro st.
  assert (Hre : forall k m,
            generateRoutineBtn_disabled (reselected k m st) = Nat.eqb (Map.size m) 0).
  { intros k m. unfold reselected.
    match goal with |- context [saved ?s] =>
      destruct (saved_fields s) as (_ & _ & _ & Hg & _) end.
    now rewrite Hg. }
  split; [| split; [| split; [| split]]].
  - intros productId items product Hcat Hp.
    rewrite (toggle_present productId st items product Hcat Hp).
    now rewrite Hre, selected_reselected.
  - intro productId. unfold listener. rewrite removeSelection_eq. cbn [snd].
    now rewrite Hre, selected_reselected.
  - unfold listener. rewrite clearSelections_eq. cbn [snd].
    match goal with |- context [saved ?s] =>
      destruct (saved_fields s) as (_ & _ & _ & Hg & _) end.
    now rewrite Hg.
  - intros o Hne.
    destruct (controls_enabled_after_request o st) as [H _].
    destruct (H Hne) as [H1 H2]. split; [exact H1 |]. split; [exact H2 |].
    unfold listener. rewrite chatSubmit_eq. cbn [snd].
    destruct (JS.trim (userInput st) =? "")%string; [reflexivity |].
    destruct (reply_of o); reflexivity.
  - intros o Hne.
    destruct (controls_enabled_after_request o st) as [_ H]. now apply H.
Qed.

(** *** The details button *)









End Script.

(** ** The script on the reference codec: scenarios *)



Lemma complete_endpoint_error_witness :
  ok Scenario.server_error = false /\
  JS.trim (userInput Scenario.asking) <> "" /\
  messages (listener (chatSubmit RefJSON.parse (Resolved Scenario.server_error))
              Scenario.asking) =
    messages Scenario.asking ++ [mkMessage user "How do I use these?"].
Proof.
  split; [reflexivity |]. split; [vm_compute; discriminate |].
  destruct (complete_endpoint_error RefJSON.parse RefJSON.stringify
              (messages Scenario.asking) Scenario.server_error Scenario.asking eq_refl)
    as (_ & _ & H & _).
  destruct H as [_ H]; [vm_compute; discriminate |].
  exact H.
Defined.

Lemma appendUser_trimmed_witness :
  JS.trim (userInput Scenario.asking) <> "" /\
  JS.trim (userInput (with_userInput "   " Scenario.loaded)) = "" /\
  messages (chat_sent Scenario.asking) =
    messages Scenario.asking ++ [mkMessage user "How do I use these?"] /\
  listener (chatSubmit RefJSON.parse (Resolved Scenario.completion_ok))
    (with_userInput "   " Scenario.loaded) = with_userInput "   " Scenario.loaded.
Proof.
  split; [vm_compute; discriminate |]. split; [reflexivity |]. split.
  - destruct (appendUser_trimmed RefJSON.parse (Resolved Scenario.completion_ok)
                Scenario.asking) as (_ & _ & H).
    destruct H as [H _]; [vm_compute; discriminate |].
    exact H.
  - destruct (appendUser_trimmed RefJSON.parse (Resolved Scenario.completion_ok)
                (with_userInput "   " Scenario.loaded)) as (H & _).
    apply H. reflexivity.
Defined.

Lemma generateRoutine_empty_selection_witness :
  selectedProducts Scenario.loaded = [] /\
  posts (trace (listener (generateRoutine RefJSON.parse RefJSON.stringify
                            (Resolved Scenario.completion_ok)) Scenario.loaded)) = 0%nat /\
  messages (listener (generateRoutine RefJSON.parse RefJSON.stringify
                        (Resolved Scenario.completion_ok)) Scenario.loaded) =
    messages Scenario.loaded.
Proof.
  split; [reflexivity |].
  destruct (generateRoutine_empty_selection RefJSON.parse RefJSON.stringify
              (Resolved Scenario.completion_ok) Scenario.loaded eq_refl)
    as (_ & Hposts & _ & Hmsgs & _).
  split; [exact Hposts | exact Hmsgs].
Defined.




Lemma persist_restore_roundtrip_witness :
  catalog_of Scenario.both_selected Scenario.catalog /\
  selection_ok Scenario.catalog (selectedProducts Scenario.both_selected) /\
  storage_usable Scenario.both_selected /\
  encoded_keys RefJSON.stringify (selectedProducts Scenario.both_selected) <> "" /\
  RefJSON.parse (encoded_keys RefJSON.stringify (selectedProducts Scenario.both_selected)) =
    JS.Ok (JS.Arr (Map.keys (selectedProducts Scenario.both_selected))) /\
  selectedProducts
    (listener (restoreSelectionsFromStorage RefJSON.parse (Resolved Scenario.catalog_ok))
       (listener (saveSelectionsToStorage RefJSON.stringify) Scenario.both_selected)) =
    selectedProducts Scenario.both_selected /\
  selectedProducts
    (listener (restoreSelectionsFromStorage RefJSON.parse (Resolved Scenario.catalog_ok))
       (initial (localStorage
                   (listener (saveSelectionsToStorage RefJSON.stringify)
                      Scenario.both_selected)))) =
    selectedProducts Scenario.both_selected.
Proof.
  assert (Hcat : catalog_of Scenario.both_selected Scenario.catalog)
    by (split; reflexivity).
  assert (Hok : selection_ok Scenario.catalog (selectedProducts Scenario.both_selected))
    by (cbn; repeat split; reflexivity).
  assert (Hu : storage_usable Scenario.both_selected) by (split; reflexivity).
  assert (Hne : encoded_keys RefJSON.stringify (selectedProducts Scenario.both_selected)
                <> "") by (vm_compute; discriminate).
  assert (Hparse :
    RefJSON.parse (encoded_keys RefJSON.stringify (selectedProducts Scenario.both_selected))
    = JS.Ok (JS.Arr (Map.keys (selectedProducts Scenario.both_selected))))
    by (vm_compute; reflexivity).
  repeat (split; [assumption |]).
  destruct (persist_restore_roundtrip RefJSON.parse RefJSON.stringify
              Scenario.both_selected Scenario.catalog (Resolved Scenario.catalog_ok)
              Hcat Hok Hu Hne Hparse) as (_ & Hsame & Hlater).
  split; [exact Hsame |].
  apply Hlater; [reflexivity | reflexivity |].
  right. split; [reflexivity |].
  exists Scenario.catalog_ok, Scenario.catalog_doc.
  split; [reflexivity |]. split; [vm_compute; reflexivity | reflexivity].
Defined.

(** C5 fails on the code: a 404 answer whose body is a JSON error report
    makes [load()] return [undefined] instead of failing with
    CatalogUnavailable, and nothing is cached; the completion client, given
    the same answer, tests the status and fails. *)
Theorem load_accepts_error_status :
  ok Scenario.not_found = false /\
  RefJSON.parse (body Scenario.not_found) = JS.Ok (JS.Obj [("error", JS.Str "Not Found")]) /\
  loadProducts RefJSON.parse (Resolved Scenario.not_found) (initial Scenario.no_record) =
    (JS.Ok JS.Undefined,
     with_trace [EvFetch PRODUCTS_URL] (initial Scenario.no_record)) /\
  fst (sendMessagesToAI RefJSON.parse [] (Resolved Scenario.not_found)
         (initial Scenario.no_record)) =
    JS.Throw (CompletionEndpointError 404 (body Scenario.not_found)).
Proof.
  split; [reflexivity |]. split; [| split]; vm_compute; reflexivity.
Qed.

(** C6 fails on the code: when the request fails, the placeholder stays in
    the chat window, before the error notice, in the chat turn and in the
    routine action alike; the notice is appended and both buttons are
    enabled again. *)
Theorem failed_request_keeps_placeholder :
  chatWindow
    (listener (chatSubmit RefJSON.parse (Resolved Scenario.server_error))
       (with_userInput "hi" Scenario.loaded)) =
    [user_entry "hi"; assistant_entry "Thinking...";
     assistant_entry "Error: Worker error: 500 server error"] /\
  chatWindow
    (listener (generateRoutine RefJSON.parse RefJSON.stringify
                 (Resolved Scenario.server_error)) Scenario.both_selected) =
    [user_entry "(Selected products) See the list you provided.";
     assistant_entry "Generating routine...";
     assistant_entry "Error generating routine: Worker error: 500 server error"] /\
  sendBtn_disabled
    (listener (chatSubmit RefJSON.parse (Resolved Scenario.server_error))
       (with_userInput "hi" Scenario.loaded)) = false /\
  generateRoutineBtn_disabled
    (listener (chatSubmit RefJSON.parse (Resolved Scenario.server_error))
       (with_userInput "hi" Scenario.loaded)) = false /\
  sendBtn_disabled
    (listener (generateRoutine RefJSON.parse RefJSON.stringify
                 (Resolved Scenario.server_error)) Scenario.both_selected) = false /\
  generateRoutineBtn_disabled
    (listener (generateRoutine RefJSON.parse RefJSON.stringify
                 (Resolved Scenario.server_error)) Scenario.both_selected) = false.
Proof.
  repeat split; vm_compute; reflexivity.
Qed.

Lemma restore_intersection_witness :
  available RefJSON.parse Scenario.stale_page (Resolved Scenario.catalog_ok)
    Scenario.catalog /\
  forallb isObject Scenario.catalog = true /\
  Map.has (JS.Num 1)
    (selectedProducts
       (listener (restoreSelectionsFromStorage RefJSON.parse (Resolved Scenario.catalog_ok))
          Scenario.stale_page)) = true /\
  Map.has (JS.Num 99)
    (selectedProducts
       (listener (restoreSelectionsFromStorage RefJSON.parse (Resolved Scenario.catalog_ok))
          Scenario.stale_page)) = false.
Proof.
  assert (Hav : available RefJSON.parse Scenario.stale_page
                  (Resolved Scenario.catalog_ok) Scenario.catalog).
  { right. split; [reflexivity |].
    exists Scenario.catalog_ok, Scenario.catalog_doc.
    split; [reflexivity |]. split; [vm_compute; reflexivity | reflexivity]. }
  split; [exact Hav |]. split; [reflexivity |].
  destruct (restore_intersection RefJSON.parse (Resolved Scenario.catalog_ok)
              Scenario.stale_page) as (_ & _ & _ & H).
  assert (Hraw : RefJSON.stringify (JS.Arr [JS.Num 1; JS.Num 99]) 0 <> "")
    by (vm_compute; discriminate).
  assert (Hparse : RefJSON.parse (RefJSON.stringify (JS.Arr [JS.Num 1; JS.Num 99]) 0)
                   = JS.Ok (JS.Arr [JS.Num 1; JS.Num 99])) by (vm_compute; reflexivity).
  destruct (H (RefJSON.stringify (JS.Arr [JS.Num 1; JS.Num 99]) 0)
              [JS.Num 1; JS.Num 99] Scenario.catalog eq_refl eq_refl Hraw Hparse Hav eq_refl)
    as (_ & Hexact & _ & Hdrop).
  split.
  - rewrite (Hexact eq_refl (JS.Num 1)). reflexivity.
  - rewrite (Hdrop (JS.Num 99) eq_refl). reflexivity.
Defined.

(** ** Further properties on the reference codec: instances *)

Lemma escapeHtml_markup_free_witness :
  markup_free "Use AM then PM." = true /\
  occurs "&"%char "Use AM then PM." = false /\
  escapeHtml "Use AM then PM." = "Use AM then PM.".
Proof.
  split; [reflexivity |]. split; [reflexivity |].
  destruct (escapeHtml_markup_free "Use AM then PM.") as [_ H].
  apply H; reflexivity.
Defined.

Lemma clearSelections_effect_witness :
  storage_usable Scenario.both_selected /\
  ls_item (localStorage (listener (clearSelections RefJSON.stringify)
                           Scenario.both_selected)) =
    Some (encoded_keys RefJSON.stringify []).
Proof.
  assert (Hu : storage_usable Scenario.both_selected) by (split; reflexivity).
  split; [exact Hu |].
  destruct (clearSelections_effect RefJSON.parse RefJSON.stringify
              Scenario.both_selected Scenario.offline)
    as (_ & _ & _ & _ & _ & _ & H & _).
  exact (H Hu).
Defined.


Lemma selection_invariant_witness :
  Forall (static_catalog RefJSON.parse (JS.Arr Scenario.catalog))
    [Starts PageOpens; Starts (CategoryPicked "hair");
     CatalogSettles 0 (Resolved Scenario.catalog_ok);
     CatalogSettles 0 (Resolved Scenario.catalog_ok);
     Starts (CardClicked 2)] /\
  In (JS.Num 2, Scenario.shampoo)
    (selectedProducts
       (current
          (occur_all RefJSON.parse RefJSON.stringify
             [Starts PageOpens; Starts (CategoryPicked "hair");
              CatalogSettles 0 (Resolved Scenario.catalog_ok);
              CatalogSettles 0 (Resolved Scenario.catalog_ok);
              Starts (CardClicked 2)]
             (opened Scenario.stale_record)))) /\
  JS.truthy Scenario.shampoo = true.
Proof.
  assert (Hstatic : forall i,
            static_catalog RefJSON.parse (JS.Arr Scenario.catalog)
              (CatalogSettles i (Resolved Scenario.catalog_ok))).
  { intros i data Hp _. vm_compute in Hp. injection Hp as <-. reflexivity. }
  assert (Hall : Forall (static_catalog RefJSON.parse (JS.Arr Scenario.catalog))
            [Starts PageOpens; Starts (CategoryPicked "hair");
             CatalogSettles 0 (Resolved Scenario.catalog_ok);
             CatalogSettles 0 (Resolved Scenario.catalog_ok);
             Starts (CardClicked 2)]).
  { repeat constructor; apply Hstatic. }
  assert (Hin : In (JS.Num 2, Scenario.shampoo)
    (selectedProducts
       (current
          (occur_all RefJSON.parse RefJSON.stringify
             [Starts PageOpens; Starts (CategoryPicked "hair");
              CatalogSettles 0 (Resolved Scenario.catalog_ok);
              CatalogSettles 0 (Resolved Scenario.catalog_ok);
              Starts (CardClicked 2)]
             (opened Scenario.stale_record))))) by (vm_compute; right; now left).
  split; [exact Hall |]. split; [exact Hin |].
  destruct (selection_invariant RefJSON.parse RefJSON.stringify Scenario.stale_record
              (JS.Arr Scenario.catalog) _ Hall) as (H & _).
  destruct (H _ _ Hin) as (_ & Ht & _). exact Ht.
Defined.

Lemma updateCardHighlight_first_card_witness :
  primitive (JS.Num 2) = true /\
  selector_text (JS.to_String (JS.Num 2)) = true /\
  productCards Scenario.grid = [mkCard "1" false] ++ mkCard "2" false :: [] /\
  productCards (snd (updateCardHighlight (JS.Num 2) Scenario.grid)) =
    [mkCard "1" false; mkCard "2" true].
Proof.
  split; [reflexivity |]. split; [reflexivity |]. split; [reflexivity |].
  destruct (updateCardHighlight_first_card (JS.Num 2) Scenario.grid eq_refl eq_refl)
    as (_ & _ & _ & _ & H & _).
  exact (H [mkCard "1" false] (mkCard "2" false) [] eq_refl eq_refl eq_refl).
Defined.

Lemma displayProducts_cards_witness :
  forallb card_safe Scenario.catalog = true /\
  productCards (snd (displayProducts Scenario.catalog Scenario.grid)) =
    [mkCard "1" false; mkCard "2" true].
Proof.
  split; [reflexivity |].
  destruct (displayProducts_cards Scenario.catalog Scenario.grid) as (_ & _ & _ & H & _).
  destruct (H eq_refl) as (_ & Hcards & _).
  rewrite Hcards. reflexivity.
Defined.


Lemma saveSelectionsToStorage_swallows_errors_witness :
  ls_disabled (localStorage Scenario.full) || ls_full (localStorage Scenario.full) = true /\
  localStorage (listener (removeSelection RefJSON.stringify 1) Scenario.full) =
    localStorage Scenario.full /\
  selectedProducts (listener (removeSelection RefJSON.stringify 1) Scenario.full) =
    [(JS.Num 2, Scenario.shampoo)].
Proof.
  split; [reflexivity |].
  destruct (saveSelectionsToStorage_swallows_errors RefJSON.stringify Scenario.full 1)
    as (_ & _ & _ & _ & Hsel & Hls).
  split; [exact (Hls eq_refl) |].
  rewrite Hsel. reflexivity.
Defined.


Lemma sendMessagesToAI_failures_witness :
  ok Scenario.blank_reply = true /\
  RefJSON.parse (body Scenario.blank_reply) = JS.Ok (JS.Obj [("content", JS.Str "   ")]) /\
  fst (sendMessagesToAI RefJSON.parse (messages Scenario.loaded)
         (Resolved Scenario.blank_reply) Scenario.loaded) = JS.Ok "" /\
  fst (sendMessagesToAI RefJSON.parse (messages Scenario.loaded)
         Scenario.offline Scenario.loaded) = JS.Throw (JS.TypeError "Failed to fetch").
Proof.
  assert (Hp : RefJSON.parse (body Scenario.blank_reply)
               = JS.Ok (JS.Obj [("content", JS.Str "   ")])) by (vm_compute; reflexivity).
  split; [reflexivity |]. split; [exact Hp |]. split.
  - destruct (sendMessagesToAI_failures RefJSON.parse (messages Scenario.loaded)
                (Resolved Scenario.blank_reply) Scenario.loaded) as (_ & _ & _ & H).
    rewrite (H Scenario.blank_reply _ "   " eq_refl eq_refl Hp eq_refl);
      [reflexivity | discriminate].
  - destruct (sendMessagesToAI_failures RefJSON.parse (messages Scenario.loaded)
                Scenario.offline Scenario.loaded) as (_ & H & _).
    exact (H _ eq_refl).
Defined.

Lemma restore_idempotent_witness :
  available RefJSON.parse Scenario.stale_page (Resolved Scenario.catalog_ok)
    Scenario.catalog /\
  selectedProducts
    (listener (restoreSelectionsFromStorage RefJSON.parse Scenario.offline)
       (listener (restoreSelectionsFromStorage RefJSON.parse (Resolved Scenario.catalog_ok))
          Scenario.stale_page)) =
  selectedProducts
    (listener (restoreSelectionsFromStorage RefJSON.parse (Resolved Scenario.catalog_ok))
       Scenario.stale_page).
Proof.
  assert (Hav : available RefJSON.parse Scenario.stale_page
                  (Resolved Scenario.catalog_ok) Scenario.catalog).
  { right. split; [reflexivity |].
    exists Scenario.catalog_ok, Scenario.catalog_doc.
    split; [reflexivity |]. split; [vm_compute; reflexivity | reflexivity]. }
  split; [exact Hav |].
  assert (Hraw : RefJSON.stringify (JS.Arr [JS.Num 1; JS.Num 99]) 0 <> "")
    by (vm_compute; discriminate).
  assert (Hparse : RefJSON.parse (RefJSON.stringify (JS.Arr [JS.Num 1; JS.Num 99]) 0)
                   = JS.Ok (JS.Arr [JS.Num 1; JS.Num 99])) by (vm_compute; reflexivity).
  destruct (restore_idempotent RefJSON.parse (Resolved Scenario.catalog_ok)
              Scenario.offline Scenario.stale_page
              (RefJSON.stringify (JS.Arr [JS.Num 1; JS.Num 99]) 0)
              [JS.Num 1; JS.Num 99] Scenario.catalog
              eq_refl eq_refl Hraw Hparse Hav eq_refl) as [_ H].
  exact H.
Defined.

Lemma restore_without_catalog_witness :
  fst (loadProducts RefJSON.parse Scenario.offline Scenario.stale_page) =
    JS.Throw (JS.TypeError "Failed to fetch") /\
  selectedProducts
    (snd (restoreSelectionsFromStorage RefJSON.parse Scenario.offline Scenario.stale_page))
    = [] /\
  fst (restoreSelectionsFromStorage RefJSON.parse Scenario.offline Scenario.stale_page)
    = JS.Ok tt.
Proof.
  split; [reflexivity |].
  assert (Hraw : RefJSON.stringify (JS.Arr [JS.Num 1; JS.Num 99]) 0 <> "")
    by (vm_compute; discriminate).
  assert (Hparse : RefJSON.parse (RefJSON.stringify (JS.Arr [JS.Num 1; JS.Num 99]) 0)
                   = JS.Ok (JS.Arr [JS.Num 1; JS.Num 99])) by (vm_compute; reflexivity).
  rewrite (restore_without_catalog RefJSON.parse Scenario.offline Scenario.stale_page
             (RefJSON.stringify (JS.Arr [JS.Num 1; JS.Num 99]) 0)
             [JS.Num 1; JS.Num 99] (JS.TypeError "Failed to fetch")
             eq_refl eq_refl Hraw Hparse eq_refl).
  split; reflexivity.
Defined.


Lemma chat_turn_request_witness :
  JS.trim (userInput Scenario.asking) <> "" /\
  messages
    (listener (chatSubmit_resume RefJSON.parse (Resolved Scenario.completion_ok))
       (snd (chatSubmit_start Scenario.asking))) =
    (messages Scenario.asking ++ [mkMessage user "How do I use these?"])
      ++ [mkMessage assistant "Use AM then PM."].
Proof.
  assert (Hne : JS.trim (userInput Scenario.asking) <> "") by (vm_compute; discriminate).
  split; [exact Hne |].
  destruct (chat_turn_request RefJSON.parse Scenario.asking Hne) as (_ & _ & H & _).
  destruct (H (Resolved Scenario.completion_ok)) as [_ H'].
  destruct (H' "Use AM then PM.") as [Hm _]; [vm_compute; reflexivity |].
  exact Hm.
Defined.

Lemma routine_request_sent_witness :
  selectedProducts Scenario.both_selected <> [] /\
  chatWindow
    (listener (generateRoutine_resume RefJSON.parse (Resolved Scenario.completion_ok))
       (snd (generateRoutine_start RefJSON.stringify Scenario.both_selected))) =
    chatWindow Scenario.both_selected ++
      [user_entry "(Selected products) See the list you provided.";
       assistant_entry "Use AM then PM."].
Proof.
  assert (Hne : selectedProducts Scenario.both_selected <> []) by discriminate.
  split; [exact Hne |].
  destruct (routine_request_sent RefJSON.parse RefJSON.stringify
              Scenario.both_selected Hne) as (_ & _ & _ & H).
  destruct (H (Resolved Scenario.completion_ok)) as [_ H'].
  destruct (H' "Use AM then PM.") as [_ Hw]; [vm_compute; reflexivity |].
  exact Hw.
Defined.

Lemma routine_button_state_witness :
  selectedProducts Scenario.asking = [] /\
  JS.trim (userInput Scenario.asking) <> "" /\
  generateRoutineBtn_disabled Scenario.asking = true /\
  generateRoutineBtn_disabled
    (listener (chatSubmit RefJSON.parse (Resolved Scenario.completion_ok))
       Scenario.asking) = false /\
  selectedProducts
    (listener (chatSubmit RefJSON.parse (Resolved Scenario.completion_ok))
       Scenario.asking) = [].
Proof.
  assert (Hne : JS.trim (userInput Scenario.asking) <> "") by (vm_compute; discriminate).
  split; [reflexivity |]. split; [exact Hne |]. split; [reflexivity |].
  destruct (routine_button_state RefJSON.parse RefJSON.stringify Scenario.asking)
    as (_ & _ & _ & H & _).
  destruct (H (Resolved Scenario.completion_ok) Hne) as (_ & Hg & Hs).
  split; [exact Hg | exact Hs].
Defined.



Lemma catalog_fetched_once_witness :
  JS.truthy (allProductsCache (current (mkPage Scenario.loaded "" []))) = true /\
  forallb awaits_reply (pending (mkPage Scenario.loaded "" [])) = true /\
  fetches
    (trace
       (current
          (occur_all RefJSON.parse RefJSON.stringify
             [Starts (CategoryPicked "hair"); Starts (ChatSent "hi"); Starts PageOpens;
              ReplySettles 0 (Resolved Scenario.completion_ok);
              CatalogSettles 0 (Resolved Scenario.not_found); Starts (CardClicked 2)]
             (mkPage Scenario.loaded "" [])))) = 0%nat /\
  allProductsCache
    (current
       (occur_all RefJSON.parse RefJSON.stringify
          [Starts (CategoryPicked "hair"); Starts (ChatSent "hi"); Starts PageOpens;
           ReplySettles 0 (Resolved Scenario.completion_ok);
           CatalogSettles 0 (Resolved Scenario.not_found); Starts (CardClicked 2)]
          (mkPage Scenario.loaded "" []))) = JS.Arr Scenario.catalog.
Proof.
  split; [reflexivity |]. split; [reflexivity |].
  destruct (catalog_fetched_once RefJSON.parse RefJSON.stringify
              (mkPage Scenario.loaded "" [])
              [Starts (CategoryPicked "hair"); Starts (ChatSent "hi"); Starts PageOpens;
               ReplySettles 0 (Resolved Scenario.completion_ok);
               CatalogSettles 0 (Resolved Scenario.not_found); Starts (CardClicked 2)]
              eq_refl eq_refl) as (Hcache & Hfetch & _).
  split; [exact Hfetch | exact Hcache].
Defined.
